(** * Mitra Platform SDK: the authenticated-request core

    A shallow embedding of [HttpClient] (utils/http-client.ts), of
    [AuthModule] (modules/auth.ts), of the resource modules (entities,
    functions, integration, queries) and of [createClient] (client.ts),
    and the properties of the session / request subsystem proved or
    refuted on it.

    Modelling conventions.
    - Run-time data is untyped, as in JavaScript: every value that comes
      from JSON (server replies, the stored session record) or that is
      declared [unknown] / [any] is a [JSValue].
    - The program runs against one mutable [World]: the fields of the
      single [AuthModule] instance, [localStorage], [window], the console,
      and the network.  The network is a script of replies consumed in
      order by [fetch]; every [fetch] call is logged in [sent].
    - [localStorage] is absent (no browser), or present; when present,
      its methods may throw (storage disabled, quota reached), and the
      page may be denied the storage altogether, in which case reading
      the global [localStorage] itself throws.
    - An [async] function is a computation [M A]: a state transformer that
      resolves with a value or rejects with an exception.  [await] is
      sequencing.  The one place where interleaving matters, the pending
      refresh, is also given as a coroutine resumed by network replies. *)

From Stdlib Require Import ZArith Ascii String List DecimalString.
From Stdlib Require Import Floats.SpecFloat.
From stdpp Require Import base strings gmap list.

Open Scope string_scope.
Open Scope list_scope.
Open Scope Z_scope.
Local Set Warnings "-register-all".

(* ===================================================================== *)
(** ** JavaScript values *)
(* ===================================================================== *)

(** Numbers are IEEE-754 doubles.  An object is the list of its own
    properties in the order the engine enumerates them ([Object.entries],
    [JSON.stringify], spread): keys that are array indices first, in
    ascending order, then the other keys in the order of their insertion.
    Keys are unique in an object built by [JSON.parse] or by an object
    literal. *)
Inductive JSValue : Type :=
| JUndefined
| JNull
| JBool (b : bool)
| JNum (x : spec_float)
| JStr (s : string)
| JArr (items : list JSValue)
| JObj (props : list (string * JSValue)).

(** ToBoolean: what [if (v)], [!v], [a || b] and [c ? x : y] test. *)
Definition truthy (v : JSValue) : bool :=
  match v with
  | JUndefined | JNull => false
  | JBool b => b
  | JNum (S754_zero _) | JNum S754_nan => false
  | JNum _ => true
  | JStr s => negb (String.eqb s "")
  | JArr _ | JObj _ => true
  end.

Definition falsy (v : JSValue) : bool := negb (truthy v).

(** [a || b] *)
Definition js_or (a b : JSValue) : JSValue := if truthy a then a else b.

(** [a ?? b] *)
Definition nullish_or (a b : JSValue) : JSValue :=
  match a with
  | JUndefined | JNull => b
  | _ => a
  end.

(** [v !== null] *)
Definition not_null (v : JSValue) : bool :=
  match v with JNull => false | _ => true end.

(** Own property of an object; [undefined] when the key is missing. *)
Fixpoint own (key : string) (props : list (string * JSValue)) : JSValue :=
  match props with
  | [] => JUndefined
  | (k, v) :: rest => if String.eqb key k then v else own key rest
  end.

(** JSON numbers and integers used in examples. *)
Definition num (n : positive) : JSValue := JNum (S754_finite false n 0).
Definition zero : JSValue := JNum (S754_zero false).
Definition minus_zero : JSValue := JNum (S754_zero true).
Definition NaN : JSValue := JNum S754_nan.

(* --------------------------------------------------------------------- *)
(** *** JSON text *)

(** A piece of text is known through what [JSON.parse] does with it: it
    denotes a document, or it is rejected with a SyntaxError. *)
Inductive Text : Type :=
| JsonText (doc : JSValue)
| RawText (raw : string).

(** The document [JSON.stringify] writes for a value in property or
    element position: [undefined] elements and non-finite numbers become
    [null], [-0] becomes [0], properties whose value is [undefined] are
    left out. *)
Fixpoint jsonify (v : JSValue) : JSValue :=
  match v with
  | JUndefined => JNull
  | JNull => JNull
  | JBool b => JBool b
  | JNum (S754_zero _) => JNum (S754_zero false)
  | JNum (S754_finite s m e) => JNum (S754_finite s m e)
  | JNum _ => JNull
  | JStr s => JStr s
  | JArr items => JArr (List.map jsonify items)
  | JObj props =>
      JObj ((fix fields (ps : list (string * JSValue)) :=
               match ps with
               | [] => []
               | (k, JUndefined) :: rest => fields rest
               | (k, x) :: rest => (k, jsonify x) :: fields rest
               end) props)
  end.

(** [JSON.stringify(v)]: [undefined] at top level gives no text at all. *)
Definition JSON_stringify (v : JSValue) : option Text :=
  match v with
  | JUndefined => None
  | _ => Some (JsonText (jsonify v))
  end.

(** A text is truthy when it is not the empty string. *)
Definition text_truthy (t : Text) : bool :=
  match t with
  | JsonText _ => true
  | RawText raw => negb (String.eqb raw "")
  end.

(* ===================================================================== *)
(** ** Conversions to text *)
(* ===================================================================== *)

(** A [string] stands for a well-formed JavaScript string through its
    UTF-8 code units.  [String(v)], template literals and the constructor
    of [Error] need the text of a number; the model is parametric in that
    one conversion of the engine.  Objects are plain: none has a
    property [toString] or [valueOf] of its own, so that the conversion of
    an object is that of [Object.prototype]. *)
Section ToString.

Variable Number_toString : spec_float -> string.

(** [String(v)], [`${v}`] *)
Fixpoint ToString (v : JSValue) : string :=
  match v with
  | JUndefined => "undefined"
  | JNull => "null"
  | JBool b => if b then "true" else "false"
  | JNum x => Number_toString x
  | JStr s => s
  | JArr items =>
      String.concat ","
        (List.map (fun x => match x with
                            | JUndefined | JNull => ""
                            | _ => ToString x
                            end) items)
  | JObj _ => "[object Object]"
  end.

(** [items.join(separator)] *)
Definition Array_join (separator : string) (items : list JSValue) : string :=
  String.concat separator
    (List.map (fun x => match x with
                        | JUndefined | JNull => ""
                        | _ => ToString x
                        end) items).

End ToString.

(* ===================================================================== *)
(** ** Errors *)
(* ===================================================================== *)

(** [class MitraApiError extends Error].  [message] is a string: its
    characters, given the engine's text of numbers. *)
Module MitraApiError.

Record t : Type := make {
  message : (spec_float -> string) -> string;
  status : Z;
  code : JSValue;
  details : JSValue
}.

(** [constructor(message, status, code?, details?)]: [super(message)]
    stores the string conversion of its argument (the empty message of
    the prototype shows when the argument is [undefined]); the other
    three are kept as they are. *)
Definition new (message : JSValue) (status : Z) (code details : JSValue) : t :=
  make (fun Number_toString =>
          match message with
          | JUndefined => ""
          | _ => ToString Number_toString message
          end)
       status code details.

End MitraApiError.

(** What a promise can reject with / a function can throw. *)
Inductive Exn : Type :=
| ApiError (e : MitraApiError.t)   (* [error instanceof MitraApiError] *)
| TypeError (what : string)        (* property read on null / undefined *)
| ReferenceError (name : string)   (* use of an undeclared global *)
| SyntaxError                      (* JSON.parse / response.json() *)
| FetchFailed                      (* the transport rejected: no HTTP status *)
| StorageError                     (* localStorage is full, disabled or denied *)
| Raised (tag : nat)               (* raised by foreign code: hook, listener, callback *)
| FuelExhausted.                   (* artefact of [request_fuel]; see [request_fuel_stable] *)

Inductive Outcome (A : Type) : Type :=
| Resolve (a : A)
| Reject (e : Exn).
Arguments Resolve {A} a.
Arguments Reject {A} e.

(** [o.key]: reading a property of [null] or [undefined] throws. *)
Definition getprop (o : JSValue) (key : string) : Outcome JSValue :=
  match o with
  | JUndefined | JNull => Reject (TypeError key)
  | JObj props => Resolve (own key props)
  | _ => Resolve JUndefined
  end.

(** [JSON.parse(text)] *)
Definition JSON_parse (t : Text) : Outcome JSValue :=
  match t with
  | JsonText doc => Resolve doc
  | RawText _ => Reject SyntaxError
  end.

(* ===================================================================== *)
(** ** The world the SDK runs in *)
(* ===================================================================== *)

Inductive Method : Type := GET | POST | PUT | DELETE | PATCH.

(** [interface RequestOptions] *)
Record RequestOptions : Type := {
  method : option Method;
  body : JSValue;
  headers : option (gmap string string);
  params : option (list (string * JSValue));
  isRetry : option bool
}.

(** A header value: literal text, or the template [`Bearer ${token}`]. *)
Inductive HeaderValue : Type :=
| HText (s : string)
| HBearer (token : JSValue).

(** [`${baseUrl}${path}`] followed, when [query] is not empty, by [?] and
    the URL-encoded entries; an entry [(k, v)] stands for [k=String(v)]. *)
Record Url : Type := {
  address : string;
  query : list (string * JSValue)
}.

(** The arguments of one [fetch(url, { method, headers, body })] call. *)
Record Request : Type := {
  req_url : Url;
  req_method : Method;
  req_headers : gmap string HeaderValue;
  req_body : option Text
}.

(** What [fetch] resolves with: [response.status] and the body text that
    [response.json()] parses. *)
Record Response : Type := {
  status : Z;
  payload : Text
}.

Inductive FetchOutcome : Type :=
| Responded (r : Response)
| NetworkDown.

(** An auth-state listener is foreign code: called with the current user
    it returns, or raises. *)
Record Listener : Type := {
  lid : nat;
  reaction : JSValue -> option Exn
}.

Record Storage : Type := {
  items : gmap string Text;
  full : bool;        (* setItem throws *)
  disabled : bool;    (* every method throws *)
  denied : bool       (* reading the global [localStorage] itself throws *)
}.

(** The pending promise of [doRefresh()], known by where the function is
    suspended: inside [publicClient.post(...)] or inside
    [authedClient.get(...)], with the local variables of that point. *)
Inductive RefreshPhase : Type :=
| AwaitingTokens (options : RequestOptions)
| AwaitingMe (tokenResponse : JSValue) (options : RequestOptions).

(** The private fields of [class AuthModule].  [publicClient] and
    [authedClient] are rebuilt from [iamBaseUrl] where they are used. *)
Record AuthModule : Type := {
  appId : string;
  iamBaseUrl : string;
  _currentUser : JSValue;
  _accessToken : JSValue;
  _refreshToken : JSValue;
  refreshPromise : option RefreshPhase;
  listeners : list Listener
}.

Record World : Type := {
  auth : AuthModule;
  localStorage : option Storage;          (* None: typeof localStorage === 'undefined' *)
  window : option string;                 (* window.location.href *)
  network : list FetchOutcome;            (* replies still to come *)
  sent : list Request;                    (* every fetch call so far *)
  console : list (string * Exn);          (* console.error *)
  notified : list (nat * JSValue);        (* every listener call so far *)
  reported : list MitraApiError.t         (* every onError call so far *)
}.

(* --------------------------------------------------------------------- *)
(** *** Field updates *)

Definition with_auth (f : AuthModule -> AuthModule) (w : World) : World :=
  {| auth := f (auth w); localStorage := localStorage w; window := window w;
     network := network w; sent := sent w; console := console w;
     notified := notified w; reported := reported w |}.

Definition with_localStorage (s : option Storage) (w : World) : World :=
  {| auth := auth w; localStorage := s; window := window w;
     network := network w; sent := sent w; console := console w;
     notified := notified w; reported := reported w |}.

Definition with_window (h : option string) (w : World) : World :=
  {| auth := auth w; localStorage := localStorage w; window := h;
     network := network w; sent := sent w; console := console w;
     notified := notified w; reported := reported w |}.

Definition with_network (n : list FetchOutcome) (w : World) : World :=
  {| auth := auth w; localStorage := localStorage w; window := window w;
     network := n; sent := sent w; console := console w;
     notified := notified w; reported := reported w |}.

Definition with_sent (l : list Request) (w : World) : World :=
  {| auth := auth w; localStorage := localStorage w; window := window w;
     network := network w; sent := l; console := console w;
     notified := notified w; reported := reported w |}.

Definition with_console (l : list (string * Exn)) (w : World) : World :=
  {| auth := auth w; localStorage := localStorage w; window := window w;
     network := network w; sent := sent w; console := l;
     notified := notified w; reported := reported w |}.

Definition with_notified (l : list (nat * JSValue)) (w : World) : World :=
  {| auth := auth w; localStorage := localStorage w; window := window w;
     network := network w; sent := sent w; console := console w;
     notified := l; reported := reported w |}.

Definition with_reported (l : list MitraApiError.t) (w : World) : World :=
  {| auth := auth w; localStorage := localStorage w; window := window w;
     network := network w; sent := sent w; console := console w;
     notified := notified w; reported := l |}.

Definition set_currentUser (v : JSValue) (a : AuthModule) : AuthModule :=
  {| appId := appId a; iamBaseUrl := iamBaseUrl a; _currentUser := v;
     _accessToken := _accessToken a; _refreshToken := _refreshToken a;
     refreshPromise := refreshPromise a; listeners := listeners a |}.

Definition set_accessToken (v : JSValue) (a : AuthModule) : AuthModule :=
  {| appId := appId a; iamBaseUrl := iamBaseUrl a; _currentUser := _currentUser a;
     _accessToken := v; _refreshToken := _refreshToken a;
     refreshPromise := refreshPromise a; listeners := listeners a |}.

Definition set_refreshToken (v : JSValue) (a : AuthModule) : AuthModule :=
  {| appId := appId a; iamBaseUrl := iamBaseUrl a; _currentUser := _currentUser a;
     _accessToken := _accessToken a; _refreshToken := v;
     refreshPromise := refreshPromise a; listeners := listeners a |}.

Definition set_refreshPromise (p : option RefreshPhase) (a : AuthModule) : AuthModule :=
  {| appId := appId a; iamBaseUrl := iamBaseUrl a; _currentUser := _currentUser a;
     _accessToken := _accessToken a; _refreshToken := _refreshToken a;
     refreshPromise := p; listeners := listeners a |}.

Definition set_listeners (l : list Listener) (a : AuthModule) : AuthModule :=
  {| appId := appId a; iamBaseUrl := iamBaseUrl a; _currentUser := _currentUser a;
     _accessToken := _accessToken a; _refreshToken := _refreshToken a;
     refreshPromise := refreshPromise a; listeners := l |}.

(** The Session of the specification: the three identity fields. *)
Definition session (w : World) : JSValue * JSValue * JSValue :=
  (_currentUser (auth w), _accessToken (auth w), _refreshToken (auth w)).

(* ===================================================================== *)
(** ** Computations: state, exceptions, try / catch / finally *)
(* ===================================================================== *)

Definition M (A : Type) : Type := World -> Outcome A * World.

Definition ret {A} (a : A) : M A := fun w => (Resolve a, w).

Definition throw {A} (e : Exn) : M A := fun w => (Reject e, w).

Definition bind {A B} (m : M A) (k : A -> M B) : M B :=
  fun w =>
    match m w with
    | (Resolve a, w') => k a w'
    | (Reject e, w') => (Reject e, w')
    end.

Notation "'let*' x ':=' m 'in' k" := (bind m (fun x => k))
  (at level 10, x name, m at level 100, k at level 200).
Notation "m ';;;' k" := (bind m (fun _ => k))
  (at level 100, k at level 200, right associativity).

Definition gets {A} (f : World -> A) : M A := fun w => (Resolve (f w), w).

Definition modify (f : World -> World) : M unit := fun w => (Resolve tt, f w).

Definition lift {A} (o : Outcome A) : M A := fun w => (o, w).

(** [try { m } catch (e) { handler e }] *)
Definition try_catch {A} (m : M A) (handler : Exn -> M A) : M A :=
  fun w =>
    match m w with
    | (Resolve a, w') => (Resolve a, w')
    | (Reject e, w') => handler e w'
    end.

(** [try { m } finally { final }] for a [final] block that cannot throw. *)
Definition try_finally {A} (m : M A) (final : World -> World) : M A :=
  fun w => let (r, w') := m w in (r, final w').

Definition when (b : bool) (m : M unit) : M unit := if b then m else ret tt.

(** The result and the final world of a run. *)
Definition result {A} (r : Outcome A * World) : Outcome A := fst r.
Definition after {A} (r : Outcome A * World) : World := snd r.

(* ===================================================================== *)
(** ** The environment: network, storage, console *)
(* ===================================================================== *)

(** [fetch(url, init)] in three moves: the call is logged; the next
    scripted reply is consumed (with none left the transport fails); the
    awaiting code is resumed with a response or a rejection. *)
Definition send (req : Request) (w : World) : World :=
  with_sent (sent w ++ [req]) w.

Definition next_reply : M FetchOutcome :=
  fun w =>
    match network w with
    | reply :: rest => (Resolve reply, with_network rest w)
    | [] => (Resolve NetworkDown, w)
    end.

Definition arrive (reply : FetchOutcome) : Outcome Response :=
  match reply with
  | Responded r => Resolve r
  | NetworkDown => Reject FetchFailed
  end.

Definition fetch (req : Request) : M Response :=
  modify (send req);;;
  let* reply := next_reply in
  lift (arrive reply).

(** [response.ok] *)
Definition ok (r : Response) : bool := (200 <=? status r) && (status r <=? 299).

(** [response.json()] *)
Definition json (r : Response) : Outcome JSValue := JSON_parse (payload r).

Definition console_error (label : string) (e : Exn) : M unit :=
  modify (fun w => with_console (console w ++ [(label, e)]) w).

(** [typeof localStorage === 'undefined']: the global is read; where the
    page is denied its storage that read throws. *)
Definition localStorage_is_undefined : M bool :=
  fun w =>
    match localStorage w with
    | None => (Resolve true, w)
    | Some st => if denied st then (Reject StorageError, w) else (Resolve false, w)
    end.

Definition localStorage_getItem (key : string) : M (option Text) :=
  fun w =>
    match localStorage w with
    | None => (Reject (ReferenceError "localStorage"), w)
    | Some st =>
        if denied st || disabled st then (Reject StorageError, w)
        else (Resolve (items st !! key), w)
    end.

(** [setItem] stores the string conversion of its argument. *)
Definition localStorage_setItem (key : string) (value : option Text) : M unit :=
  fun w =>
    match localStorage w with
    | None => (Reject (ReferenceError "localStorage"), w)
    | Some st =>
        if denied st || disabled st || full st then (Reject StorageError, w)
        else
          let text := match value with Some t => t | None => RawText "undefined" end in
          (Resolve tt,
           with_localStorage
             (Some {| items := <[key := text]> (items st); full := full st;
                      disabled := disabled st; denied := denied st |}) w)
    end.

Definition localStorage_removeItem (key : string) : M unit :=
  fun w =>
    match localStorage w with
    | None => (Reject (ReferenceError "localStorage"), w)
    | Some st =>
        if denied st || disabled st then (Reject StorageError, w)
        else
          (Resolve tt,
           with_localStorage
             (Some {| items := delete key (items st); full := full st;
                      disabled := disabled st; denied := denied st |}) w)
    end.

(* ===================================================================== *)
(** ** HttpClient (utils/http-client.ts) *)
(* ===================================================================== *)

Record HttpClientConfig : Type := {
  cfg_baseUrl : string;
  cfg_getToken : option (World -> JSValue);
  cfg_onUnauthorized : option (M bool);
  cfg_onError : option (MitraApiError.t -> option Exn);
  cfg_defaultHeaders : option (gmap string string)
}.

Record HttpClient : Type := {
  baseUrl : string;
  tokenGetter : World -> JSValue;
  onUnauthorized : option (M bool);
  onError : option (MitraApiError.t -> option Exn);
  defaultHeaders : gmap string string
}.

(** [s.replace(/\/$/, '')]: one trailing slash is removed. *)
Fixpoint strip_trailing_slash (s : string) : string :=
  match s with
  | EmptyString => EmptyString
  | String c EmptyString => if Ascii.eqb c "/"%char then EmptyString else s
  | String c rest => String c (strip_trailing_slash rest)
  end.

(** [constructor(config: HttpClientConfig)] *)
Definition new_HttpClient (config : HttpClientConfig) : HttpClient :=
  {| baseUrl := strip_trailing_slash (cfg_baseUrl config);
     tokenGetter := default (fun _ => JNull) (cfg_getToken config);
     onUnauthorized := cfg_onUnauthorized config;
     onError := cfg_onError config;
     defaultHeaders := default ∅ (cfg_defaultHeaders config) |}.

Definition is_undefined (v : JSValue) : bool :=
  match v with JUndefined => true | _ => false end.

(** The entries appended to [searchParams], in the order in which
    [Object.entries(params)] gives them (the order of the property list,
    see [JSValue]): those whose value is not [undefined]. *)
Definition searchParams (params : option (list (string * JSValue)))
  : list (string * JSValue) :=
  match params with
  | Some entries => List.filter (fun kv => negb (is_undefined (snd kv))) entries
  | None => []
  end.

(** [{ 'Content-Type': 'application/json', ...defaultHeaders, ...headers }]
    and then [Authorization] when the token is truthy. *)
Definition requestHeaders (c : HttpClient) (options : RequestOptions)
    (token : JSValue) : gmap string HeaderValue :=
  let merged : gmap string HeaderValue :=
    (HText <$> default ∅ (headers options))
      ∪ (HText <$> defaultHeaders c)
      ∪ {[ "Content-Type" := HText "application/json" ]} in
  if truthy token then <[ "Authorization" := HBearer token ]> merged else merged.

(** Everything [request] computes before it calls [fetch]. *)
Definition buildRequest (c : HttpClient) (path : string) (options : RequestOptions)
    (w : World) : Request :=
  {| req_url := {| address := baseUrl c +:+ path; query := searchParams (params options) |};
     req_method := default GET (method options);
     req_headers := requestHeaders c options (tokenGetter c w);
     req_body := if truthy (body options) then JSON_stringify (body options) else None |}.

(** [this.onError?.(error)] *)
Definition callOnError (c : HttpClient) (error : MitraApiError.t) : M unit :=
  match onError c with
  | None => ret tt
  | Some hook =>
      modify (fun w => with_reported (reported w ++ [error]) w);;;
      match hook error with
      | None => ret tt
      | Some e => throw e
      end
  end.

Definition show_status (n : Z) : string := NilZero.string_of_int (Z.to_int n).

(** [await response.json().catch(() => ({}))] *)
Definition errorBody_of (response : Response) : JSValue :=
  match json response with
  | Resolve v => v
  | Reject _ => JObj []
  end.

(** [new MitraApiError(errorBody.message || `Request failed with status
    ${response.status}`, response.status, errorBody.error_code, errorBody)] *)
Definition newMitraApiError (response : Response) (errorBody : JSValue)
  : M MitraApiError.t :=
  let* message := lift (getprop errorBody "message") in
  let* error_code := lift (getprop errorBody "error_code") in
  ret (MitraApiError.new
         (js_or message
            (JStr ("Request failed with status " +:+ show_status (status response))))
         (status response) error_code errorBody).

(** The tail of the [if (!response.ok)] block: build the MitraApiError,
    hand it to the hook, throw it. *)
Definition raiseApiError (c : HttpClient) (response : Response) : M JSValue :=
  let* error := newMitraApiError response (errorBody_of response) in
  callOnError c error;;;
  throw (ApiError error).

Definition is_retry (options : RequestOptions) : bool := default false (isRetry options).

(** [{ ...options, isRetry: true }] *)
Definition retried (options : RequestOptions) : RequestOptions :=
  {| method := method options; body := body options; headers := headers options;
     params := params options; isRetry := Some true |}.

(** Everything [request] does once [fetch] has resolved; [again] is the
    recursive call [this.request(path, { ...options, isRetry: true })]. *)
Definition afterFetch (again : M JSValue) (c : HttpClient) (options : RequestOptions)
    (response : Response) : M JSValue :=
  if negb (ok response) then
    match onUnauthorized c with
    | Some refresh =>
        if (status response =? 401) && negb (is_retry options) then
          let* refreshed := refresh in
          if refreshed then again else raiseApiError c response
        else raiseApiError c response
    | None => raiseApiError c response
    end
  else if status response =? 204 then ret JUndefined
  else lift (json response).

(** [async request<T>(path, options)].  The recursion is bounded by
    [fuel]; one unit is all the code can use ([request_fuel_stable]). *)
Fixpoint request_fuel (fuel : nat) (c : HttpClient) (path : string)
    (options : RequestOptions) : M JSValue :=
  let* req := gets (buildRequest c path options) in
  let* response := fetch req in
  afterFetch
    (match fuel with
     | S n => request_fuel n c path (retried options)
     | O => throw FuelExhausted
     end)
    c options response.

Definition request (c : HttpClient) (path : string) (options : RequestOptions)
  : M JSValue :=
  request_fuel 1 c path options.

Definition get_options (params : option (list (string * JSValue))) : RequestOptions :=
  {| method := Some GET; body := JUndefined; headers := None; params := params;
     isRetry := None |}.

Definition post_options (body : JSValue) : RequestOptions :=
  {| method := Some POST; body := body; headers := None; params := None;
     isRetry := None |}.

Definition put_options (body : JSValue) : RequestOptions :=
  {| method := Some PUT; body := body; headers := None; params := None;
     isRetry := None |}.

Definition delete_options (params : option (list (string * JSValue))) : RequestOptions :=
  {| method := Some DELETE; body := JUndefined; headers := None; params := params;
     isRetry := None |}.

Definition get (c : HttpClient) (path : string)
    (params : option (list (string * JSValue))) : M JSValue :=
  request c path (get_options params).

Definition post (c : HttpClient) (path : string) (body : JSValue) : M JSValue :=
  request c path (post_options body).

Definition put (c : HttpClient) (path : string) (body : JSValue) : M JSValue :=
  request c path (put_options body).

Definition delete_ (c : HttpClient) (path : string)
    (params : option (list (string * JSValue))) : M JSValue :=
  request c path (delete_options params).

(* ===================================================================== *)
(** ** AuthModule (modules/auth.ts) *)
(* ===================================================================== *)

Record SignInCredentials : Type := {
  email : string;
  password : string
}.

Record SignUpData : Type := {
  signup_email : string;
  signup_password : string;
  signup_name : option string
}.

Definition credentials_json (credentials : SignInCredentials) : JSValue :=
  JObj [("email", JStr (email credentials)); ("password", JStr (password credentials))].

(** [{ ...data, appId: this.appId }] *)
Definition signup_json (data : SignUpData) (app : string) : JSValue :=
  JObj ([("email", JStr (signup_email data)); ("password", JStr (signup_password data))]
          ++ match signup_name data with
             | Some n => [("name", JStr n)]
             | None => []
             end
          ++ [("appId", JStr app)]).

(** [`mitra_auth_${appId}`] *)
Definition storageKey (a : AuthModule) : string := "mitra_auth_" +:+ appId a.

(** [new HttpClient({ baseUrl: iamBaseUrl, getToken: () => null })] *)
Definition publicClient (a : AuthModule) : HttpClient :=
  new_HttpClient
    {| cfg_baseUrl := iamBaseUrl a; cfg_getToken := Some (fun _ => JNull);
       cfg_onUnauthorized := None; cfg_onError := None; cfg_defaultHeaders := None |}.

(** [new HttpClient({ baseUrl: iamBaseUrl, getToken: () => this._accessToken })] *)
Definition authedClient (a : AuthModule) : HttpClient :=
  new_HttpClient
    {| cfg_baseUrl := iamBaseUrl a;
       cfg_getToken := Some (fun w => _accessToken (auth w));
       cfg_onUnauthorized := None; cfg_onError := None; cfg_defaultHeaders := None |}.

(** [get isAuthenticated()] *)
Definition isAuthenticated (w : World) : bool :=
  not_null (_currentUser (auth w)) && not_null (_accessToken (auth w)).

(** [private removeFromStorage()]; the [typeof] test stands before the
    [try]. *)
Definition removeFromStorage : M unit :=
  let* undefined := localStorage_is_undefined in
  if undefined then ret tt
  else
    try_catch
      (let* key := gets (fun w => storageKey (auth w)) in
       localStorage_removeItem key)
      (fun _ => ret tt).

(** The object literal [{ user, token, refreshToken }] that is persisted. *)
Definition stored_record (a : AuthModule) : JSValue :=
  JObj [("user", _currentUser a); ("token", _accessToken a);
        ("refreshToken", _refreshToken a)].

(** [private saveToStorage()] *)
Definition saveToStorage : M unit :=
  let* undefined := localStorage_is_undefined in
  if undefined then ret tt
  else
    try_catch
      (let* a := gets auth in
       localStorage_setItem (storageKey a) (JSON_stringify (stored_record a)))
      (fun _ => ret tt).

(** [private loadFromStorage()] *)
Definition loadFromStorage : M unit :=
  let* undefined := localStorage_is_undefined in
  if undefined then ret tt
  else
    try_catch
      (let* key := gets (fun w => storageKey (auth w)) in
       let* stored := localStorage_getItem key in
       match stored with
       | Some text =>
           if text_truthy text then
             let* parsed := lift (JSON_parse text) in
             let* user := lift (getprop parsed "user") in
             let* token := lift (getprop parsed "token") in
             let* refreshToken := lift (getprop parsed "refreshToken") in
             modify (with_auth (set_currentUser user));;;
             modify (with_auth (set_accessToken token));;;
             modify (with_auth (set_refreshToken (nullish_or refreshToken JNull)))
           else ret tt
       | None => ret tt
       end)
      (fun _ => removeFromStorage).

(** One listener call: it is recorded, then the listener returns or raises. *)
Definition call_listener (l : Listener) (user : JSValue) : M unit :=
  modify (fun w => with_notified (notified w ++ [(lid l, user)]) w);;;
  match reaction l user with
  | None => ret tt
  | Some e => throw e
  end.

(** [this.listeners.forEach((callback) => { try { ... } catch { ... } })] *)
Fixpoint forEach_listener (ls : list Listener) : M unit :=
  match ls with
  | [] => ret tt
  | callback :: rest =>
      try_catch
        (let* user := gets (fun w => _currentUser (auth w)) in
         call_listener callback user)
        (fun error => console_error "Auth state change listener error:" error);;;
      forEach_listener rest
  end.

(** [private notifyListeners()] *)
Definition notifyListeners : M unit :=
  let* ls := gets (fun w => listeners (auth w)) in
  forEach_listener ls.

(** [private setAuthState(user, token, refreshToken)] *)
Definition setAuthState (user token refreshToken : JSValue) : M unit :=
  modify (with_auth (set_currentUser user));;;
  modify (with_auth (set_accessToken token));;;
  modify (with_auth (set_refreshToken refreshToken));;;
  saveToStorage;;;
  notifyListeners.

(** [private clearAuthState()] *)
Definition clearAuthState : M unit :=
  modify (with_auth (set_currentUser JNull));;;
  modify (with_auth (set_accessToken JNull));;;
  modify (with_auth (set_refreshToken JNull));;;
  removeFromStorage;;;
  notifyListeners.

(** [constructor(appId, iamBaseUrl)]: a fresh instance over the same
    environment. *)
Definition new_AuthModule (app iam : string) : M unit :=
  modify (with_auth (fun _ =>
    {| appId := app; iamBaseUrl := iam; _currentUser := JNull; _accessToken := JNull;
       _refreshToken := JNull; refreshPromise := None; listeners := [] |}));;;
  loadFromStorage.

(** [async signIn(credentials)] *)
Definition signIn (credentials : SignInCredentials) : M JSValue :=
  let* pub := gets (fun w => publicClient (auth w)) in
  let* tokenResponse := post pub "/api/v1/auth/tokens" (credentials_json credentials) in
  let* accessToken := lift (getprop tokenResponse "accessToken") in
  modify (with_auth (set_accessToken accessToken));;;
  let* refreshToken := lift (getprop tokenResponse "refreshToken") in
  modify (with_auth (set_refreshToken refreshToken));;;
  let* authed := gets (fun w => authedClient (auth w)) in
  let* user := get authed "/api/v1/auth/me" None in
  setAuthState user accessToken refreshToken;;;
  ret user.

(** [async signUp(data)] *)
Definition signUp (data : SignUpData) : M JSValue :=
  let* pub := gets (fun w => publicClient (auth w)) in
  let* app := gets (fun w => appId (auth w)) in
  post pub "/api/v1/auth/users/register" (signup_json data app);;;
  signIn {| email := signup_email data; password := signup_password data |}.

(** [signOut(redirectUrl?)] *)
Definition signOut (redirectUrl : option string) : M unit :=
  clearAuthState;;;
  let* win := gets window in
  match win, redirectUrl with
  | Some _, Some target =>
      if negb (String.eqb target "") then modify (with_window (Some target)) else ret tt
  | _, _ => ret tt
  end.

(** [async me()] *)
Definition me : M JSValue :=
  let* token := gets (fun w => _accessToken (auth w)) in
  if negb (truthy token) then ret JNull
  else
    try_catch
      (let* authed := gets (fun w => authedClient (auth w)) in
       let* user := get authed "/api/v1/auth/me" None in
       modify (with_auth (set_currentUser user));;;
       saveToStorage;;;
       notifyListeners;;;
       ret user)
      (fun error =>
         match error with
         | ApiError e =>
             if MitraApiError.status e =? 401 then clearAuthState else ret tt
         | _ => ret tt
         end;;;
         ret JNull).

(** [async checkAuth()] *)
Definition checkAuth : M bool :=
  let* user := me in
  ret (not_null user).

(** [setToken(token, saveToStorage = true)] *)
Definition setToken (token : string) (persist : option bool) : M unit :=
  modify (with_auth (set_accessToken (JStr token)));;;
  if default true persist then saveToStorage else ret tt.

(** [Set.prototype.add]: a callback already present is not added again. *)
Definition listeners_add (callback : Listener) (ls : list Listener) : list Listener :=
  if existsb (fun l => Nat.eqb (lid l) (lid callback)) ls then ls else ls ++ [callback].

(** [Set.prototype.delete] *)
Definition listeners_delete (handle : nat) (ls : list Listener) : list Listener :=
  List.filter (fun l => negb (Nat.eqb (lid l) handle)) ls.

(** [onAuthStateChange(callback)]; the unsubscribe function it returns is
    named by the listener's identity. *)
Definition onAuthStateChange (callback : Listener) : M nat :=
  modify (with_auth (fun a => set_listeners (listeners_add callback (listeners a)) a));;;
  let* user := gets (fun w => _currentUser (auth w)) in
  call_listener callback user;;;
  ret (lid callback).

(** The function returned by [onAuthStateChange]. *)
Definition unsubscribe (handle : nat) : M unit :=
  modify (with_auth (fun a => set_listeners (listeners_delete handle (listeners a)) a)).

(** [private async doRefresh()] *)
Definition doRefresh : M bool :=
  try_catch
    (let* pub := gets (fun w => publicClient (auth w)) in
     let* held := gets (fun w => _refreshToken (auth w)) in
     let* tokenResponse :=
       post pub "/api/v1/auth/tokens/refresh" (JObj [("refreshToken", held)]) in
     let* accessToken := lift (getprop tokenResponse "accessToken") in
     modify (with_auth (set_accessToken accessToken));;;
     let* refreshToken := lift (getprop tokenResponse "refreshToken") in
     modify (with_auth (set_refreshToken refreshToken));;;
     let* authed := gets (fun w => authedClient (auth w)) in
     let* user := get authed "/api/v1/auth/me" None in
     setAuthState user accessToken refreshToken;;;
     ret true)
    (fun _ => clearAuthState;;; ret false).

(* --------------------------------------------------------------------- *)
(** *** refreshSession and the pending refresh *)

Definition refresh_path : string := "/api/v1/auth/tokens/refresh".
Definition me_path : string := "/api/v1/auth/me".

(** [request], resumed at [await fetch(...)] with the reply. *)
Definition resume_request (c : HttpClient) (path : string) (options : RequestOptions)
    (reply : FetchOutcome) : M JSValue :=
  let* response := lift (arrive reply) in
  afterFetch (request_fuel 0 c path (retried options)) c options response.

(** [doRefresh()] in three legs, cut at its two awaits.

    First leg, run inside [refreshSession()] itself: [publicClient.post]
    up to its [fetch] call.  The frame of the suspended call is returned. *)
Definition doRefresh_start (w : World) : RequestOptions * World :=
  let options := post_options (JObj [("refreshToken", _refreshToken (auth w))]) in
  (options, send (buildRequest (publicClient (auth w)) refresh_path options w) w).

(** Second leg: from the reply of the refresh endpoint to the [fetch] of
    [authedClient.get] (the token response is returned: the function is
    suspended again), or into the [catch] block ([None]: the promise
    settles with [false]). *)
Definition doRefresh_tokens (options : RequestOptions) (reply : FetchOutcome)
  : M (option JSValue) :=
  try_catch
    (let* pub := gets (fun w => publicClient (auth w)) in
     let* tokenResponse := resume_request pub refresh_path options reply in
     let* accessToken := lift (getprop tokenResponse "accessToken") in
     modify (with_auth (set_accessToken accessToken));;;
     let* refreshToken := lift (getprop tokenResponse "refreshToken") in
     modify (with_auth (set_refreshToken refreshToken));;;
     let* authed := gets (fun w => authedClient (auth w)) in
     let* req := gets (buildRequest authed me_path (get_options None)) in
     modify (send req);;;
     ret (Some tokenResponse))
    (fun _ => clearAuthState;;; ret None).

(** Third leg: from the reply of the current-user endpoint to the end. *)
Definition doRefresh_me (tokenResponse : JSValue) (options : RequestOptions)
    (reply : FetchOutcome) : M bool :=
  try_catch
    (let* authed := gets (fun w => authedClient (auth w)) in
     let* user := resume_request authed me_path options reply in
     let* accessToken := lift (getprop tokenResponse "accessToken") in
     let* refreshToken := lift (getprop tokenResponse "refreshToken") in
     setAuthState user accessToken refreshToken;;;
     ret true)
    (fun _ => clearAuthState;;; ret false).

Definition mark (p : option RefreshPhase) : World -> World :=
  with_auth (set_refreshPromise p).

(** A reply reaches the pending [doRefresh()].  [Some r]: the promise
    settles with [r], and the [finally] block of the call that created it
    resets the marker. *)
Definition deliver (reply : FetchOutcome) (w : World) : option (Outcome bool) * World :=
  match refreshPromise (auth w) with
  | None => (None, w)
  | Some (AwaitingTokens options) =>
      match doRefresh_tokens options reply w with
      | (Resolve (Some tokenResponse), w') =>
          (None, mark (Some (AwaitingMe tokenResponse (get_options None))) w')
      | (Resolve None, w') => (Some (Resolve false), mark None w')
      | (Reject e, w') => (Some (Reject e), mark None w')
      end
  | Some (AwaitingMe tokenResponse options) =>
      let (r, w') := doRefresh_me tokenResponse options reply w in
      (Some r, mark None w')
  end.

(** What one call of [refreshSession()] does before it first yields. *)
Inductive Call : Type :=
| Returned (b : bool)                (* [return false]: no refresh token *)
| Joined (promise : RefreshPhase)    (* [return this.refreshPromise] *)
| Started (promise : RefreshPhase).  (* [this.refreshPromise = this.doRefresh()] *)

Definition refreshSession_call (w : World) : Call * World :=
  if negb (truthy (_refreshToken (auth w))) then (Returned false, w)
  else
    match refreshPromise (auth w) with
    | Some promise => (Joined promise, w)
    | None =>
        let (options, w') := doRefresh_start w in
        (Started (AwaitingTokens options), mark (Some (AwaitingTokens options)) w')
    end.

(** [await this.refreshPromise] when nothing else runs in between: the
    replies are taken from the script until the promise settles. *)
Definition await_me (tokenResponse : JSValue) (options : RequestOptions) : M bool :=
  let* reply := next_reply in
  try_finally (doRefresh_me tokenResponse options reply) (mark None).

Definition await_tokens (options : RequestOptions) : M bool :=
  let* reply := next_reply in
  let* leg := try_catch (doRefresh_tokens options reply)
                (fun e => modify (mark None);;; throw e) in
  match leg with
  | None => modify (mark None);;; ret false
  | Some tokenResponse =>
      modify (mark (Some (AwaitingMe tokenResponse (get_options None))));;;
      await_me tokenResponse (get_options None)
  end.

Definition await (promise : RefreshPhase) : M bool :=
  match promise with
  | AwaitingTokens options => await_tokens options
  | AwaitingMe tokenResponse options => await_me tokenResponse options
  end.

(** [async refreshSession()], run to completion against the script. *)
Definition refreshSession : M bool :=
  fun w =>
    match refreshSession_call w with
    | (Returned b, w') => (Resolve b, w')
    | (Joined promise, w') => await promise w'
    | (Started promise, w') => await promise w'
    end.

(* --------------------------------------------------------------------- *)
(** *** Calls that arrive while a refresh is pending *)

(** While a refresh is pending two things can happen: a further call of
    [refreshSession()], or a network reply for the pending operation. *)
Inductive Event : Type :=
| CallRefresh
| Reply (reply : FetchOutcome).

(** What a caller of [refreshSession()] holds: a value returned at once,
    or the pending promise, with its outcome once it has settled. *)
Inductive Receipt : Type :=
| Early (b : bool)
| Shared (outcome : option (Outcome bool)).

Definition receipt_of (c : Call) : Receipt :=
  match c with
  | Returned b => Early b
  | Joined _ | Started _ => Shared None
  end.

(** Settling the promise resumes every caller that waits on it. *)
Definition settle_receipt (r : Outcome bool) (x : Receipt) : Receipt :=
  match x with
  | Shared None => Shared (Some r)
  | _ => x
  end.

(** The events are played until the pending promise settles; the result
    is the world then, what each caller holds, and the outcome of the
    promise ([None] when the events end before it settles). *)
Fixpoint while_pending (events : list Event) (w : World) (receipts : list Receipt)
  : World * list Receipt * option (Outcome bool) :=
  match events with
  | [] => (w, receipts, None)
  | CallRefresh :: rest =>
      let (c, w') := refreshSession_call w in
      while_pending rest w' (receipts ++ [receipt_of c])
  | Reply reply :: rest =>
      match deliver reply w with
      | (Some r, w') => (w', List.map (settle_receipt r) receipts, Some r)
      | (None, w') => while_pending rest w' receipts
      end
  end.

(** The boolean a caller ends up with. *)
Definition received (x : Receipt) : option bool :=
  match x with
  | Early b => Some b
  | Shared (Some (Resolve b)) => Some b
  | Shared _ => None
  end.

(** The number of calls to the refresh endpoint in the log. *)
Definition is_refresh_call (a : AuthModule) (req : Request) : bool :=
  String.eqb (address (req_url req)) (baseUrl (publicClient a) +:+ refresh_path).

Definition refresh_calls (w : World) : nat :=
  length (List.filter (is_refresh_call (auth w)) (sent w)).

(* ===================================================================== *)
(** ** redirectToLogin (modules/auth.ts) *)
(* ===================================================================== *)

(** The characters [encodeURIComponent] leaves as they are. *)
Definition unreserved (c : ascii) : bool :=
  let n := nat_of_ascii c in
  (Nat.leb 65 n && Nat.leb n 90)
  || (Nat.leb 97 n && Nat.leb n 122)
  || (Nat.leb 48 n && Nat.leb n 57)
  || existsb (Ascii.eqb c) (list_ascii_of_string "-_.!~*'()").

Definition hex_digit (n : nat) : ascii :=
  match String.get n "0123456789ABCDEF" with
  | Some c => c
  | None => "0"%char
  end.

(** [%XX] for one code unit. *)
Definition percent_encode (c : ascii) : string :=
  String "%" (String (hex_digit (nat_of_ascii c / 16))
                (String (hex_digit (nat_of_ascii c mod 16)) EmptyString)).

(** [encodeURIComponent(s)] *)
Fixpoint encodeURIComponent (s : string) : string :=
  match s with
  | EmptyString => EmptyString
  | String c rest =>
      (if unreserved c then String c EmptyString else percent_encode c)
        +:+ encodeURIComponent rest
  end.

(** [redirectToLogin(returnUrl = '/')] *)
Definition redirectToLogin (returnUrl : option string) : M unit :=
  let* win := gets window in
  match win with
  | None => ret tt
  | Some _ =>
      modify (with_window
                (Some ("/login?returnUrl=" +:+ encodeURIComponent (default "/" returnUrl))))
  end.

(* ===================================================================== *)
(** ** The resource modules *)
(* ===================================================================== *)

(** [obj[key] = v] on a property list: the value is replaced where the
    key stands, or the property is added at the end. *)
Fixpoint set_own (key : string) (v : JSValue) (props : list (string * JSValue))
  : list (string * JSValue) :=
  match props with
  | [] => [(key, v)]
  | (k, x) :: rest =>
      if String.eqb key k then (k, v) :: rest else (k, x) :: set_own key v rest
  end.

(** [class FunctionsModule] (modules/functions.ts) *)
Module FunctionsModule.

Record t : Type := { httpClient : HttpClient }.

(** [async execute(functionId, input?)] *)
Definition execute (m : t) (functionId : string) (input : JSValue) : M JSValue :=
  post (httpClient m) ("/api/v1/functions/" +:+ functionId +:+ "/execute")
    (if truthy input then JObj [("input", input)] else JUndefined).

End FunctionsModule.

(** [class QueriesModule] (modules/queries.ts) *)
Module QueriesModule.

Record t : Type := { httpClient : HttpClient; dataSourceId : JSValue }.

(** [constructor(httpClient)], with the field initialiser
    [dataSourceId = ''] *)
Definition new (httpClient : HttpClient) : t :=
  {| httpClient := httpClient; dataSourceId := JStr "" |}.

Definition setDataSourceId (dataSourceId : JSValue) (m : t) : t :=
  {| httpClient := httpClient m; dataSourceId := dataSourceId |}.

(** [async execute(id, parameters?)] *)
Definition execute (m : t) (id : string) (parameters : JSValue) : M JSValue :=
  post (httpClient m) ("/api/v1/custom-queries/" +:+ id +:+ "/execute")
    (JObj [("datasourceId", dataSourceId m); ("parameters", parameters)]).

End QueriesModule.

(** [class IntegrationModule] (modules/integration.ts) *)
Module IntegrationModule.

Record t : Type := { httpClient : HttpClient }.

(** [async execute(configId, request)]; [request] is an object, given
    by its properties. *)
Definition execute (m : t) (configId : string) (request : list (string * JSValue))
  : M JSValue :=
  post (httpClient m) ("/api/v1/proxy/" +:+ configId +:+ "/execute")
    (JObj (set_own "source" (JStr "SDK") request)).

End IntegrationModule.

(** The first argument of [EntityTable.list]. *)
Inductive SortOrOptions : Type :=
| NoSort                                          (* [undefined] *)
| Sort (sort : string)                            (* a string *)
| Options (options : list (string * JSValue)).    (* an [EntityListOptions] object *)

(** [class EntitiesModule] (modules/entities.ts) *)
Module EntitiesModule.

(** An [EntityTable]: the object of closures that [createTableAccessor]
    returns, known by the [basePath] they captured. *)
Record EntityTable : Type := { basePath : string }.

Record t : Type := {
  httpClient : HttpClient;
  dataSourceId : JSValue;
  tableProxies : gmap string EntityTable
}.

(** [constructor(httpClient, dataSourceId)].  The [Proxy] it returns
    hands every member of the class through to the instance. *)
Definition new (httpClient : HttpClient) (dataSourceId : JSValue) : t :=
  {| httpClient := httpClient; dataSourceId := dataSourceId; tableProxies := ∅ |}.

(** [setDataSourceId(dataSourceId)] *)
Definition setDataSourceId (dataSourceId : JSValue) (m : t) : t :=
  {| httpClient := httpClient m; dataSourceId := dataSourceId; tableProxies := ∅ |}.

Section Numbers.

Variable Number_toString : spec_float -> string.

(** The characters of the text [JSON.stringify] writes for a document;
    like the text of a number, they belong to the engine. *)
Variable JSON_text : JSValue -> string.

(** [JSON.stringify(v)] where a string is wanted: a query parameter. *)
Definition stringified (v : JSValue) : JSValue :=
  match JSON_stringify v with
  | Some (JsonText doc) => JStr (JSON_text doc)
  | Some (RawText raw) => JStr raw
  | None => JUndefined
  end.

(** [private createTableAccessor(tableName)] *)
Definition createTableAccessor (m : t) (tableName : string) : EntityTable :=
  {| basePath := "/api/v1/data-sources/" +:+ ToString Number_toString (dataSourceId m)
                   +:+ "/tables/" +:+ tableName +:+ "/records" |}.

(** [getTable(tableName)]: the accessor, and the module with its cache. *)
Definition getTable (tableName : string) (m : t) : EntityTable * t :=
  match tableProxies m !! tableName with
  | Some table => (table, m)
  | None =>
      let table := createTableAccessor m tableName in
      (table,
       {| httpClient := httpClient m; dataSourceId := dataSourceId m;
          tableProxies := <[tableName := table]> (tableProxies m) |})
  end.

(** [fields?.join(',')] *)
Definition join_fields (fields : JSValue) : Outcome JSValue :=
  match fields with
  | JUndefined | JNull => Resolve JUndefined
  | JArr items => Resolve (JStr (Array_join Number_toString "," items))
  | _ => Reject (TypeError "join")
  end.

(** The [params] object that [list] builds. *)
Definition list_params (sortOrOptions : SortOrOptions) (limit skip fields : JSValue)
  : Outcome (list (string * JSValue)) :=
  match sortOrOptions with
  | NoSort =>
      match join_fields fields with
      | Resolve joined =>
          Resolve [("sort", JUndefined); ("limit", limit); ("skip", skip);
                   ("fields", joined)]
      | Reject e => Reject e
      end
  | Sort sort =>
      match join_fields fields with
      | Resolve joined =>
          Resolve [("sort", JStr sort); ("limit", limit); ("skip", skip);
                   ("fields", joined)]
      | Reject e => Reject e
      end
  | Options options =>
      match join_fields (own "fields" options) with
      | Resolve joined =>
          Resolve [("sort", own "sort" options); ("limit", own "limit" options);
                   ("skip", own "skip" options); ("fields", joined)]
      | Reject e => Reject e
      end
  end.

(** [list: async (sortOrOptions?, limit?, skip?, fields?)] *)
Definition list_ (m : t) (table : EntityTable) (sortOrOptions : SortOrOptions)
    (limit skip fields : JSValue) : M JSValue :=
  let* params := lift (list_params sortOrOptions limit skip fields) in
  let* response := get (httpClient m) (basePath table) (Some params) in
  lift (getprop response "data").

(** [filter: async (query, sort?, limit?, skip?, fields?)] *)
Definition filter_ (m : t) (table : EntityTable) (query sort limit skip fields : JSValue)
  : M JSValue :=
  let q := stringified query in
  let* joined := lift (join_fields fields) in
  let* response :=
    get (httpClient m) (basePath table)
      (Some [("q", q); ("sort", sort); ("limit", limit); ("skip", skip);
             ("fields", joined)]) in
  lift (getprop response "data").

(** [get: async (id)] *)
Definition get_ (m : t) (table : EntityTable) (id : JSValue) : M JSValue :=
  get (httpClient m) (basePath table +:+ "/" +:+ ToString Number_toString id) None.

(** [create: async (data)] *)
Definition create (m : t) (table : EntityTable) (data : JSValue) : M JSValue :=
  post (httpClient m) (basePath table) data.

(** [update: async (id, data)] *)
Definition update (m : t) (table : EntityTable) (id data : JSValue) : M JSValue :=
  put (httpClient m) (basePath table +:+ "/" +:+ ToString Number_toString id) data.

(** [deleteMany: async (query)]; it comes before [delete] here, both
    being calls of [HttpClient.delete]. *)
Definition deleteMany (m : t) (table : EntityTable) (query : JSValue) : M JSValue :=
  delete_ (httpClient m) (basePath table) (Some [("q", stringified query)]).

(** [delete: async (id)] *)
Definition delete_ (m : t) (table : EntityTable) (id : JSValue) : M JSValue :=
  delete_ (httpClient m) (basePath table +:+ "/" +:+ ToString Number_toString id)
    None.

(** [bulkCreate: async (data)] *)
Definition bulkCreate (m : t) (table : EntityTable) (data : JSValue) : M JSValue :=
  post (httpClient m) (basePath table +:+ "/bulk") data.

End Numbers.

End EntitiesModule.

(* ===================================================================== *)
(** ** createClient (client.ts) *)
(* ===================================================================== *)

(** [interface MitraClientConfig] *)
Record MitraClientConfig : Type := {
  client_appId : string;
  apiUrl : string;
  client_onError : option (MitraApiError.t -> option Exn)
}.

(** What [createClient] returns, with the variables [initialized] and
    [allowSignup] of its closure.  The [auth] module is the one of the
    [World]. *)
Record MitraClient : Type := {
  config : MitraClientConfig;
  entities : EntitiesModule.t;
  functions : FunctionsModule.t;
  integration : IntegrationModule.t;
  queries : QueriesModule.t;
  initialized : bool;
  allowSignup : JSValue
}.

(** [get currentUser()], [get accessToken()] of the auth module, and
    [HttpClient.getToken()]. *)
Definition currentUser (w : World) : JSValue := _currentUser (auth w).

Definition accessToken (w : World) : JSValue := _accessToken (auth w).

Definition getToken (c : HttpClient) (w : World) : JSValue := tokenGetter c w.

(** The three clients of [createClient] differ by their service only. *)
Definition serviceClient (config : MitraClientConfig) (service : string) : HttpClient :=
  new_HttpClient
    {| cfg_baseUrl := apiUrl config +:+ service;
       cfg_getToken := Some accessToken;
       cfg_onUnauthorized := Some refreshSession;
       cfg_onError := client_onError config;
       cfg_defaultHeaders := Some {[ "X-App-Id" := client_appId config ]} |}.

(** [export function createClient(config)] *)
Definition createClient (config : MitraClientConfig) : M MitraClient :=
  new_AuthModule (client_appId config) (apiUrl config +:+ "/iam");;;
  let httpClient := serviceClient config "/data-manager" in
  ret {| config := config;
         entities := EntitiesModule.new httpClient (JStr "");
         functions := {| FunctionsModule.httpClient := serviceClient config "/functions" |};
         integration :=
           {| IntegrationModule.httpClient := serviceClient config "/integration" |};
         queries := QueriesModule.new httpClient;
         initialized := false;
         allowSignup := JBool true |}.

(** The assignments of [init] to the modules and to the variables of
    the closure. *)
Definition with_entities (e : EntitiesModule.t) (client : MitraClient) : MitraClient :=
  {| config := config client; entities := e; functions := functions client;
     integration := integration client; queries := queries client;
     initialized := initialized client; allowSignup := allowSignup client |}.

Definition with_queries (q : QueriesModule.t) (client : MitraClient) : MitraClient :=
  {| config := config client; entities := entities client; functions := functions client;
     integration := integration client; queries := q;
     initialized := initialized client; allowSignup := allowSignup client |}.

Definition with_allowSignup (v : JSValue) (client : MitraClient) : MitraClient :=
  {| config := config client; entities := entities client; functions := functions client;
     integration := integration client; queries := queries client;
     initialized := initialized client; allowSignup := v |}.

Definition with_initialized (b : bool) (client : MitraClient) : MitraClient :=
  {| config := config client; entities := entities client; functions := functions client;
     integration := integration client; queries := queries client;
     initialized := b; allowSignup := allowSignup client |}.

(** The [publicClient] that [init] builds. *)
Definition infoClient (config : MitraClientConfig) : HttpClient :=
  new_HttpClient
    {| cfg_baseUrl := apiUrl config +:+ "/code-studio";
       cfg_getToken := Some (fun _ => JNull);
       cfg_onUnauthorized := None; cfg_onError := None;
       cfg_defaultHeaders := None |}.

Definition info_path (config : MitraClientConfig) : string :=
  "/api/v1/apps/" +:+ client_appId config +:+ "/info".

(** [async function init()]: the client is part of the state, so that
    what a rejected call leaves behind is there to see. *)
Definition init (client : MitraClient) (w : World)
  : Outcome unit * (MitraClient * World) :=
  if initialized client then (Resolve tt, (client, w))
  else
    match get (infoClient (config client)) (info_path (config client)) None w with
    | (Reject e, w1) => (Reject e, (client, w1))
    | (Resolve appInfo, w1) =>
        match getprop appInfo "dataSourceId" with
        | Reject e => (Reject e, (client, w1))
        | Resolve dataSourceId =>
            let client1 :=
              with_entities
                (EntitiesModule.setDataSourceId dataSourceId (entities client)) client in
            match getprop appInfo "dataSourceId" with
            | Reject e => (Reject e, (client1, w1))
            | Resolve dataSourceId2 =>
                let client2 :=
                  with_queries
                    (QueriesModule.setDataSourceId dataSourceId2 (queries client1))
                    client1 in
                match getprop appInfo "allowSignup" with
                | Reject e => (Reject e, (client2, w1))
                | Resolve allowed =>
                    (Resolve tt,
                     (with_initialized true (with_allowSignup allowed client2), w1))
                end
            end
        end
    end.

(* ===================================================================== *)
(** ** Vocabulary of the properties *)
(* ===================================================================== *)

(** A storage that accepts reads and writes. *)
Definition usable (st : Storage) : bool :=
  negb (denied st) && negb (disabled st) && negb (full st).

(** Reading the global [localStorage] throws. *)
Definition storage_denied (w : World) : bool :=
  match localStorage w with
  | Some st => denied st
  | None => false
  end.

(** Two [fetch] calls go to the same path, with the same method and body. *)
Definition same_target (a b : Request) : Prop :=
  req_url a = req_url b /\ req_method a = req_method b /\ req_body a = req_body b.

(** The options of a call made without a body. *)
Definition omit_body (options : RequestOptions) : RequestOptions :=
  {| method := method options; body := JUndefined; headers := headers options;
     params := params options; isRetry := isRetry options |}.

(** What a client without callbacks ([publicClient], [authedClient]) makes
    of a response: the value [request] resolves or rejects with. *)
Definition plain_answer (r : Response) : Outcome JSValue :=
  if negb (ok r) then
    match getprop (errorBody_of r) "message", getprop (errorBody_of r) "error_code" with
    | Resolve message, Resolve error_code =>
        Reject (ApiError
          (MitraApiError.new
             (js_or message
                (JStr ("Request failed with status " +:+ show_status (status r))))
             (status r) error_code (errorBody_of r)))
    | Reject e, _ => Reject e
    | _, Reject e => Reject e
    end
  else if status r =? 204 then Resolve JUndefined
  else json r.

Definition plain_outcome (reply : FetchOutcome) : Outcome JSValue :=
  match reply with
  | Responded r => plain_answer r
  | NetworkDown => Reject FetchFailed
  end.

(** The reply the next [fetch] call will get. *)
Definition head_reply (w : World) : FetchOutcome :=
  match network w with
  | reply :: _ => reply
  | [] => NetworkDown
  end.

(** A token is held and the next reply is a 401 that [request] turns into
    a [MitraApiError]. *)
Definition unauthorized (w : World) : bool :=
  truthy (_accessToken (auth w))
  && match plain_outcome (head_reply w) with
     | Reject (ApiError e) => MitraApiError.status e =? 401
     | _ => false
     end.

(** What [notifyListeners] writes to the console for one listener. *)
Definition listener_error (user : JSValue) (l : Listener) : list (string * Exn) :=
  match reaction l user with
  | Some e => [("Auth state change listener error:", e)]
  | None => []
  end.

(** The three assignments of [setAuthState] / [clearAuthState]. *)
Definition set_session (user token refreshToken : JSValue) (a : AuthModule) : AuthModule :=
  set_refreshToken refreshToken (set_accessToken token (set_currentUser user a)).

(** [v] is neither [null] nor [undefined]. *)
Definition present (v : JSValue) : bool :=
  match v with
  | JNull | JUndefined => false
  | _ => true
  end.

(** "User record and access token are both present or both absent". *)
Definition both_or_neither (w : World) : bool :=
  Bool.eqb (present (_currentUser (auth w))) (present (_accessToken (auth w))).

(** The public operations of the Session Store; [DoReload] is the
    construction of a new Session Store, for the same application and
    service, over the storage as it is. *)
Inductive Operation : Type :=
| DoSignIn (credentials : SignInCredentials)
| DoSignUp (data : SignUpData)
| DoSignOut (redirectUrl : option string)
| DoRefreshSession
| DoMe
| DoCheckAuth
| DoSetToken (token : string) (persist : option bool)
| DoReload.

Definition perform (op : Operation) : M JSValue :=
  match op with
  | DoSignIn credentials => signIn credentials
  | DoSignUp data => signUp data
  | DoSignOut redirectUrl => signOut redirectUrl;;; ret JUndefined
  | DoRefreshSession => let* b := refreshSession in ret (JBool b)
  | DoMe => me
  | DoCheckAuth => let* b := checkAuth in ret (JBool b)
  | DoSetToken token persist => setToken token persist;;; ret JUndefined
  | DoReload =>
      let* a := gets auth in
      new_AuthModule (appId a) (iamBaseUrl a);;; ret JUndefined
  end.

Definition resolved {A} (r : Outcome A) : bool :=
  match r with Resolve _ => true | Reject _ => false end.

(** A sequence of operations, each one run to completion. *)
Fixpoint perform_all (ops : list Operation) (w : World) : World :=
  match ops with
  | [] => w
  | op :: rest => perform_all rest (after (perform op w))
  end.

Definition is_object (v : JSValue) : bool :=
  match v with JObj _ => true | _ => false end.

Definition is_string (v : JSValue) : bool :=
  match v with JStr _ => true | _ => false end.

Definition tokens_path : string := "/api/v1/auth/tokens".
Definition register_path : string := "/api/v1/auth/users/register".

(** The call goes to [path] of the IAM service. *)
Definition calls (path : string) (a : AuthModule) (req : Request) : bool :=
  String.eqb (address (req_url req)) (baseUrl (publicClient a) +:+ path).

(** The declared shape of what a call resolves with: a [User] (an
    object) for the current-user endpoint, an [AuthTokenResponse] (an
    object whose [accessToken] is a string) for the two token endpoints. *)
Definition declared (a : AuthModule) (req : Request) (v : JSValue) : bool :=
  if calls me_path a req then is_object v
  else if calls tokens_path a req || calls refresh_path a req then
    match v with
    | JObj props => is_string (own "accessToken" props)
    | _ => false
    end
  else true.

(** The calls made between two states, each with the reply the script
    had for it (a call made after the script has run out fails, and is
    not listed). *)
Definition exchanges (w w' : World) : list (Request * FetchOutcome) :=
  combine (skipn (length (sent w)) (sent w')) (network w).

(** The call went to [path] and was answered with a value. *)
Definition answered_at (path : string) (a : AuthModule) (x : Request * FetchOutcome)
  : bool :=
  calls path a (fst x) && resolved (plain_outcome (snd x)).

(** Every call that was answered with a value got one of the declared
    shape. *)
Definition well_served (w w' : World) : bool :=
  forallb (fun x => match plain_outcome (snd x) with
                    | Resolve v => declared (auth w) (fst x) v
                    | Reject _ => true
                    end)
    (exchanges w w').

(** The operations that leave an access token without a user record:
    [setToken] while no user is held, which sets the token alone; and a
    [signIn] or [signUp], while no user is held, whose token request is
    answered and whose current-user request is not. *)
Definition token_alone (op : Operation) (w : World) : bool :=
  negb (present (_currentUser (auth w)))
  && match op with
     | DoSetToken _ _ => true
     | DoSignIn _ | DoSignUp _ =>
         let xs := exchanges w (after (perform op w)) in
         existsb (answered_at tokens_path (auth w)) xs
         && negb (existsb (answered_at me_path (auth w)) xs)
     | _ => false
     end.

(** A run in which every operation is served in the declared shapes and
    none leaves a token alone. *)
Fixpoint covered (ops : list Operation) (w : World) : bool :=
  match ops with
  | [] => true
  | op :: rest =>
      well_served w (after (perform op w)) && negb (token_alone op w)
      && covered rest (after (perform op w))
  end.

(** The user record is an object and the access token a string, or both
    are absent. *)
Definition typed_pair (user token : JSValue) : bool :=
  (is_object user && is_string token) || (negb (present user) && negb (present token)).

(** What the constructor reads from a stored text is such a pair. *)
Definition stored_pair (text : Text) : bool :=
  match text with
  | JsonText (JObj props) => typed_pair (own "user" props) (own "token" props)
  | _ => true
  end.

(** The stored record of the module, whatever the storage holds for it,
    reads as a typed pair. *)
Definition stored_ok (w : World) : Prop :=
  forall st text,
    localStorage w = Some st -> items st !! storageKey (auth w) = Some text ->
    stored_pair text = true.

(** No refresh is pending, and the user record and the access token are
    a typed pair, in memory and in the stored record. *)
Definition coherent (w : World) : Prop :=
  refreshPromise (auth w) = None
  /\ typed_pair (_currentUser (auth w)) (_accessToken (auth w)) = true
  /\ stored_ok w.

(** The properties [JSON.stringify] writes for an object. *)
Definition json_fields (props : list (string * JSValue)) : list (string * JSValue) :=
  match jsonify (JObj props) with
  | JObj fields => fields
  | _ => []
  end.

(** What a property of a stored object is read back as: a property whose
    value is [undefined] is not written and is read back as [undefined];
    any other comes back as the JSON written for it. *)
Definition read_back (v : JSValue) : JSValue :=
  match v with
  | JUndefined => JUndefined
  | _ => jsonify v
  end.

(** The Session that the constructor reads from the record written for
    the Session [s]: the user record and the access token as they are
    read back, the refresh token through [refreshToken ?? null]. *)
Definition restored (s : JSValue * JSValue * JSValue) : JSValue * JSValue * JSValue :=
  let '(user, token, refreshToken) := s in
  (read_back user, read_back token, nullish_or (read_back refreshToken) JNull).

(** The storage after the record of a module was written, and after it
    was removed. *)
Definition written (a : AuthModule) (st : Storage) : Storage :=
  {| items := <[storageKey a := JsonText (jsonify (stored_record a))]> (items st);
     full := full st; disabled := disabled st; denied := denied st |}.

Definition removed (a : AuthModule) (st : Storage) : Storage :=
  {| items := delete (storageKey a) (items st);
     full := full st; disabled := disabled st; denied := denied st |}.

(** A page reload: the memory of the module is lost, whatever it held;
    the rest of the world stays. *)
Definition reloaded (memory : AuthModule) (w : World) : World :=
  with_auth (fun _ => memory) w.

(** The stored record is the JSON text of the Session in memory (when
    the storage takes writes). *)
Definition persisted (w : World) : Prop :=
  forall st, localStorage w = Some st -> usable st = true ->
    items st !! storageKey (auth w) = JSON_stringify (stored_record (auth w)).

(** There is no stored record (when the storage can be reached). *)
Definition unpersisted (w : World) : Prop :=
  forall st, localStorage w = Some st -> disabled st = false ->
    items st !! storageKey (auth w) = None.

(** The last thing that happened to the listeners: each was called, in
    order, with the current user. *)
Definition listeners_notified (w : World) : Prop :=
  exists earlier,
    notified w
    = earlier ++ List.map (fun l => (lid l, _currentUser (auth w))) (listeners (auth w)).

(** The Session was committed: three fields, stored record, listeners. *)
Definition committed (user token refreshToken : JSValue) (w : World) : Prop :=
  session w = (user, token, refreshToken) /\ persisted w /\ listeners_notified w.

(** The Session was cleared: three nulls, no stored record, listeners. *)
Definition cleared (w : World) : Prop :=
  session w = (JNull, JNull, JNull) /\ unpersisted w /\ listeners_notified w.

(** The reply the second [fetch] call from now will get. *)
Definition second_reply (w : World) : FetchOutcome :=
  head_reply (with_network (tl (network w)) w).

(** What the server grants to a refresh that starts now: the refresh
    endpoint answers with a token response and the current-user endpoint
    with a user; [None] when either call fails or the token response has
    no properties to read. *)
Definition granted (w : World) : option (JSValue * JSValue * JSValue) :=
  match plain_outcome (head_reply w) with
  | Resolve tokenResponse =>
      match getprop tokenResponse "accessToken", getprop tokenResponse "refreshToken",
            plain_outcome (second_reply w) with
      | Resolve accessToken, Resolve refreshToken, Resolve user =>
          Some (user, accessToken, refreshToken)
      | _, _, _ => None
      end
  | Reject _ => None
  end.

(** How a leg of the pending refresh ends: with a value, or, only where
    the storage is denied, with the error of the storage. *)
Definition ended {A} (w : World) (r : Outcome A) : Prop :=
  (exists a, r = Resolve a) \/ (storage_denied w = true /\ r = Reject StorageError).

(** Two worlds with the same IAM address and as many refresh calls. *)
Definition same_refresh_calls (w w' : World) : Prop :=
  iamBaseUrl (auth w') = iamBaseUrl (auth w) /\ refresh_calls w' = refresh_calls w.

(* --------------------------------------------------------------------- *)
(** *** Vocabulary of the further properties *)

(** The last character of a text is [c]. *)
Fixpoint ends_with (c : ascii) (s : string) : bool :=
  match s with
  | EmptyString => false
  | String a EmptyString => Ascii.eqb a c
  | String _ rest => ends_with c rest
  end.

(** The world right after the one [fetch] of a call: the request is in
    the log and the head of the script is consumed. *)
Definition fetched (c : HttpClient) (path : string) (options : RequestOptions)
    (w : World) : World :=
  with_network (tl (network w)) (send (buildRequest c path options w) w).

(** The same client without an unauthorized-callback. *)
Definition without_onUnauthorized (c : HttpClient) : HttpClient :=
  {| baseUrl := baseUrl c; tokenGetter := tokenGetter c; onUnauthorized := None;
     onError := onError c; defaultHeaders := defaultHeaders c |}.


(** The registration call of [signUp]. *)
Definition register_options (data : SignUpData) (w : World) : RequestOptions :=
  post_options (signup_json data (appId (auth w))).

(** The [Authorization] header that goes with a token. *)
Definition bearer (token : JSValue) : option HeaderValue :=
  if truthy token then Some (HBearer token) else None.

(** A stored text from which no record can be read: it does not parse,
    or it parses to [null]. *)
Definition unreadable (text : Text) : bool :=
  match text with
  | RawText raw => negb (String.eqb raw "")
  | JsonText JNull | JsonText JUndefined => true
  | JsonText _ => false
  end.

(** The characters of the text [encodeURIComponent] writes: unreserved
    ones, and the escapes [%XX]. *)
Definition escaped (c : ascii) : bool :=
  unreserved c || Ascii.eqb c "%" || existsb (Ascii.eqb c)
                                       (list_ascii_of_string "0123456789ABCDEF").

(** The value of a hexadecimal digit. *)
Definition unhex (c : ascii) : nat :=
  let n := nat_of_ascii c in
  if Nat.leb 65 n then (n - 55)%nat else (n - 48)%nat.

(** A left inverse of [encodeURIComponent]: every escape [%XX] is read
    back as the code unit it stands for. *)
Fixpoint unescape (s : string) : string :=
  match s with
  | EmptyString => EmptyString
  | String c rest =>
      if Ascii.eqb c "%" then
        match rest with
        | String h1 (String h2 rest') =>
            String (ascii_of_nat (16 * unhex h1 + unhex h2)) (unescape rest')
        | _ => String c (unescape rest)
        end
      else String c (unescape rest)
  end.

(** The operations on the table cache of [EntitiesModule]. *)
Inductive TableOp : Type :=
| GetTable (tableName : string)
| SetDataSourceId (dataSourceId : JSValue).

Section TableCache.

Variable Number_toString : spec_float -> string.

Definition table_step (m : EntitiesModule.t) (op : TableOp) : EntitiesModule.t :=
  match op with
  | GetTable tableName => snd (EntitiesModule.getTable Number_toString tableName m)
  | SetDataSourceId dataSourceId => EntitiesModule.setDataSourceId dataSourceId m
  end.

(** Every cached accessor was built for the current data source. *)
Definition cache_is_current (m : EntitiesModule.t) : Prop :=
  forall tableName table,
    EntitiesModule.tableProxies m !! tableName = Some table ->
    table = EntitiesModule.createTableAccessor Number_toString m tableName.

End TableCache.

(** The positional form of an options object whose [sort] is a string or
    is missing. *)
Definition sort_of (v : JSValue) : option SortOrOptions :=
  match v with
  | JStr sort => Some (Sort sort)
  | JUndefined => Some NoSort
  | _ => None
  end.

(** The world after one [fetch] of [req] answered by the head of the
    script. *)
Definition answered (req : Request) (w : World) : World :=
  with_network (tl (network w)) (with_sent (sent w ++ [req]) w).

(** The client that [init] leaves when the application info was read. *)
Definition initialized_with (dataSourceId allowed : JSValue) (client : MitraClient)
  : MitraClient :=
  with_initialized true
    (with_allowSignup allowed
       (with_queries (QueriesModule.setDataSourceId dataSourceId (queries client))
          (with_entities
             (EntitiesModule.setDataSourceId dataSourceId (entities client)) client))).

(** The HTTP clients of the modules of a [MitraClient]. *)
Definition module_clients (client : MitraClient) : list HttpClient :=
  [EntitiesModule.httpClient (entities client);
   QueriesModule.httpClient (queries client);
   FunctionsModule.httpClient (functions client);
   IntegrationModule.httpClient (integration client)].

(* ===================================================================== *)
(** ** Sample data *)
(* ===================================================================== *)

Module Sample.

Definition module0 : AuthModule :=
  {| appId := "app-1"; iamBaseUrl := "https://api.mitra.io/iam";
     _currentUser := JNull; _accessToken := JNull; _refreshToken := JNull;
     refreshPromise := None; listeners := [] |}.

Definition storage0 : Storage :=
  {| items := ∅; full := false; disabled := false; denied := false |}.

(** The storage of a page that may not use it. *)
Definition storage_off : Storage :=
  {| items := ∅; full := false; disabled := false; denied := true |}.

(** A freshly constructed client in a browser, with the replies the
    network will give. *)
Definition world0 (replies : list FetchOutcome) : World :=
  {| auth := module0; localStorage := Some storage0; window := Some "/";
     network := replies; sent := []; console := []; notified := [];
     reported := [] |}.

Definition reply (code : Z) (doc : JSValue) : FetchOutcome :=
  Responded {| status := code; payload := JsonText doc |}.

Definition tokens (access refresh : string) : JSValue :=
  JObj [("accessToken", JStr access); ("refreshToken", JStr refresh);
        ("tokenType", JStr "Bearer")].

Definition user1 : JSValue :=
  JObj [("id", JStr "u1"); ("tenantId", JStr "org1"); ("email", JStr "a@b.com");
        ("name", JNull)].

Definition credentials1 : SignInCredentials :=
  {| email := "a@b.com"; password := "pw" |}.

(** The same client, signed in as [user1]. *)
Definition signed_in (replies : list FetchOutcome) : World :=
  with_auth
    (fun a => set_currentUser user1
                (set_accessToken (JStr "t1") (set_refreshToken (JStr "r1") a)))
    (world0 replies).

(** A listener that raises whenever it is called, and one that never does. *)
Definition faulty_listener : Listener :=
  {| lid := 7; reaction := fun _ => Some (Raised 7) |}.

Definition quiet_listener : Listener :=
  {| lid := 8; reaction := fun _ => None |}.

(** The same user on a page that is denied its storage, with a listener
    registered. *)
Definition denied_page (replies : list FetchOutcome) : World :=
  with_auth (set_listeners [quiet_listener])
    (with_localStorage (Some storage_off) (signed_in replies)).

(** A resource client as [createClient] builds it, without and with the
    global error hook. *)
Definition dataClient (hook : option (MitraApiError.t -> option Exn)) : HttpClient :=
  new_HttpClient
    {| cfg_baseUrl := "https://api.mitra.io/data-manager";
       cfg_getToken := Some (fun w => _accessToken (auth w));
       cfg_onUnauthorized := None;
       cfg_onError := hook;
       cfg_defaultHeaders := Some {[ "X-App-Id" := "app-1" ]} |}.

Definition quiet_hook : MitraApiError.t -> option Exn := fun _ => None.

(** A refresh has been started and is waiting for the refresh endpoint. *)
Definition pending : World := snd (refreshSession_call (signed_in [])).

(** The server answers the refresh with an empty refresh token; a second
    caller arrives before the current-user reply. *)
Definition race : list Event :=
  [Reply (reply 200 (tokens "t2" "")); CallRefresh; Reply (reply 200 user1)].

(** Two callers arrive while the refresh is pending, tokens in order. *)
Definition shared_run : list Event :=
  [CallRefresh; Reply (reply 200 (tokens "t2" "r2")); CallRefresh;
   Reply (reply 200 user1)].

(** A session: sign in, look the user up, refresh, sign out. *)
Definition day : list Operation :=
  [DoSignIn credentials1; DoMe; DoSetToken "t1b" None; DoReload; DoRefreshSession;
   DoCheckAuth; DoSignIn credentials1; DoSignOut None; DoReload].

Definition day_replies : list FetchOutcome :=
  [reply 200 (tokens "t1" "r1"); reply 200 user1; reply 200 user1;
   reply 200 (tokens "t2" "r2"); reply 200 user1; reply 500 (JObj []);
   reply 401 (JObj [("message", JStr "Invalid credentials")])].

End Sample.

(** A client as an application creates it. *)
Module Demo.

Definition settings : MitraClientConfig :=
  {| client_appId := "app-1"; apiUrl := "https://api.mitra.io";
     client_onError := Some Sample.quiet_hook |}.

(** A stand-in for the engine's conversion of numbers to text; the
    examples convert none. *)
Definition Number_toString (x : spec_float) : string := "0".

Definition appInfo : JSValue :=
  JObj [("dataSourceId", JStr "ds-1"); ("allowSignup", JBool false)].

(** The client of [settings], before [init]. *)
Definition client : MitraClient :=
  {| config := settings;
     entities := EntitiesModule.new (serviceClient settings "/data-manager") (JStr "");
     functions := {| FunctionsModule.httpClient := serviceClient settings "/functions" |};
     integration :=
       {| IntegrationModule.httpClient := serviceClient settings "/integration" |};
     queries := QueriesModule.new (serviceClient settings "/data-manager");
     initialized := false;
     allowSignup := JBool true |}.

(** A callback that fails. *)
Definition failing_refresh : M bool := throw (Raised 3).

End Demo.

(* ===================================================================== *)
(** ** Properties of HttpClient *)
(* ===================================================================== *)

(** Unfolds the sequencing operators, leaving the operations folded. *)
Ltac run_step :=
  cbv beta iota delta [bind gets modify ret throw lift try_catch try_finally].

Lemma bind_ext {A B} (m : M A) (f g : A -> M B) w :
  (forall a w', f a w' = g a w') -> bind m f w = bind m g w.
Proof.
  intros H. unfold bind. destruct (m w) as [[a|e] w']; [apply H | reflexivity].
Qed.

Lemma next_reply_eq w :
  next_reply w = (Resolve (head_reply w), with_network (tl (network w)) w).
Proof.
  unfold next_reply, head_reply. destruct w as [a ls win nw s co n rp]; cbn.
  destruct nw; reflexivity.
Qed.

Lemma fetch_responded req w r rest :
  network w = Responded r :: rest ->
  fetch req w = (Resolve r, with_network rest (send req w)).
Proof.
  intros H. unfold fetch, next_reply, arrive. run_step. cbn. rewrite H. reflexivity.
Qed.

Section Retry.

Variables (c : HttpClient) (path : string).

(** With the retry flag set the recursive call is never reached. *)
Lemma afterFetch_retry_flag again1 again2 options response w :
  is_retry options = true ->
  afterFetch again1 c options response w = afterFetch again2 c options response w.
Proof.
  intros H. unfold afterFetch. rewrite H.
  destruct (negb (ok response)); [|reflexivity].
  destruct (onUnauthorized c); [|reflexivity].
  rewrite andb_false_r. reflexivity.
Qed.

Lemma afterFetch_ext again1 again2 options response w :
  (forall w', again1 w' = again2 w') ->
  afterFetch again1 c options response w = afterFetch again2 c options response w.
Proof.
  intros H. unfold afterFetch.
  destruct (negb (ok response)); [|reflexivity].
  destruct (onUnauthorized c) as [refresh|]; [|reflexivity].
  destruct ((status response =? 401) && negb (is_retry options)); [|reflexivity].
  apply bind_ext. intros [] w'; [apply H | reflexivity].
Qed.

Lemma request_fuel_retried n options w :
  request_fuel n c path (retried options) w
  = request_fuel 0 c path (retried options) w.
Proof.
  destruct n as [|n]; [reflexivity|].
  cbn [request_fuel]. apply bind_ext; intros req w1.
  apply bind_ext; intros response w2.
  apply afterFetch_retry_flag. reflexivity.
Qed.

(** One unit of fuel is enough: more fuel never changes a run, so the
    exhaustion branch of [request_fuel] is not part of [request]. *)
Lemma request_fuel_stable n options w :
  request_fuel (S n) c path options w = request c path options w.
Proof.
  unfold request. cbn [request_fuel].
  apply bind_ext; intros req w1. apply bind_ext; intros response w2.
  apply afterFetch_ext. intros w'. apply request_fuel_retried.
Qed.

(** A call with the retry flag: one [fetch], then the response is
    returned or converted; the 401 branch is closed. *)
Lemma request_retried_once options w :
  request c path (retried options) w =
  (let* req := gets (buildRequest c path (retried options)) in
   let* response := fetch req in
   if negb (ok response) then raiseApiError c response
   else if status response =? 204 then ret JUndefined
   else lift (json response)) w.
Proof.
  unfold request. cbn [request_fuel].
  apply bind_ext; intros req w1. apply bind_ext; intros response w2.
  unfold afterFetch. cbn [is_retry retried isRetry default].
  rewrite andb_false_r.
  destruct (negb (ok response)); [|reflexivity].
  destruct (onUnauthorized c); reflexivity.
Qed.

Lemma buildRequest_retried options w w' :
  same_target (buildRequest c path (retried options) w') (buildRequest c path options w).
Proof. repeat split. Qed.

(** The error conversion, when the error document is not [null]. *)
Lemma raiseApiError_spec response w message error_code :
  getprop (errorBody_of response) "message" = Resolve message ->
  getprop (errorBody_of response) "error_code" = Resolve error_code ->
  let error :=
    MitraApiError.new
      (js_or message
         (JStr ("Request failed with status " +:+ show_status (status response))))
      (status response) error_code (errorBody_of response) in
  raiseApiError c response w =
    match onError c with
    | None => (Reject (ApiError error), w)
    | Some hook =>
        (Reject (match hook error with Some e => e | None => ApiError error end),
         with_reported (reported w ++ [error]) w)
    end.
Proof.
  intros Hm Hc error. unfold raiseApiError, newMitraApiError, callOnError. run_step.
  rewrite Hm, Hc. cbv beta iota. fold error.
  destruct (onError c) as [hook|]; [|reflexivity].
  run_step. destruct (hook error); reflexivity.
Qed.

(** The error conversion leaves the network alone. *)
Lemma raiseApiError_sent response w :
  sent (after (raiseApiError c response w)) = sent w.
Proof.
  unfold raiseApiError, newMitraApiError, callOnError. run_step.
  destruct (getprop (errorBody_of response) "message"); [|reflexivity].
  destruct (getprop (errorBody_of response) "error_code"); [|reflexivity].
  cbv beta iota. destruct (onError c) as [hook|]; [|reflexivity].
  run_step.
  match goal with |- context [hook ?e] => destruct (hook e) end; reflexivity.
Qed.

(** A retried call performs exactly one [fetch]. *)
Lemma request_retry_sends_once options w :
  sent (after (request c path (retried options) w))
  = sent w ++ [buildRequest c path (retried options) w].
Proof.
  rewrite request_retried_once. unfold fetch. run_step. rewrite next_reply_eq.
  unfold arrive. destruct (head_reply _) as [r|]; [|reflexivity].
  cbv beta iota. destruct (negb (ok r)).
  - rewrite raiseApiError_sent. reflexivity.
  - destruct (status r =? 204); [reflexivity|]. destruct (json r); reflexivity.
Qed.

(** First half of claim C1, in full generality: a first attempt answered
    401, with a callback that resolves [true], is followed by exactly one
    more [fetch] to the same target, and the caller gets what that second
    call gives; the hook is not run for the first attempt. *)
Lemma request_401_refreshed options refresh w r rest w2 :
  onUnauthorized c = Some refresh ->
  is_retry options = false ->
  network w = Responded r :: rest ->
  status r = 401 ->
  refresh (with_network rest (send (buildRequest c path options w) w))
    = (Resolve true, w2) ->
  request c path options w = request c path (retried options) w2
  /\ sent (after (request c path options w))
     = sent w2 ++ [buildRequest c path (retried options) w2]
  /\ same_target (buildRequest c path (retried options) w2)
                 (buildRequest c path options w).
Proof.
  intros Hcb Hretry Hnet Hst Hrefresh.
  assert (E : request c path options w = request c path (retried options) w2).
  { replace (request c path (retried options) w2)
      with (request_fuel 0 c path (retried options) w2)
      by (symmetry; apply (request_fuel_retried 1)).
    change (request c path options w)
      with (bind (gets (buildRequest c path options))
              (fun req => bind (fetch req)
                 (fun response =>
                    afterFetch (request_fuel 0 c path (retried options))
                      c options response)) w).
    set (again := request_fuel 0 c path (retried options)).
    unfold bind at 1, gets. unfold bind at 1.
    rewrite (fetch_responded _ _ _ _ Hnet).
    unfold afterFetch. rewrite Hcb, Hretry, Hst.
    replace (negb (ok r)) with true by (unfold ok; rewrite Hst; reflexivity).
    cbn [Z.eqb Pos.eqb negb andb].
    unfold bind. rewrite Hrefresh. reflexivity. }
  split; [exact E|]. split; [|apply buildRequest_retried].
  rewrite E. apply request_retry_sends_once.
Qed.

(** Second half of claim C1, where it holds: without a callback, a 401
    whose error document is not [null] gives one [fetch] and an API
    error with status 401 (unless the hook itself raises). *)
Lemma request_401_no_callback options w r rest message error_code :
  onUnauthorized c = None ->
  network w = Responded r :: rest ->
  status r = 401 ->
  getprop (errorBody_of r) "message" = Resolve message ->
  getprop (errorBody_of r) "error_code" = Resolve error_code ->
  (forall hook e, onError c = Some hook -> hook e = None) ->
  sent (after (request c path options w)) = sent w ++ [buildRequest c path options w]
  /\ exists e, result (request c path options w) = Reject (ApiError e)
               /\ MitraApiError.status e = 401.
Proof.
  intros Hcb Hnet Hst Hm Hc Hhook.
  assert (E : request c path options w
              = raiseApiError c r
                  (with_network rest (send (buildRequest c path options w) w))).
  { change (request c path options w)
      with (bind (gets (buildRequest c path options))
              (fun req => bind (fetch req)
                 (fun response =>
                    afterFetch (request_fuel 0 c path (retried options))
                      c options response)) w).
    set (again := request_fuel 0 c path (retried options)).
    unfold bind at 1, gets. unfold bind at 1.
    rewrite (fetch_responded _ _ _ _ Hnet).
    unfold afterFetch. rewrite Hcb.
    replace (negb (ok r)) with true by (unfold ok; rewrite Hst; reflexivity).
    reflexivity. }
  rewrite E, (raiseApiError_spec _ _ _ _ Hm Hc).
  destruct (onError c) as [hook|] eqn:Hh.
  - rewrite (Hhook hook _ eq_refl). cbn. split; [reflexivity|].
    eexists. split; [reflexivity|]. exact Hst.
  - cbn. split; [reflexivity|]. eexists. split; [reflexivity|]. exact Hst.
Qed.


(** So does a 401 whose callback resolves [false]. *)
Lemma afterFetch_refresh_declined again options response refresh w w' :
  ok response = false ->
  onUnauthorized c = Some refresh ->
  refresh w = (Resolve false, w') ->
  status response = 401 -> is_retry options = false ->
  afterFetch again c options response w = raiseApiError c response w'.
Proof.
  intros Hok Hcb Hr Hst Hretry. unfold afterFetch.
  rewrite Hok, Hcb, Hst, Hretry. cbn [negb Z.eqb Pos.eqb andb].
  unfold bind. rewrite Hr. reflexivity.
Qed.

(** A falsy body and an omitted body give the same call. *)
Lemma buildRequest_falsy_body options w :
  truthy (body options) = false ->
  buildRequest c path options w = buildRequest c path (omit_body options) w.
Proof. intros H. unfold buildRequest. cbn [body omit_body]. rewrite H. reflexivity. Qed.

Lemma request_fuel_falsy_body n :
  forall options w,
    truthy (body options) = false ->
    request_fuel n c path options w = request_fuel n c path (omit_body options) w.
Proof.
  induction n as [|n IH]; intros options w H; cbn [request_fuel];
    unfold bind, gets; rewrite <- (buildRequest_falsy_body _ _ H);
    destruct (fetch (buildRequest c path options w) w) as [[response|e] w2];
    try reflexivity.
  symmetry.
  change (afterFetch (request_fuel n c path (retried (omit_body options)))
            c (omit_body options) response w2)
    with (afterFetch (request_fuel n c path (omit_body (retried options)))
            c options response w2).
  apply afterFetch_ext. intros w'. symmetry. apply (IH (retried options)). exact H.
Qed.

End Retry.

(** Claim C1, at the input where the code departs from it.  A 401 reply
    whose body is the JSON text [null], received by a client with no
    unauthorized-callback, must give one network call and an API Error
    with status 401.  The code makes the one call, but then reads
    [errorBody.message] on [null]: the caller receives a TypeError, no
    MitraApiError is built.  (With a callback that resolves true the
    claim holds in full: [request_401_refreshed].) *)
Theorem request_401_null_body_is_a_TypeError :
  result (request (Sample.dataClient None) "/api/v1/records" (get_options None)
            (Sample.world0 [Sample.reply 401 JNull]))
    = Reject (TypeError "message")
  /\ length (sent (after (request (Sample.dataClient None) "/api/v1/records"
                            (get_options None)
                            (Sample.world0 [Sample.reply 401 JNull])))) = 1%nat.
Proof. split; vm_compute; reflexivity. Qed.

(** Claim C7, at the input where the code departs from it.  Every non-2xx
    response outside the retry path must be raised as an API Error
    carrying the status, and the global error hook must see that error
    once.  For a 500 reply whose body is the JSON text [null] the code
    raises a TypeError instead and never calls the hook.  (For every
    other error document the conversion is as claimed:
    [raiseApiError_spec], [afterFetch_error].) *)
Theorem request_500_null_body_skips_the_hook :
  result (request (Sample.dataClient (Some Sample.quiet_hook)) "/api/v1/records"
            (post_options (JObj [("title", JStr "x")]))
            (Sample.world0 [Sample.reply 500 JNull]))
    = Reject (TypeError "message")
  /\ reported (after (request (Sample.dataClient (Some Sample.quiet_hook))
                        "/api/v1/records" (post_options (JObj [("title", JStr "x")]))
                        (Sample.world0 [Sample.reply 500 JNull]))) = [].
Proof. split; vm_compute; reflexivity. Qed.

(** The same request with an error document that is an object: the API
    error is built and reported once. *)
Example request_500_object_body :
  result (request (Sample.dataClient (Some Sample.quiet_hook)) "/api/v1/records"
            (get_options None)
            (Sample.world0 [Sample.reply 500 (JObj [("error_code", JStr "E_DB")])]))
    = Reject (ApiError
        (MitraApiError.new (JStr "Request failed with status 500") 500 (JStr "E_DB")
           (JObj [("error_code", JStr "E_DB")])))
  /\ length (reported (after (request (Sample.dataClient (Some Sample.quiet_hook))
               "/api/v1/records" (get_options None)
               (Sample.world0 [Sample.reply 500 (JObj [("error_code", JStr "E_DB")])]))))
     = 1%nat.
Proof. split; vm_compute; reflexivity. Qed.

(** Claim C10.  When the [body] option is falsy ([0], [-0], [NaN], the
    empty string, [false], [null], [undefined]) the call is built with no
    body, and the whole request runs exactly as if [body] had been
    omitted; a body is attached only when the option is truthy, and it is
    then its JSON text. *)
Theorem request_falsy_body_is_omitted (c : HttpClient) (path : string)
    (options : RequestOptions) :
  truthy (body options) = false ->
  (forall w, req_body (buildRequest c path options w) = None)
  /\ (forall w, request c path options w = request c path (omit_body options) w)
  /\ (forall (sent_options : RequestOptions) w text,
        req_body (buildRequest c path sent_options w) = Some text ->
        truthy (body sent_options) = true
        /\ JSON_stringify (body sent_options) = Some text).
Proof.
  intros H. split; [|split].
  - intros w. unfold buildRequest. cbn [req_body]. rewrite H. reflexivity.
  - intros w. apply request_fuel_falsy_body. exact H.
  - intros sent_options w text. unfold buildRequest. cbn [req_body].
    destruct (truthy (body sent_options)); [auto | discriminate].
Qed.

Lemma request_falsy_body_is_omitted_witness :
  truthy (body (post_options zero)) = false
  /\ ((forall w, req_body (buildRequest (Sample.dataClient None) "/api/v1/records"
                            (post_options zero) w) = None)
      /\ (forall w, request (Sample.dataClient None) "/api/v1/records" (post_options zero) w
                    = request (Sample.dataClient None) "/api/v1/records"
                        (omit_body (post_options zero)) w)
      /\ (forall (sent_options : RequestOptions) w text,
            req_body (buildRequest (Sample.dataClient None) "/api/v1/records"
                        sent_options w) = Some text ->
            truthy (body sent_options) = true
            /\ JSON_stringify (body sent_options) = Some text)).
Proof.
  split; [reflexivity|].
  apply (request_falsy_body_is_omitted (Sample.dataClient None) "/api/v1/records"
           (post_options zero)).
  reflexivity.
Defined.

(** Query parameters: an entry whose value is [undefined] is left out. *)
Example query_skips_undefined :
  req_url (buildRequest (Sample.dataClient None) "/api/v1/records"
             (get_options (Some [("limit", num 10); ("skip", JUndefined)]))
             (Sample.world0 []))
  = {| address := "https://api.mitra.io/data-manager/api/v1/records";
       query := [("limit", num 10)] |}.
Proof. reflexivity. Qed.

(** Headers: defaults, then the caller's, then the bearer token. *)
Example headers_precedence :
  req_headers
    (buildRequest (Sample.dataClient None) "/api/v1/records"
       {| method := None; body := JUndefined;
          headers := Some {[ "X-App-Id" := "other"; "Content-Type" := "text/plain" ]};
          params := None; isRetry := None |}
       (Sample.signed_in []))
  = {[ "Content-Type" := HText "text/plain"; "X-App-Id" := HText "other";
       "Authorization" := HBearer (JStr "t1") ]}.
Proof. vm_compute. reflexivity. Qed.

(** A 204 gives [undefined] without reading the body. *)
Example no_content :
  result (request (Sample.dataClient None) "/api/v1/records/7" (delete_options None)
            (Sample.world0 [Responded {| status := 204; payload := RawText "" |}]))
  = Resolve JUndefined.
Proof. vm_compute. reflexivity. Qed.

(** A 401 retried after a refresh that succeeds: two calls, the second
    with the retry flag's result. *)
Example retried_after_refresh :
  let client :=
    new_HttpClient
      {| cfg_baseUrl := "https://api.mitra.io/data-manager/";
         cfg_getToken := Some (fun w => _accessToken (auth w));
         cfg_onUnauthorized := Some refreshSession;
         cfg_onError := Some Sample.quiet_hook;
         cfg_defaultHeaders := None |} in
  let run :=
    request client "/api/v1/records" (get_options None)
      (Sample.signed_in [Sample.reply 401 (JObj []);
                         Sample.reply 200 (Sample.tokens "t2" "r2");
                         Sample.reply 200 Sample.user1;
                         Sample.reply 200 (JArr [])]) in
  result run = Resolve (JArr [])
  /\ List.map (fun r => (address (req_url r), req_headers r !! "Authorization"))
       (sent (after run))
     = [("https://api.mitra.io/data-manager/api/v1/records", Some (HBearer (JStr "t1")));
        ("https://api.mitra.io/iam/api/v1/auth/tokens/refresh", None);
        ("https://api.mitra.io/iam/api/v1/auth/me", Some (HBearer (JStr "t2")));
        ("https://api.mitra.io/data-manager/api/v1/records", Some (HBearer (JStr "t2")))]
  /\ reported (after run) = [].
Proof. repeat split; vm_compute; reflexivity. Qed.

(** The falsy values of the claim, one by one. *)
Example falsy_values :
  List.map truthy [zero; minus_zero; NaN; JStr ""; JBool false; JNull; JUndefined]
  = [false; false; false; false; false; false; false].
Proof. reflexivity. Qed.

Example truthy_values :
  List.map truthy [num 1; JStr "0"; JBool true; JArr []; JObj []]
  = [true; true; true; true; true].
Proof. reflexivity. Qed.

(* ===================================================================== *)
(** ** Properties of AuthModule *)
(* ===================================================================== *)

(** *** Clients without callbacks *)

Section PlainClient.

Variable c : HttpClient.
Hypothesis no_callback : onUnauthorized c = None.
Hypothesis no_hook : onError c = None.

Lemma afterFetch_plain again options r w :
  afterFetch again c options r w = (plain_answer r, w).
Proof.
  unfold afterFetch, plain_answer, raiseApiError, newMitraApiError, callOnError.
  rewrite no_callback, no_hook. run_step.
  destruct (negb (ok r)).
  - destruct (getprop (errorBody_of r) "message"); [|reflexivity].
    destruct (getprop (errorBody_of r) "error_code"); reflexivity.
  - destruct (status r =? 204); reflexivity.
Qed.

Lemma resume_request_plain path options reply w :
  resume_request c path options reply w = (plain_outcome reply, w).
Proof.
  unfold resume_request, arrive. run_step.
  destruct reply as [r|]; [|reflexivity].
  cbv beta iota. apply afterFetch_plain.
Qed.

(** One [fetch], answered by the head of the script; nothing else in the
    world moves. *)
Lemma request_plain path options w :
  request c path options w =
    (plain_outcome (head_reply w),
     with_network (tl (network w)) (send (buildRequest c path options w) w)).
Proof.
  change (request c path options w)
    with (bind (gets (buildRequest c path options))
            (fun req => bind (fetch req)
               (fun response =>
                  afterFetch (request_fuel 0 c path (retried options))
                    c options response)) w).
  unfold fetch. run_step. rewrite next_reply_eq.
  replace (head_reply (send (buildRequest c path options w) w)) with (head_reply w)
    by reflexivity.
  cbn [send with_sent network tl sent].
  unfold arrive. destruct (head_reply w); cbn [plain_outcome].
  - apply afterFetch_plain.
  - reflexivity.
Qed.

End PlainClient.

(** [publicClient] and [authedClient] are such clients. *)
Ltac plain_request := rewrite request_plain by reflexivity.
Ltac plain_resume := rewrite resume_request_plain by reflexivity.

(** *** Storage and listeners *)

(** What the storage helpers do, case by case: nothing where there is
    no storage; where reading the global throws they throw, before
    anything is done; a storage that refuses the access is left as it
    is, silently. *)
Lemma saveToStorage_run w :
  saveToStorage w =
    match localStorage w with
    | None => (Resolve tt, w)
    | Some st =>
        if denied st then (Reject StorageError, w)
        else if disabled st || full st then (Resolve tt, w)
        else (Resolve tt, with_localStorage (Some (written (auth w) st)) w)
    end.
Proof.
  unfold saveToStorage, localStorage_is_undefined, localStorage_setItem. run_step.
  destruct (localStorage w) as [[it f d dn]|] eqn:Hls; [|reflexivity].
  destruct dn; cbv beta iota; cbn [denied]; cbv beta iota; [reflexivity|].
  rewrite Hls. destruct d, f; reflexivity.
Qed.

Lemma removeFromStorage_run w :
  removeFromStorage w =
    match localStorage w with
    | None => (Resolve tt, w)
    | Some st =>
        if denied st then (Reject StorageError, w)
        else if disabled st then (Resolve tt, w)
        else (Resolve tt, with_localStorage (Some (removed (auth w) st)) w)
    end.
Proof.
  unfold removeFromStorage, localStorage_is_undefined, localStorage_removeItem. run_step.
  destruct (localStorage w) as [[it f d dn]|] eqn:Hls; [|reflexivity].
  destruct dn; cbv beta iota; cbn [denied]; cbv beta iota; [reflexivity|].
  rewrite Hls. destruct d; reflexivity.
Qed.

Lemma saveToStorage_flag w :
  storage_denied (after (saveToStorage w)) = storage_denied w.
Proof.
  rewrite saveToStorage_run. unfold storage_denied.
  destruct (localStorage w) as [st|] eqn:Hls; [|cbn; rewrite Hls; reflexivity].
  destruct (denied st) eqn:Hd; [cbn; rewrite Hls; exact Hd|].
  destruct (disabled st || full st); cbn; [rewrite Hls|]; exact Hd.
Qed.

Lemma with_localStorage_same w : with_localStorage (localStorage w) w = w.
Proof. destruct w; reflexivity. Qed.

(** Where the global [localStorage] can be read, the storage helpers
    never fail the caller. *)
Lemma removeFromStorage_shape w :
  storage_denied w = false ->
  exists ls, removeFromStorage w = (Resolve tt, with_localStorage ls w).
Proof.
  unfold storage_denied. rewrite removeFromStorage_run.
  destruct (localStorage w) as [st|] eqn:Hls.
  - intros ->. destruct (disabled st); eexists; [|reflexivity].
    rewrite <- (with_localStorage_same w) at 1. rewrite Hls. reflexivity.
  - intros _. exists None. rewrite <- (with_localStorage_same w) at 1.
    rewrite Hls. reflexivity.
Qed.

Lemma saveToStorage_shape w :
  storage_denied w = false ->
  exists ls, saveToStorage w = (Resolve tt, with_localStorage ls w).
Proof.
  unfold storage_denied. rewrite saveToStorage_run.
  destruct (localStorage w) as [st|] eqn:Hls.
  - intros ->. destruct (disabled st || full st); eexists; [|reflexivity].
    rewrite <- (with_localStorage_same w) at 1. rewrite Hls. reflexivity.
  - intros _. exists None. rewrite <- (with_localStorage_same w) at 1.
    rewrite Hls. reflexivity.
Qed.

Lemma removeFromStorage_denied w :
  storage_denied w = true -> removeFromStorage w = (Reject StorageError, w).
Proof.
  unfold storage_denied. rewrite removeFromStorage_run.
  destruct (localStorage w) as [st|]; [|discriminate]. intros ->. reflexivity.
Qed.

Lemma saveToStorage_denied w :
  storage_denied w = true -> saveToStorage w = (Reject StorageError, w).
Proof.
  unfold storage_denied. rewrite saveToStorage_run.
  destruct (localStorage w) as [st|]; [|discriminate]. intros ->. reflexivity.
Qed.

Lemma loadFromStorage_denied w :
  storage_denied w = true -> loadFromStorage w = (Reject StorageError, w).
Proof.
  unfold storage_denied, loadFromStorage, localStorage_is_undefined. run_step.
  destruct (localStorage w) as [st|]; [|discriminate]. intros ->. reflexivity.
Qed.

(** Every listener is called, in order, with the current user; a listener
    that raises is reported on the console and the loop goes on. *)
Lemma forEach_listener_spec ls w :
  forEach_listener ls w =
    (Resolve tt,
     with_console (console w ++ flat_map (listener_error (_currentUser (auth w))) ls)
       (with_notified
          (notified w ++ List.map (fun l => (lid l, _currentUser (auth w))) ls) w)).
Proof.
  revert w. induction ls as [|l ls IH]; intros w.
  - cbn. rewrite !app_nil_r. destruct w; reflexivity.
  - cbn [forEach_listener flat_map List.map].
    unfold call_listener, console_error, listener_error at 1. run_step.
    destruct (reaction l (_currentUser (auth w))) as [e|]; rewrite IH;
      cbn [auth console notified with_console with_notified];
      rewrite <- !app_assoc; reflexivity.
Qed.

Lemma notifyListeners_spec w :
  notifyListeners w =
    (Resolve tt,
     with_console
       (console w
          ++ flat_map (listener_error (_currentUser (auth w))) (listeners (auth w)))
       (with_notified
          (notified w
             ++ List.map (fun l => (lid l, _currentUser (auth w))) (listeners (auth w)))
          w)).
Proof. unfold notifyListeners. run_step. apply forEach_listener_spec. Qed.

Lemma setAuthState_shape user token refreshToken w :
  storage_denied w = false ->
  exists ls co n,
    setAuthState user token refreshToken w =
      (Resolve tt,
       with_console co (with_notified n (with_localStorage ls
         (with_auth (set_session user token refreshToken) w)))).
Proof.
  intros Hrd. unfold setAuthState. run_step.
  match goal with |- context [saveToStorage ?w1] =>
    destruct (saveToStorage_shape w1 Hrd) as [ls E]; rewrite E end.
  rewrite notifyListeners_spec. eexists _, _, _. reflexivity.
Qed.

Lemma clearAuthState_shape w :
  storage_denied w = false ->
  exists ls co n,
    clearAuthState w =
      (Resolve tt,
       with_console co (with_notified n (with_localStorage ls
         (with_auth (set_session JNull JNull JNull) w)))).
Proof.
  intros Hrd. unfold clearAuthState. run_step.
  match goal with |- context [removeFromStorage ?w1] =>
    destruct (removeFromStorage_shape w1 Hrd) as [ls E]; rewrite E end.
  rewrite notifyListeners_spec. eexists _, _, _. reflexivity.
Qed.

(** The three assignments come first: where the storage is denied they
    are all that happens. *)
Lemma setAuthState_denied user token refreshToken w :
  storage_denied w = true ->
  setAuthState user token refreshToken w
  = (Reject StorageError, with_auth (set_session user token refreshToken) w).
Proof.
  intros Hd. unfold setAuthState. run_step.
  match goal with |- context [saveToStorage ?w1] =>
    rewrite (saveToStorage_denied w1 Hd) end.
  reflexivity.
Qed.

Lemma clearAuthState_denied w :
  storage_denied w = true ->
  clearAuthState w = (Reject StorageError, with_auth (set_session JNull JNull JNull) w).
Proof.
  intros Hd. unfold clearAuthState. run_step.
  match goal with |- context [removeFromStorage ?w1] =>
    rewrite (removeFromStorage_denied w1 Hd) end.
  reflexivity.
Qed.

Ltac commit_or_clear :=
  match goal with
  | H : storage_denied _ = false |- context [setAuthState ?u ?t ?r ?w1] =>
      let ls := fresh "ls" in let co := fresh "co" in let n := fresh "n" in
      let E := fresh "E" in
      destruct (setAuthState_shape u t r w1 H) as (ls & co & n & E); rewrite E
  | H : storage_denied _ = false |- context [clearAuthState ?w1] =>
      let ls := fresh "ls" in let co := fresh "co" in let n := fresh "n" in
      let E := fresh "E" in
      destruct (clearAuthState_shape w1 H) as (ls & co & n & E); rewrite E
  end.

(** *** signIn *)

(** Claim C2, at the input where the code departs from it.  A failing
    [signIn] must leave the Session exactly as it was.  Here the token
    request succeeds and the current-user fetch is answered 500: [signIn]
    fails, nothing is stored and no user is set, but the Session now
    holds the access and refresh tokens of the token response, which
    [authedClient] will send from then on.  ([doRefresh], the same
    sequence, ends every failure in [clearAuthState]; [signIn] has no
    handler.) *)
Theorem signIn_failure_leaves_the_new_tokens :
  session (Sample.world0 [Sample.reply 200 (Sample.tokens "t1" "r1");
                          Sample.reply 500 (JObj [])])
    = (JNull, JNull, JNull)
  /\ resolved (result (signIn Sample.credentials1
                         (Sample.world0 [Sample.reply 200 (Sample.tokens "t1" "r1");
                                         Sample.reply 500 (JObj [])]))) = false
  /\ session (after (signIn Sample.credentials1
                       (Sample.world0 [Sample.reply 200 (Sample.tokens "t1" "r1");
                                       Sample.reply 500 (JObj [])])))
     = (JNull, JStr "t1", JStr "r1")
  /\ localStorage (after (signIn Sample.credentials1
                            (Sample.world0 [Sample.reply 200 (Sample.tokens "t1" "r1");
                                            Sample.reply 500 (JObj [])])))
     = Some Sample.storage0.
Proof. repeat split; vm_compute; reflexivity. Qed.

(** What does hold of a failing [signIn].  The user record, the stored
    record and the listeners are untouched.  If it is the token request
    that failed (or its reply has no token to read), the whole Session is
    exactly what it was.  If the token request succeeded and the
    current-user fetch failed, the access and refresh tokens are those of
    the token response.  (Where the storage is denied [signIn] fails in
    [setAuthState] as well, after its three assignments.) *)
Lemma signIn_failure (credentials : SignInCredentials) (w : World) (e : Exn) :
  storage_denied w = false ->
  result (signIn credentials w) = Reject e ->
  (_currentUser (auth (after (signIn credentials w))) = _currentUser (auth w)
   /\ localStorage (after (signIn credentials w)) = localStorage w
   /\ notified (after (signIn credentials w)) = notified w)
  /\ (forall e1, plain_outcome (head_reply w) = Reject e1 ->
        session (after (signIn credentials w)) = session w)
  /\ (forall tokenResponse e1,
        plain_outcome (head_reply w) = Resolve tokenResponse ->
        getprop tokenResponse "accessToken" = Reject e1 ->
        session (after (signIn credentials w)) = session w)
  /\ (forall tokenResponse accessToken refreshToken,
        plain_outcome (head_reply w) = Resolve tokenResponse ->
        getprop tokenResponse "accessToken" = Resolve accessToken ->
        getprop tokenResponse "refreshToken" = Resolve refreshToken ->
        session (after (signIn credentials w))
        = (_currentUser (auth w), accessToken, refreshToken)).
Proof.
  intros Hrd. unfold signIn, post, get. run_step. plain_request.
  destruct (plain_outcome (head_reply w)) as [tokenResponse|e1] eqn:Htok.
  2:{ intros _. cbn. repeat split; try reflexivity; intros; congruence. }
  destruct (getprop tokenResponse "accessToken") as [a|e2] eqn:Ha.
  2:{ intros _. cbn. repeat split; try reflexivity; intros; congruence. }
  destruct (getprop tokenResponse "refreshToken") as [rt|e3] eqn:Hrt.
  2:{ destruct tokenResponse; discriminate. }
  plain_request.
  match goal with |- context [plain_outcome (head_reply ?w1)] =>
    destruct (plain_outcome (head_reply w1)) as [user|e4] end.
  - commit_or_clear. cbn. discriminate.
  - intros _. cbn. repeat split; try reflexivity; intros; try congruence.
    unfold session; cbn. congruence.
Qed.

(** A network failure after the token step, read off the lemma. *)
Example signIn_network_failure :
  session (after (signIn Sample.credentials1
                    (Sample.world0 [Sample.reply 200 (Sample.tokens "t1" "r1");
                                    NetworkDown])))
  = (JNull, JStr "t1", JStr "r1").
Proof.
  refine (proj2 (proj2 (proj2 (signIn_failure Sample.credentials1
           (Sample.world0 [Sample.reply 200 (Sample.tokens "t1" "r1"); NetworkDown])
           FetchFailed _ _))) (Sample.tokens "t1" "r1") (JStr "t1") (JStr "r1") _ _ _);
    vm_compute; reflexivity.
Qed.

(** The scenario of the specification: sign in, then sign out. *)
Example signIn_scenario :
  let run :=
    signIn Sample.credentials1
      (Sample.world0 [Sample.reply 200 (Sample.tokens "t1" "r1");
                      Sample.reply 200 Sample.user1]) in
  result run = Resolve Sample.user1
  /\ isAuthenticated (after run) = true
  /\ option_map (fun st => items st !! "mitra_auth_app-1") (localStorage (after run))
     = Some (JSON_stringify (stored_record (auth (after run))))
  /\ isAuthenticated (after (signOut None (after run))) = false
  /\ option_map (fun st => items st !! "mitra_auth_app-1")
       (localStorage (after (signOut None (after run))))
     = Some None.
Proof. repeat split; vm_compute; reflexivity. Qed.

(** Rejected credentials: nothing moves. *)
Example signIn_rejected_credentials :
  session (after (signIn Sample.credentials1
                    (Sample.signed_in [Sample.reply 401 (JObj [("message", JStr "bad")])])))
  = (Sample.user1, JStr "t1", JStr "r1").
Proof. vm_compute; reflexivity. Qed.

(** *** me *)

Lemma truthy_not_null v : truthy v = true -> not_null v = true.
Proof. destruct v; cbn; congruence. Qed.

Lemma me_without_token w :
  truthy (_accessToken (auth w)) = false -> me w = (Resolve JNull, w).
Proof. intros H. unfold me. run_step. rewrite H. reflexivity. Qed.

(** A 401 whose error document is not [null] clears the Session. *)
Lemma me_unauthorized w r message error_code :
  storage_denied w = false ->
  truthy (_accessToken (auth w)) = true ->
  head_reply w = Responded r ->
  status r = 401 ->
  getprop (errorBody_of r) "message" = Resolve message ->
  getprop (errorBody_of r) "error_code" = Resolve error_code ->
  result (me w) = Resolve JNull /\ session (after (me w)) = (JNull, JNull, JNull).
Proof.
  intros Hrd Htok Hhead Hst Hm Hc. unfold me, get. run_step. rewrite Htok. cbn [negb].
  plain_request. rewrite Hhead. cbn [plain_outcome]. unfold plain_answer.
  replace (negb (ok r)) with true by (unfold ok; rewrite Hst; reflexivity).
  rewrite Hm, Hc. cbn [MitraApiError.status MitraApiError.new]. rewrite Hst. cbn [Z.eqb Pos.eqb].
  commit_or_clear. cbn. split; reflexivity.
Qed.

(** Any failure that is not an API error with status 401 leaves the
    Session, the stored record and the listeners alone. *)
Lemma me_other_failure w e :
  truthy (_accessToken (auth w)) = true ->
  plain_outcome (head_reply w) = Reject e ->
  (forall a, e = ApiError a -> MitraApiError.status a <> 401) ->
  result (me w) = Resolve JNull
  /\ session (after (me w)) = session w
  /\ localStorage (after (me w)) = localStorage w
  /\ notified (after (me w)) = notified w.
Proof.
  intros Htok Hout Hne. unfold me, get. run_step. rewrite Htok. cbn [negb].
  plain_request. rewrite Hout.
  destruct e as [a| | | | | | |]; try (cbn; repeat split; reflexivity).
  specialize (Hne a eq_refl). apply Z.eqb_neq in Hne. rewrite Hne.
  cbn. repeat split; reflexivity.
Qed.

(** Claim C6, at the input where the code departs from it.  [me()] called
    with an access token held and answered 401 must clear the Session and
    return null.  When the 401 reply has the JSON text [null] as body,
    [request] raises a TypeError, not an API error; [me()] takes it for a
    transient failure: it returns null and leaves the user signed in.
    (For other 401 replies, and for failures that are not a 401, the
    claim holds: [me_unauthorized], [me_other_failure].) *)
Theorem me_401_null_body_keeps_the_session :
  result (me (Sample.signed_in [Sample.reply 401 JNull])) = Resolve JNull
  /\ session (after (me (Sample.signed_in [Sample.reply 401 JNull])))
     = (Sample.user1, JStr "t1", JStr "r1")
  /\ isAuthenticated (after (me (Sample.signed_in [Sample.reply 401 JNull]))) = true.
Proof. repeat split; vm_compute; reflexivity. Qed.

Example me_401_object_body_clears :
  session (after (me (Sample.signed_in
                        [Sample.reply 401 (JObj [("message", JStr "expired")])])))
  = (JNull, JNull, JNull).
Proof. vm_compute; reflexivity. Qed.

Example me_500_keeps_the_session :
  session (after (me (Sample.signed_in [Sample.reply 500 (JObj [])])))
  = (Sample.user1, JStr "t1", JStr "r1").
Proof. vm_compute; reflexivity. Qed.

(** *** Listeners *)

(** Claim C9, at the input where the code departs from it.  A listener
    that raises must have its error reported, not propagated, at the
    immediate call of subscription time as in later notifications.
    [onAuthStateChange] calls the new listener outside any [try]: the
    error reaches the subscriber, nothing is written to the console, and
    the listener stays registered although no unsubscribe function was
    returned.  ([notifyListeners] does what the claim says:
    [notifyListeners_spec].) *)
Theorem onAuthStateChange_propagates_the_error :
  result (onAuthStateChange Sample.faulty_listener (Sample.world0 []))
    = Reject (Raised 7)
  /\ console (after (onAuthStateChange Sample.faulty_listener (Sample.world0 []))) = []
  /\ List.map lid
       (listeners (auth (after (onAuthStateChange Sample.faulty_listener
                                  (Sample.world0 [])))))
     = [7%nat].
Proof. repeat split; vm_compute; reflexivity. Qed.

(** The same listener, met by [notifyListeners]: reported, and the
    listener after it is still called. *)
Example notifyListeners_reports_and_goes_on :
  notifyListeners
    (with_auth (set_listeners [Sample.faulty_listener; Sample.quiet_listener])
       (Sample.world0 []))
  = (Resolve tt,
     with_console [("Auth state change listener error:", Raised 7)]
       (with_notified [(7%nat, JNull); (8%nat, JNull)]
          (with_auth (set_listeners [Sample.faulty_listener; Sample.quiet_listener])
             (Sample.world0 [])))).
Proof. reflexivity. Qed.

(** *** The stored session record *)

Lemma json_fields_cons k x rest :
  json_fields ((k, x) :: rest)
  = if is_undefined x then json_fields rest else (k, jsonify x) :: json_fields rest.
Proof. destruct x; reflexivity. Qed.

Lemma read_back_eq v : read_back v = if is_undefined v then JUndefined else jsonify v.
Proof. destruct v; reflexivity. Qed.

(** The three properties of the stored record, as they are read back. *)
Lemma stored_record_read_back a :
  let fields := json_fields [("user", _currentUser a); ("token", _accessToken a);
                             ("refreshToken", _refreshToken a)] in
  own "user" fields = read_back (_currentUser a)
  /\ own "token" fields = read_back (_accessToken a)
  /\ own "refreshToken" fields = read_back (_refreshToken a).
Proof.
  cbv zeta. rewrite !json_fields_cons, !read_back_eq.
  destruct (is_undefined (_currentUser a)), (is_undefined (_accessToken a)),
    (is_undefined (_refreshToken a)); repeat split; reflexivity.
Qed.

Lemma loadFromStorage_record (w : World) (st : Storage) doc :
  localStorage w = Some st ->
  denied st = false -> disabled st = false ->
  items st !! storageKey (auth w) = Some (JsonText (JObj doc)) ->
  after (loadFromStorage w)
  = with_auth (set_session (own "user" doc) (own "token" doc)
                 (nullish_or (own "refreshToken" doc) JNull)) w.
Proof.
  intros Hls Hdn Hd Hitem.
  unfold loadFromStorage, localStorage_is_undefined, localStorage_getItem. run_step.
  rewrite Hls, Hdn. cbv beta iota. rewrite Hls, Hdn, Hd. cbn [orb]. cbv beta iota.
  rewrite Hitem. reflexivity.
Qed.

(** Claim C8, refuted as stated.  A [signIn] succeeds against a server
    whose token response carries no refresh token: the Session holds the
    user, the access token and [undefined] as refresh token, and its
    record is written.  A new Session Store over the same slot restores
    the user and the access token, but [null] as refresh token. *)
Lemma undefined_refreshToken_counterexample :
  let run :=
    signIn Sample.credentials1
      (Sample.world0 [Sample.reply 200 (JObj [("accessToken", JStr "t1")]);
                      Sample.reply 200 Sample.user1]) in
  let reload :=
    new_AuthModule "app-1" "https://api.mitra.io/iam"
      (reloaded Sample.module0 (after run)) in
  result run = Resolve Sample.user1
  /\ session (after run) = (Sample.user1, JStr "t1", JUndefined)
  /\ option_map (fun st => items st !! "mitra_auth_app-1") (localStorage (after run))
     = Some (JSON_stringify (stored_record (auth (after run))))
  /\ session (after reload) = (Sample.user1, JStr "t1", JNull)
  /\ session (after reload) <> session (after run).
Proof.
  split; [vm_compute; reflexivity|]. split; [vm_compute; reflexivity|].
  split; [vm_compute; reflexivity|]. split; [vm_compute; reflexivity|].
  vm_compute. discriminate.
Qed.

(** Claim C8, as the code has it.  The record that [saveToStorage]
    writes for a Session, to a storage that accepts the write, is read
    by the constructor of a new Session Store with the same application
    identifier, whatever its memory held before: the user record and the
    access token come back as JSON carries them, and so does the refresh
    token, except that [undefined] comes back as [null].  Hence the
    three fields are exactly those that were persisted whenever each of
    them is a value that JSON carries unchanged and the refresh token is
    not [undefined]. *)
Theorem session_round_trip (w : World) (st : Storage) (iam : string)
    (memory : AuthModule) :
  localStorage w = Some st ->
  usable st = true ->
  let reload :=
    new_AuthModule (appId (auth w)) iam (reloaded memory (after (saveToStorage w))) in
  session (after reload) = restored (session w)
  /\ (read_back (_currentUser (auth w)) = _currentUser (auth w) ->
      read_back (_accessToken (auth w)) = _accessToken (auth w) ->
      read_back (_refreshToken (auth w)) = _refreshToken (auth w) ->
      _refreshToken (auth w) <> JUndefined ->
      session (after reload) = session w).
Proof.
  intros Hls Hus reload.
  assert (E : session (after reload) = restored (session w)).
  { unfold usable in Hus. apply andb_prop in Hus as [Hus Hf].
    apply andb_prop in Hus as [Hdn Hd]. apply negb_true_iff in Hdn, Hd, Hf.
    destruct st as [it f d dn]. cbn in Hdn, Hd, Hf. subst f d dn.
    subst reload. unfold new_AuthModule. run_step.
    set (w1 := with_auth _ (reloaded memory (after (saveToStorage w)))).
    set (st1 := {| items := <[storageKey (auth w) :=
                               JsonText (jsonify (stored_record (auth w)))]> it;
                   full := false; disabled := false; denied := false |}).
    assert (Hsave : after (saveToStorage w) = with_localStorage (Some st1) w).
    { unfold saveToStorage, localStorage_is_undefined, localStorage_setItem. run_step.
      rewrite Hls. cbn [denied]. cbv beta iota. rewrite Hls. reflexivity. }
    assert (Hls1 : localStorage w1 = Some st1) by (subst w1; rewrite Hsave; reflexivity).
    rewrite (loadFromStorage_record w1 st1
               (json_fields [("user", _currentUser (auth w));
                             ("token", _accessToken (auth w));
                             ("refreshToken", _refreshToken (auth w))]) Hls1 eq_refl eq_refl).
    - destruct (stored_record_read_back (auth w)) as (Hu & Ht & Hr).
      cbv zeta in Hu, Ht, Hr. unfold session. cbn [auth with_auth set_session
        set_currentUser set_accessToken set_refreshToken _currentUser _accessToken
        _refreshToken].
      rewrite Hu, Ht, Hr. reflexivity.
    - subst w1 st1. cbn. unfold storageKey. cbn. apply lookup_insert_eq. }
  split; [exact E|].
  intros Hu Ht Hr Hne. rewrite E. unfold restored, session. rewrite Hu, Ht, Hr.
  destruct (_refreshToken (auth w)); try reflexivity. congruence.
Qed.

Lemma session_round_trip_witness :
  (localStorage (Sample.signed_in []) = Some Sample.storage0
   /\ usable Sample.storage0 = true)
  /\ session (after (new_AuthModule "app-1" "https://api.mitra.io/iam"
                       (reloaded Sample.module0
                          (after (saveToStorage (Sample.signed_in []))))))
     = (Sample.user1, JStr "t1", JStr "r1").
Proof.
  split; [split; reflexivity|].
  refine (proj2 (session_round_trip (Sample.signed_in []) Sample.storage0
                   "https://api.mitra.io/iam" Sample.module0 _ _) _ _ _ _);
    try reflexivity.
  discriminate.
Defined.

(** JSON does not carry every value unchanged: a negative zero is
    written as [0]. *)
Example negative_zero_is_read_back_as_zero :
  read_back (JNum (S754_zero true)) = JNum (S754_zero false)
  /\ restored (JObj [("id", JStr "u1"); ("balance", JNum (S754_zero true))],
               JStr "t1", JStr "r1")
     = (JObj [("id", JStr "u1"); ("balance", JNum (S754_zero false))],
        JStr "t1", JStr "r1").
Proof. split; reflexivity. Qed.

(** The record written by a successful [signIn] is the one a reload
    finds. *)
Example signIn_then_reload :
  session (after (new_AuthModule "app-1" "https://api.mitra.io/iam"
     (reloaded Sample.module0 (after (signIn Sample.credentials1
               (Sample.world0 [Sample.reply 200 (Sample.tokens "t1" "r1");
                               Sample.reply 200 Sample.user1]))))))
  = (Sample.user1, JStr "t1", JStr "r1").
Proof. vm_compute; reflexivity. Qed.

(** A stored text that does not parse is removed, and the Session stays
    empty. *)
Example corrupt_record_is_dropped :
  let w := with_localStorage
             (Some {| items := {[ "mitra_auth_app-1" := RawText "{oops" ]};
                      full := false; disabled := false; denied := false |})
             (Sample.world0 []) in
  session (after (new_AuthModule "app-1" "https://api.mitra.io/iam" w))
    = (JNull, JNull, JNull)
  /\ option_map (fun s => items s !! "mitra_auth_app-1")
       (localStorage (after (new_AuthModule "app-1" "https://api.mitra.io/iam" w)))
     = Some None.
Proof. split; vm_compute; reflexivity. Qed.

(** *** Commit and clear *)

Lemma saveToStorage_persists w : persisted (after (saveToStorage w)).
Proof.
  unfold persisted, usable. rewrite saveToStorage_run.
  destruct (localStorage w) as [st0|] eqn:Hls.
  - destruct (denied st0) eqn:Hdn; [|destruct (disabled st0 || full st0) eqn:Hfl];
      cbn [after snd]; intros st; [| |intros [= <-] _; cbn; apply lookup_insert_eq];
      rewrite Hls; intros [= <-]; rewrite Hdn; try discriminate.
    apply orb_prop in Hfl as [->| ->]; cbn; try discriminate.
    rewrite andb_false_r. discriminate.
  - cbn [after snd]. intros st. rewrite Hls. discriminate.
Qed.

Lemma removeFromStorage_unpersists w :
  storage_denied w = false -> unpersisted (after (removeFromStorage w)).
Proof.
  unfold storage_denied, unpersisted. rewrite removeFromStorage_run.
  destruct (localStorage w) as [st0|] eqn:Hls.
  - intros ->. destruct (disabled st0) eqn:Hd; cbn [after snd]; intros st.
    + rewrite Hls. intros [= <-]. congruence.
    + intros [= <-] _. cbn. apply lookup_delete_eq.
  - intros _. cbn [after snd]. intros st. rewrite Hls. discriminate.
Qed.

Lemma setAuthState_after user token refreshToken w :
  storage_denied w = false ->
  setAuthState user token refreshToken w
  = (Resolve tt,
     after (notifyListeners
              (after (saveToStorage (with_auth (set_session user token refreshToken) w))))).
Proof.
  intros Hrd. unfold setAuthState. run_step.
  change (with_auth (set_refreshToken refreshToken)
            (with_auth (set_accessToken token) (with_auth (set_currentUser user) w)))
    with (with_auth (set_session user token refreshToken) w).
  destruct (saveToStorage_shape (with_auth (set_session user token refreshToken) w) Hrd)
    as [ls E].
  rewrite E. cbn [after snd]. rewrite notifyListeners_spec. reflexivity.
Qed.

Lemma clearAuthState_after w :
  storage_denied w = false ->
  clearAuthState w
  = (Resolve tt,
     after (notifyListeners
              (after (removeFromStorage (with_auth (set_session JNull JNull JNull) w))))).
Proof.
  intros Hrd. unfold clearAuthState. run_step.
  change (with_auth (set_refreshToken JNull)
            (with_auth (set_accessToken JNull) (with_auth (set_currentUser JNull) w)))
    with (with_auth (set_session JNull JNull JNull) w).
  destruct (removeFromStorage_shape (with_auth (set_session JNull JNull JNull) w) Hrd)
    as [ls E].
  rewrite E. cbn [after snd]. rewrite notifyListeners_spec. reflexivity.
Qed.

(** [setAuthState] commits: the three fields, the stored record, the
    listeners. *)
Lemma setAuthState_commits user token refreshToken w :
  storage_denied w = false ->
  committed user token refreshToken (after (setAuthState user token refreshToken w)).
Proof.
  intros Hrd. rewrite (setAuthState_after _ _ _ _ Hrd). cbn [after snd].
  pose proof (saveToStorage_persists
                (with_auth (set_session user token refreshToken) w)) as Hp.
  destruct (saveToStorage_shape (with_auth (set_session user token refreshToken) w) Hrd)
    as [ls E].
  rewrite E in Hp |- *. cbn [after snd] in Hp |- *.
  rewrite notifyListeners_spec. cbn [snd].
  split; [reflexivity|]. split; [exact Hp|].
  eexists. reflexivity.
Qed.

(** [clearAuthState] clears: three nulls, no stored record, the listeners. *)
Lemma clearAuthState_clears w :
  storage_denied w = false -> cleared (after (clearAuthState w)).
Proof.
  intros Hrd. rewrite (clearAuthState_after _ Hrd). cbn [after snd].
  pose proof (removeFromStorage_unpersists
                (with_auth (set_session JNull JNull JNull) w) Hrd) as Hp.
  destruct (removeFromStorage_shape (with_auth (set_session JNull JNull JNull) w) Hrd)
    as [ls E].
  rewrite E in Hp |- *. cbn [after snd] in Hp |- *.
  rewrite notifyListeners_spec. cbn [snd].
  split; [reflexivity|]. split; [exact Hp|].
  eexists. reflexivity.
Qed.

Lemma clearAuthState_resolves w :
  storage_denied w = false ->
  clearAuthState w = (Resolve tt, after (clearAuthState w)).
Proof.
  intros Hrd.
  destruct (clearAuthState_shape w Hrd) as (ls & co & n & E). rewrite E. reflexivity.
Qed.

Lemma setAuthState_resolves user token refreshToken w :
  storage_denied w = false ->
  setAuthState user token refreshToken w
  = (Resolve tt, after (setAuthState user token refreshToken w)).
Proof.
  intros Hrd.
  destruct (setAuthState_shape user token refreshToken w Hrd) as (ls & co & n & E).
  rewrite E. reflexivity.
Qed.

(** Whatever the storage does, the marker, the identity of the module
    and what the storage is like stay as they are. *)
Lemma setAuthState_keeps_marker user token refreshToken w :
  refreshPromise (auth (after (setAuthState user token refreshToken w)))
  = refreshPromise (auth w).
Proof.
  destruct (storage_denied w) eqn:Hd.
  - rewrite (setAuthState_denied _ _ _ _ Hd). reflexivity.
  - destruct (setAuthState_shape user token refreshToken w Hd) as (ls & co & n & E).
    rewrite E. reflexivity.
Qed.

Lemma clearAuthState_keeps_marker w :
  refreshPromise (auth (after (clearAuthState w))) = refreshPromise (auth w).
Proof.
  destruct (storage_denied w) eqn:Hd.
  - rewrite (clearAuthState_denied _ Hd). reflexivity.
  - destruct (clearAuthState_shape w Hd) as (ls & co & n & E). rewrite E. reflexivity.
Qed.

(** *** refreshSession *)

Lemma refreshSession_without_token w :
  truthy (_refreshToken (auth w)) = false -> refreshSession w = (Resolve false, w).
Proof.
  intros H. unfold refreshSession, refreshSession_call. rewrite H. reflexivity.
Qed.

(** **** The legs are [doRefresh()] *)

Lemma saveToStorage_mark p w :
  saveToStorage (mark p w)
  = (result (saveToStorage w), mark p (after (saveToStorage w))).
Proof.
  rewrite !saveToStorage_run.
  change (localStorage (mark p w)) with (localStorage w).
  destruct (localStorage w) as [st|]; [|reflexivity].
  destruct (denied st); [reflexivity|]. destruct (disabled st || full st); reflexivity.
Qed.

Lemma removeFromStorage_mark p w :
  removeFromStorage (mark p w)
  = (result (removeFromStorage w), mark p (after (removeFromStorage w))).
Proof.
  rewrite !removeFromStorage_run.
  change (localStorage (mark p w)) with (localStorage w).
  destruct (localStorage w) as [st|]; [|reflexivity].
  destruct (denied st); [reflexivity|]. destruct (disabled st); reflexivity.
Qed.

Lemma notifyListeners_mark p w :
  notifyListeners (mark p w) = (Resolve tt, mark p (after (notifyListeners w))).
Proof. rewrite !notifyListeners_spec. reflexivity. Qed.

Lemma setAuthState_mark p user token refreshToken w :
  setAuthState user token refreshToken (mark p w)
  = (result (setAuthState user token refreshToken w),
     mark p (after (setAuthState user token refreshToken w))).
Proof.
  destruct (storage_denied w) eqn:Hd.
  - rewrite (setAuthState_denied _ _ _ (mark p w) Hd), (setAuthState_denied _ _ _ w Hd).
    reflexivity.
  - unfold setAuthState. run_step.
    change (with_auth (set_refreshToken refreshToken)
              (with_auth (set_accessToken token)
                 (with_auth (set_currentUser user) (mark p w))))
      with (mark p (with_auth (set_refreshToken refreshToken)
              (with_auth (set_accessToken token)
                 (with_auth (set_currentUser user) w)))).
    rewrite saveToStorage_mark.
    match goal with |- context [saveToStorage ?w1] =>
      destruct (saveToStorage_shape w1 Hd) as [ls E]; rewrite E end.
    cbn [result after fst snd]. rewrite notifyListeners_mark. rewrite !notifyListeners_spec.
    reflexivity.
Qed.

Lemma clearAuthState_mark p w :
  clearAuthState (mark p w)
  = (result (clearAuthState w), mark p (after (clearAuthState w))).
Proof.
  destruct (storage_denied w) eqn:Hd.
  - rewrite (clearAuthState_denied (mark p w) Hd), (clearAuthState_denied w Hd).
    reflexivity.
  - unfold clearAuthState. run_step.
    change (with_auth (set_refreshToken JNull)
              (with_auth (set_accessToken JNull)
                 (with_auth (set_currentUser JNull) (mark p w))))
      with (mark p (with_auth (set_refreshToken JNull)
              (with_auth (set_accessToken JNull)
                 (with_auth (set_currentUser JNull) w)))).
    rewrite removeFromStorage_mark.
    match goal with |- context [removeFromStorage ?w1] =>
      destruct (removeFromStorage_shape w1 Hd) as [ls E]; rewrite E end.
    cbn [result after fst snd]. rewrite notifyListeners_mark. rewrite !notifyListeners_spec.
    reflexivity.
Qed.

Lemma mark_None_id w : refreshPromise (auth w) = None -> mark None w = w.
Proof.
  destruct w as [[app iam u t rt p ls] st win nw s c n r]. cbn. intros ->. reflexivity.
Qed.

Lemma mark_mark p q w : mark p (mark q w) = mark p w.
Proof. reflexivity. Qed.

(** The [catch] block of a leg and the one of [doRefresh()] end alike,
    whether [clearAuthState] returns or throws. *)
Ltac cleared_in w1 Hw1 :=
  let K := fresh "K" in let r := fresh "r" in let w' := fresh "w'" in
  rewrite clearAuthState_mark;
  pose proof (clearAuthState_keeps_marker w1) as K;
  destruct (clearAuthState w1) as [[[]|r] w']; cbn [result after fst snd] in K |- *;
  rewrite ?mark_mark, mark_None_id; try reflexivity; rewrite K; exact Hw1.

(** Cut at its two awaits and resumed by the scripted replies,
    [doRefresh()] (as [refreshSession] runs it, with the marker set
    meanwhile) is the function of the source run in one piece. *)
Lemma doRefresh_in_legs w :
  refreshPromise (auth w) = None ->
  await_tokens (fst (doRefresh_start w))
    (mark (Some (AwaitingTokens (fst (doRefresh_start w)))) (snd (doRefresh_start w)))
  = doRefresh w.
Proof.
  intros Hmark.
  unfold doRefresh, post, get. run_step. plain_request.
  cbn [doRefresh_start fst snd].
  set (options := post_options (JObj [("refreshToken", _refreshToken (auth w))])).
  set (p := Some (AwaitingTokens options)).
  set (w1 := with_network (tl (network w))
               (send (buildRequest (publicClient (auth w)) refresh_path options w) w)).
  assert (Hw1 : refreshPromise (auth w1) = None) by exact Hmark.
  unfold await_tokens, doRefresh_tokens. run_step. rewrite next_reply_eq. plain_resume.
  change (head_reply (mark p (send _ w))) with (head_reply w).
  change (with_network (tl (network (mark p (send _ w)))) (mark p (send _ w)))
    with (mark p w1).
  change (with_network (tl (network w)) (send _ w)) with w1.
  clearbody w1. clear Hmark.
  destruct (plain_outcome (head_reply w)) as [tokenResponse|e].
  2:{ cleared_in w1 Hw1. }
  destruct (getprop tokenResponse "accessToken") as [a|e1] eqn:Ha.
  2:{ cleared_in w1 Hw1. }
  destruct (getprop tokenResponse "refreshToken") as [rt|e2] eqn:Hrt.
  2:{ change (with_auth (set_accessToken a) (mark p w1))
        with (mark p (with_auth (set_accessToken a) w1)).
      cleared_in (with_auth (set_accessToken a) w1) Hw1. }
  plain_request.
  set (w2 := with_auth (set_refreshToken rt) (with_auth (set_accessToken a) w1)).
  change (with_auth (set_refreshToken rt) (with_auth (set_accessToken a) (mark p w1)))
    with (mark p w2).
  assert (Hw2 : refreshPromise (auth w2) = None) by exact Hw1.
  clearbody w2.
  set (q := Some (AwaitingMe tokenResponse (get_options None))).
  set (w3 := with_network (tl (network w2))
               (send (buildRequest (authedClient (auth w2)) "/api/v1/auth/me"
                        (get_options None) w2) w2)).
  assert (Hw3 : refreshPromise (auth w3) = None) by exact Hw2.
  unfold await_me, doRefresh_me. run_step. rewrite next_reply_eq. plain_resume.
  change (head_reply (mark q (send _ (mark p w2)))) with (head_reply w2).
  change (with_network (tl (network (mark q (send _ (mark p w2)))))
            (mark q (send _ (mark p w2))))
    with (mark q w3).
  clearbody w3.
  destruct (plain_outcome (head_reply w2)) as [user|e3].
  - rewrite Ha, Hrt. cbv beta iota.
    rewrite setAuthState_mark.
    pose proof (setAuthState_keeps_marker user a rt w3) as K.
    destruct (setAuthState user a rt w3) as [[[]|e4] w4]; cbn [result after fst snd] in K |- *.
    + rewrite mark_mark, mark_None_id; [reflexivity|]. rewrite K. exact Hw3.
    + assert (Hw4 : refreshPromise (auth w4) = None) by (rewrite K; exact Hw3).
      cleared_in w4 Hw4.
  - cleared_in w3 Hw3.
Qed.

(** Hence, from a quiet state with a refresh token, [refreshSession()] is
    [doRefresh()]. *)
Corollary refreshSession_is_doRefresh w :
  truthy (_refreshToken (auth w)) = true ->
  refreshPromise (auth w) = None ->
  refreshSession w = doRefresh w.
Proof.
  intros Htok Hmark. rewrite <- (doRefresh_in_legs w Hmark).
  unfold refreshSession, refreshSession_call. rewrite Htok, Hmark. reflexivity.
Qed.

(** **** The outcome of a refresh *)

(** [doRefresh()] leaves the marker to its caller. *)
Lemma doRefresh_keeps_marker w :
  refreshPromise (auth (after (doRefresh w))) = refreshPromise (auth w).
Proof.
  unfold doRefresh, post, get. run_step. plain_request.
  set (w1 := with_network _ _).
  assert (H1 : refreshPromise (auth w1) = refreshPromise (auth w)) by reflexivity.
  clearbody w1.
  assert (Hclear : forall w', refreshPromise (auth w') = refreshPromise (auth w) ->
            refreshPromise
              (auth (after (let (o, w'') := clearAuthState w' in
                            match o with
                            | Resolve _ => (Resolve false, w'')
                            | Reject e => (@Reject bool e, w'')
                            end)))
            = refreshPromise (auth w)).
  { intros w' H'. pose proof (clearAuthState_keeps_marker w') as K.
    destruct (clearAuthState w') as [[[]|e] w'']; cbn in K |- *; congruence. }
  destruct (plain_outcome (head_reply w)) as [tokenResponse|e]; [|apply Hclear, H1].
  destruct (getprop tokenResponse "accessToken") as [a|e1]; [|apply Hclear, H1].
  destruct (getprop tokenResponse "refreshToken") as [rt|e2]; [|apply Hclear, H1].
  plain_request.
  set (w2 := with_network _ _).
  assert (H2 : refreshPromise (auth w2) = refreshPromise (auth w)) by exact H1.
  clearbody w2.
  destruct (plain_outcome (head_reply _)) as [user|e3]; [|apply Hclear, H2].
  pose proof (setAuthState_keeps_marker user a rt w2) as K.
  destruct (setAuthState user a rt w2) as [[[]|e4] w3]; cbn [after snd] in K.
  - cbn. congruence.
  - apply Hclear. congruence.
Qed.

(** Where the storage can be read, the outcome of [doRefresh()] is
    decided by the replies of the server: when it grants new tokens and
    a user, they are committed and the answer is [true]; in every other
    case the Session is cleared and the answer is [false]. *)
Lemma doRefresh_by_replies w :
  storage_denied w = false ->
  match granted w with
  | Some (user, accessToken, refreshToken) =>
      result (doRefresh w) = Resolve true
      /\ committed user accessToken refreshToken (after (doRefresh w))
  | None =>
      result (doRefresh w) = Resolve false /\ cleared (after (doRefresh w))
  end.
Proof.
  intros Hrd. unfold granted, doRefresh, post, get. run_step. plain_request.
  set (w1 := with_network _ _).
  assert (Hrd1 : storage_denied w1 = false) by exact Hrd.
  assert (Hfail : forall w', storage_denied w' = false ->
            result (let (o, w'') := clearAuthState w' in
                    match o with
                    | Resolve _ => (Resolve false, w'')
                    | Reject e => (@Reject bool e, w'')
                    end) = Resolve false
            /\ cleared (after (let (o, w'') := clearAuthState w' in
                               match o with
                               | Resolve _ => (Resolve false, w'')
                               | Reject e => (@Reject bool e, w'')
                               end))).
  { intros w' H'. rewrite (clearAuthState_resolves w' H'). cbn [result after fst snd].
    split; [reflexivity|]. apply clearAuthState_clears, H'. }
  destruct (plain_outcome (head_reply w)) as [tokenResponse|e]; [|apply Hfail, Hrd1].
  destruct (getprop tokenResponse "accessToken") as [a|e1] eqn:Ha; [|apply Hfail, Hrd1].
  destruct (getprop tokenResponse "refreshToken") as [rt|e2] eqn:Hrt;
    [|apply Hfail, Hrd1].
  plain_request.
  change (head_reply (with_auth (set_refreshToken rt) (with_auth (set_accessToken a) w1)))
    with (second_reply w).
  set (w2 := with_network _ _).
  assert (Hrd2 : storage_denied w2 = false) by exact Hrd.
  clearbody w2.
  destruct (plain_outcome (second_reply w)) as [user|e3]; [|apply Hfail, Hrd2].
  rewrite (setAuthState_resolves user a rt w2 Hrd2). cbn [result after fst snd].
  split; [reflexivity|]. apply setAuthState_commits, Hrd2.
Qed.

(** Claim C4, where the storage can be read.  Without a refresh token
    the call returns [false] and changes nothing (no network call).
    From a quiet state with a refresh token, the outcome is decided by
    the server: new tokens and a user are committed and the answer is
    [true]; any failure clears the Session and the answer is [false];
    either way the marker is null again. *)
Lemma refreshSession_by_replies w :
  storage_denied w = false ->
  refreshPromise (auth w) = None ->
  if truthy (_refreshToken (auth w)) then
    refreshPromise (auth (after (refreshSession w))) = None
    /\ match granted w with
       | Some (user, accessToken, refreshToken) =>
           result (refreshSession w) = Resolve true
           /\ committed user accessToken refreshToken (after (refreshSession w))
       | None =>
           result (refreshSession w) = Resolve false
           /\ cleared (after (refreshSession w))
       end
  else refreshSession w = (Resolve false, w).
Proof.
  intros Hrd Hmark.
  destruct (truthy (_refreshToken (auth w))) eqn:Htok;
    [|apply refreshSession_without_token; exact Htok].
  rewrite (refreshSession_is_doRefresh w Htok Hmark).
  split; [rewrite doRefresh_keeps_marker; exact Hmark|].
  apply doRefresh_by_replies, Hrd.
Qed.


(** There, a refresh that the server grants ends the same way: the new
    Session cannot be saved, so it is cleared, and the call rejects. *)
Example granted_refresh_with_storage_denied :
  result (refreshSession (Sample.denied_page [Sample.reply 200 (Sample.tokens "t2" "r2");
                                         Sample.reply 200 Sample.user1]))
    = Reject StorageError
  /\ session (after (refreshSession
                       (Sample.denied_page [Sample.reply 200 (Sample.tokens "t2" "r2");
                                       Sample.reply 200 Sample.user1])))
     = (JNull, JNull, JNull).
Proof. split; vm_compute; reflexivity. Qed.

(** The successful run in full: two replies are consumed, two calls are
    made, and the Session is the one the server described. *)
Lemma refreshSession_success w reply1 reply2 rest tokenResponse accessToken
    refreshToken user :
  storage_denied w = false ->
  truthy (_refreshToken (auth w)) = true ->
  refreshPromise (auth w) = None ->
  network w = reply1 :: reply2 :: rest ->
  plain_outcome reply1 = Resolve tokenResponse ->
  getprop tokenResponse "accessToken" = Resolve accessToken ->
  getprop tokenResponse "refreshToken" = Resolve refreshToken ->
  plain_outcome reply2 = Resolve user ->
  result (refreshSession w) = Resolve true
  /\ session (after (refreshSession w)) = (user, accessToken, refreshToken)
  /\ network (after (refreshSession w)) = rest
  /\ length (sent (after (refreshSession w))) = (length (sent w) + 2)%nat.
Proof.
  intros Hrd Htok Hmark Hnet H1 Ha Hr H2.
  unfold refreshSession, refreshSession_call. rewrite Htok, Hmark.
  cbn [negb doRefresh_start await].
  unfold await_tokens, doRefresh_tokens. run_step. rewrite next_reply_eq. plain_resume.
  match goal with |- context [head_reply ?w1] =>
    replace (head_reply w1) with reply1
      by (unfold head_reply; cbn; rewrite Hnet; reflexivity) end.
  rewrite H1, Ha, Hr. cbv beta iota.
  unfold await_me, doRefresh_me. run_step. rewrite next_reply_eq. plain_resume.
  match goal with |- context [head_reply ?w1] =>
    replace (head_reply w1) with reply2
      by (unfold head_reply; cbn; rewrite Hnet; reflexivity) end.
  rewrite H2, Ha, Hr. cbv beta iota.
  commit_or_clear. cbn. rewrite Hnet. cbn. repeat split.
  rewrite !length_app. cbn. lia.
Qed.

Example refreshSession_rotates_tokens :
  result (refreshSession (Sample.signed_in [Sample.reply 200 (Sample.tokens "t2" "r2");
                                            Sample.reply 200 Sample.user1]))
    = Resolve true
  /\ session (after (refreshSession
                       (Sample.signed_in [Sample.reply 200 (Sample.tokens "t2" "r2");
                                          Sample.reply 200 Sample.user1])))
     = (Sample.user1, JStr "t2", JStr "r2")
  /\ refresh_calls (after (refreshSession
                       (Sample.signed_in [Sample.reply 200 (Sample.tokens "t2" "r2");
                                          Sample.reply 200 Sample.user1])))
     = 1%nat.
Proof. repeat split; vm_compute; reflexivity. Qed.

Example refreshSession_rejected_token :
  result (refreshSession (Sample.signed_in [Sample.reply 401 (JObj [])])) = Resolve false
  /\ session (after (refreshSession (Sample.signed_in [Sample.reply 401 (JObj [])])))
     = (JNull, JNull, JNull)
  /\ option_map (fun s => items s !! "mitra_auth_app-1")
       (localStorage (after (refreshSession (Sample.signed_in [Sample.reply 401 (JObj [])]))))
     = Some None.
Proof. repeat split; vm_compute; reflexivity. Qed.

(** *** The pairing of user record and access token *)

Lemma skipn_length_app {A} (l l' : list A) : skipn (length l) (l ++ l') = l'.
Proof. induction l as [|x l IH]; [reflexivity|exact IH]. Qed.

Lemma typed_pair_paired u t :
  typed_pair u t = true -> Bool.eqb (present u) (present t) = true.
Proof. destruct u, t; cbn; congruence. Qed.

Lemma typed_pair_read_back u t :
  typed_pair u t = true -> typed_pair (read_back u) (read_back t) = true.
Proof.
  destruct u; cbn; try discriminate; destruct t; cbn; try discriminate; auto.
Qed.



Lemma stored_ok_written w st :
  localStorage w = Some st ->
  typed_pair (_currentUser (auth w)) (_accessToken (auth w)) = true ->
  stored_ok (with_localStorage (Some (written (auth w) st)) w).
Proof.
  intros Hls Hty st' text [= <-]. cbn. rewrite lookup_insert_eq. intros [= <-].
  change (stored_pair (JsonText (JObj (json_fields
            [("user", _currentUser (auth w)); ("token", _accessToken (auth w));
             ("refreshToken", _refreshToken (auth w))]))) = true).
  destruct (stored_record_read_back (auth w)) as (Hu & Ht & _). cbv zeta in Hu, Ht.
  cbn [stored_pair]. rewrite Hu, Ht. apply typed_pair_read_back, Hty.
Qed.

Lemma stored_ok_removed w st :
  localStorage w = Some st -> stored_ok (with_localStorage (Some (removed (auth w) st)) w).
Proof.
  intros Hls st' text [= <-]. cbn. rewrite lookup_delete_eq. discriminate.
Qed.

Lemma saveToStorage_stored w :
  stored_ok w ->
  auth (after (saveToStorage w)) = auth w
  /\ sent (after (saveToStorage w)) = sent w
  /\ (typed_pair (_currentUser (auth w)) (_accessToken (auth w)) = true ->
      stored_ok (after (saveToStorage w))).
Proof.
  intros Hok. rewrite saveToStorage_run.
  destruct (localStorage w) as [st|] eqn:Hls; [|auto].
  destruct (denied st); [auto|]. destruct (disabled st || full st); [auto|].
  cbn [after snd]. split; [reflexivity|]. split; [reflexivity|].
  intros Hty. apply stored_ok_written; assumption.
Qed.

Lemma saveToStorage_rejects w e w' :
  saveToStorage w = (Reject e, w') -> e = StorageError /\ w' = w.
Proof.
  rewrite saveToStorage_run. destruct (localStorage w) as [st|]; [|discriminate].
  destruct (denied st); [intros [= <- <-]; auto|].
  destruct (disabled st || full st); discriminate.
Qed.

Lemma removeFromStorage_stored w :
  stored_ok w ->
  stored_ok (after (removeFromStorage w)) /\ auth (after (removeFromStorage w)) = auth w
  /\ sent (after (removeFromStorage w)) = sent w.
Proof.
  intros Hok. rewrite removeFromStorage_run.
  destruct (localStorage w) as [st|] eqn:Hls; [|auto].
  destruct (denied st); [auto|]. destruct (disabled st); [auto|].
  cbn [after snd]. split; [|split; reflexivity]. apply stored_ok_removed; assumption.
Qed.

(** Whether [setAuthState] returns or throws, a typed pair leaves the
    state coherent. *)
Lemma setAuthState_coherent user token refreshToken w :
  refreshPromise (auth w) = None ->
  stored_ok w ->
  typed_pair user token = true ->
  coherent (after (setAuthState user token refreshToken w))
  /\ sent (after (setAuthState user token refreshToken w)) = sent w.
Proof.
  intros Hq Hok Hty. unfold setAuthState. run_step.
  set (w1 := with_auth (set_refreshToken refreshToken) _).
  assert (Hok1 : stored_ok w1) by exact Hok.
  destruct (saveToStorage_stored w1 Hok1) as (Ha & Hsent & Hs). specialize (Hs Hty).
  destruct (saveToStorage w1) as [[[]|e] w2]; cbn [after snd] in *.
  - rewrite notifyListeners_spec. cbn [after snd]. split; [|exact Hsent].
    unfold coherent. cbn [auth with_console with_notified]. rewrite Ha.
    split; [exact Hq|]. split; [exact Hty|]. exact Hs.
  - split; [|exact Hsent]. unfold coherent. rewrite Ha.
    split; [exact Hq|]. split; [exact Hty|]. exact Hs.
Qed.

Lemma setAuthState_sent user token refreshToken w :
  sent (after (setAuthState user token refreshToken w)) = sent w.
Proof.
  destruct (storage_denied w) eqn:Hd.
  - rewrite (setAuthState_denied _ _ _ _ Hd). reflexivity.
  - destruct (setAuthState_shape user token refreshToken w Hd) as (ls & co & n & E).
    rewrite E. reflexivity.
Qed.

Lemma setAuthState_rejects user token refreshToken w e w' :
  setAuthState user token refreshToken w = (Reject e, w') ->
  w' = with_auth (set_session user token refreshToken) w.
Proof.
  destruct (storage_denied w) eqn:Hd.
  - rewrite (setAuthState_denied _ _ _ _ Hd). intros [= _ <-]. reflexivity.
  - destruct (setAuthState_shape user token refreshToken w Hd) as (ls & co & n & E).
    rewrite E. discriminate.
Qed.

Lemma clearAuthState_coherent w :
  refreshPromise (auth w) = None ->
  stored_ok w ->
  coherent (after (clearAuthState w)) /\ sent (after (clearAuthState w)) = sent w.
Proof.
  intros Hq Hok. unfold clearAuthState. run_step.
  set (w1 := with_auth (set_refreshToken JNull) _).
  assert (Hok1 : stored_ok w1) by exact Hok.
  destruct (removeFromStorage_stored w1 Hok1) as (Hs & Ha & Hsent).
  destruct (removeFromStorage w1) as [[[]|e] w2]; cbn [after snd] in *.
  - rewrite notifyListeners_spec. cbn [after snd]. split; [|exact Hsent].
    unfold coherent. cbn [auth with_console with_notified]. rewrite Ha.
    split; [exact Hq|]. split; [reflexivity|]. exact Hs.
  - split; [|exact Hsent]. unfold coherent. rewrite Ha.
    split; [exact Hq|]. split; [reflexivity|]. exact Hs.
Qed.

Lemma signOut_coherent redirectUrl w :
  coherent w -> coherent (after (signOut redirectUrl w)).
Proof.
  intros (Hq & Hty & Hok). unfold signOut. run_step.
  destruct (clearAuthState_coherent w Hq Hok) as [K _].
  destruct (clearAuthState w) as [[[]|e] w1]; cbn [after snd] in K |- *; [|exact K].
  destruct (window w1) as [href|]; [destruct redirectUrl as [target|];
    [destruct (negb (target =? ""))%string|]|]; exact K.
Qed.

Lemma append_inj_l s a b : s +:+ a = s +:+ b -> a = b.
Proof. induction s as [|ch s IH]; cbn; [auto|]. intros [= H]. auto. Qed.

Lemma calls_same path a c options w :
  baseUrl c = baseUrl (publicClient a) ->
  calls path a (buildRequest c path options w) = true.
Proof. intros H. unfold calls. cbn. rewrite H. apply String.eqb_refl. Qed.

Lemma calls_other path path' a c options w :
  baseUrl c = baseUrl (publicClient a) ->
  path <> path' ->
  calls path a (buildRequest c path' options w) = false.
Proof.
  intros H Hne. unfold calls. cbn. rewrite H. apply String.eqb_neq.
  intros E. apply append_inj_l in E. congruence.
Qed.

Lemma declared_me a c options w v :
  baseUrl c = baseUrl (publicClient a) ->
  declared a (buildRequest c me_path options w) v = is_object v.
Proof. intros H. unfold declared. rewrite calls_same by exact H. reflexivity. Qed.

Lemma declared_tokens a c options w v :
  baseUrl c = baseUrl (publicClient a) ->
  declared a (buildRequest c tokens_path options w) v
  = match v with JObj props => is_string (own "accessToken" props) | _ => false end.
Proof.
  intros H. unfold declared.
  rewrite (calls_other me_path tokens_path) by (exact H || discriminate).
  rewrite calls_same by exact H. reflexivity.
Qed.

Lemma declared_refresh a c options w v :
  baseUrl c = baseUrl (publicClient a) ->
  declared a (buildRequest c refresh_path options w) v
  = match v with JObj props => is_string (own "accessToken" props) | _ => false end.
Proof.
  intros H. unfold declared.
  rewrite (calls_other me_path refresh_path) by (exact H || discriminate).
  rewrite (calls_same refresh_path) by exact H. rewrite orb_true_r. reflexivity.
Qed.

Lemma answered_network w v :
  plain_outcome (head_reply w) = Resolve v ->
  network w = head_reply w :: tl (network w).
Proof. unfold head_reply. destruct (network w); [discriminate|reflexivity]. Qed.

Lemma served_head w w' req l v :
  sent w' = sent w ++ req :: l ->
  well_served w w' = true ->
  plain_outcome (head_reply w) = Resolve v ->
  declared (auth w) req v = true.
Proof.
  intros Hs Hw Hv. unfold well_served, exchanges in Hw.
  rewrite Hs, skipn_length_app, (answered_network w v Hv) in Hw.
  cbn [combine forallb fst snd] in Hw. rewrite Hv in Hw.
  apply andb_prop in Hw. tauto.
Qed.

Lemma served_second w w' req1 req2 l v :
  sent w' = sent w ++ req1 :: req2 :: l ->
  well_served w w' = true ->
  plain_outcome (second_reply w) = Resolve v ->
  declared (auth w) req2 v = true.
Proof.
  intros Hs Hw Hv. unfold well_served, exchanges in Hw.
  rewrite Hs, skipn_length_app in Hw.
  unfold second_reply, head_reply in Hv. cbn [network with_network] in Hv.
  destruct (network w) as [|r1 [|r2 rest]]; try discriminate.
  cbn [tl] in Hv. cbn [combine forallb fst snd] in Hw. rewrite Hv in Hw.
  apply andb_prop in Hw as [_ Hw]. apply andb_prop in Hw. tauto.
Qed.

Lemma typed_pair_truthy u t :
  typed_pair u t = true -> truthy t = true -> is_string t = true.
Proof. destruct u, t; cbn; congruence. Qed.

Lemma typed_pair_object u t : is_object u = true -> is_string t = true -> typed_pair u t = true.
Proof. intros Hu Ht. unfold typed_pair. rewrite Hu, Ht. reflexivity. Qed.

Lemma me_coherent w :
  coherent w -> well_served w (after (me w)) = true -> coherent (after (me w)).
Proof.
  intros (Hq & Hty & Hok). unfold me, get. run_step.
  destruct (truthy (_accessToken (auth w))) eqn:Htok; cbn [negb].
  2:{ intros _. split; [exact Hq|]. split; [exact Hty|exact Hok]. }
  plain_request.
  set (req := buildRequest (authedClient (auth w)) "/api/v1/auth/me" (get_options None) w).
  set (w1 := with_network (tl (network w)) (send req w)).
  assert (Hs1 : sent w1 = sent w ++ [req]) by reflexivity.
  assert (Hq1 : refreshPromise (auth w1) = None) by exact Hq.
  assert (Hok1 : stored_ok w1) by exact Hok.
  destruct (plain_outcome (head_reply w)) as [user|e] eqn:Hout.
  - set (w2 := with_auth (set_currentUser user) w1).
    assert (Hsave : forall w3, sent w3 = sent w ++ [req] ->
              well_served w w3 = true -> is_object user = true).
    { intros w3 Hs3 Hw.
      rewrite <- (declared_me (auth w) (authedClient (auth w)) (get_options None) w)
        by reflexivity.
      exact (served_head w w3 req [] user Hs3 Hw Hout). }
    assert (Hok2 : stored_ok w2) by exact Hok.
    destruct (saveToStorage_stored w2 Hok2) as (Ha & Hs3 & Hst).
    assert (Hpair : forall w3, sent w3 = sent w ++ [req] -> well_served w w3 = true ->
              typed_pair user (_accessToken (auth w)) = true).
    { intros w3 H3 Hw. apply typed_pair_object;
        [exact (Hsave w3 H3 Hw)|exact (typed_pair_truthy _ _ Hty Htok)]. }
    destruct (saveToStorage w2) as [[[]|e] w3] eqn:Esave; cbn [after snd] in Ha, Hs3, Hst.
    + rewrite notifyListeners_spec. cbn [after snd]. intros Hw.
      assert (Hp : typed_pair user (_accessToken (auth w)) = true)
        by (apply (Hpair w3); [rewrite Hs3; exact Hs1|exact Hw]).
      unfold coherent. cbn [auth with_console with_notified]. rewrite Ha.
      split; [exact Hq|]. split; [exact Hp|]. exact (Hst Hp).
    + destruct (saveToStorage_rejects _ _ _ Esave) as [-> ->].
      cbn [after snd]. intros Hw.
      assert (Hp : typed_pair user (_accessToken (auth w)) = true)
        by (apply (Hpair w2); [exact Hs1|exact Hw]).
      split; [exact Hq|]. split; [exact Hp|exact Hok].
  - intros _.
    assert (Hkeep : coherent w1) by (split; [exact Hq|]; split; [exact Hty|exact Hok]).
    destruct e as [a| | | | | | |]; try exact Hkeep.
    destruct (MitraApiError.status a =? 401); [|exact Hkeep].
    destruct (clearAuthState_coherent w1 Hq1 Hok1) as [K _].
    destruct (clearAuthState w1) as [[[]|e] w2]; exact K.
Qed.

Lemma checkAuth_coherent w :
  coherent w -> well_served w (after (checkAuth w)) = true ->
  coherent (after (checkAuth w)).
Proof.
  intros Hc. unfold checkAuth. run_step.
  pose proof (me_coherent w Hc) as K.
  destruct (me w) as [[user|e] w']; exact K.
Qed.

Lemma is_string_accessToken v a :
  match v with JObj props => is_string (own "accessToken" props) | _ => false end = true ->
  getprop v "accessToken" = Resolve a -> is_string a = true.
Proof. destruct v; try discriminate. cbn. intros H [= <-]. exact H. Qed.

Lemma doRefresh_coherent w :
  coherent w -> well_served w (after (doRefresh w)) = true ->
  coherent (after (doRefresh w)).
Proof.
  intros (Hq & Hty & Hok). unfold doRefresh, post, get. run_step. plain_request.
  set (req1 := buildRequest (publicClient (auth w)) "/api/v1/auth/tokens/refresh" _ w).
  set (w1 := with_network (tl (network w)) (send req1 w)).
  assert (Hclear : forall w', refreshPromise (auth w') = None -> stored_ok w' ->
            forall P : Prop, P ->
            coherent (after (let (o, w'') := clearAuthState w' in
                             match o with
                             | Resolve _ => (Resolve false, w'')
                             | Reject e => (@Reject bool e, w'')
                             end))).
  { intros w' Hq' Hok' P _. destruct (clearAuthState_coherent w' Hq' Hok') as [K _].
    destruct (clearAuthState w') as [[[]|e] w'']; exact K. }
  destruct (plain_outcome (head_reply w)) as [tokenResponse|e] eqn:Hout1;
    [|intros Hw; exact (Hclear w1 Hq Hok _ Hw)].
  destruct (getprop tokenResponse "accessToken") as [a|e1] eqn:Ha;
    [|intros Hw; exact (Hclear w1 Hq Hok _ Hw)].
  destruct (getprop tokenResponse "refreshToken") as [rt|e2] eqn:Hrt;
    [|intros Hw; exact (Hclear (with_auth (set_accessToken a) w1) Hq Hok _ Hw)].
  plain_request.
  set (w1' := with_auth (set_refreshToken rt) (with_auth (set_accessToken a) w1)).
  set (req2 := buildRequest (authedClient (auth w1')) "/api/v1/auth/me" _ w1').
  set (w2 := with_network (tl (network w1')) (send req2 w1')).
  change (head_reply w1') with (second_reply w).
  assert (Hs2 : sent w2 = sent w ++ [req1; req2])
    by (cbn; rewrite <- app_assoc; reflexivity).
  destruct (plain_outcome (second_reply w)) as [user|e3] eqn:Hout2;
    [|intros Hw; exact (Hclear w2 Hq Hok _ Hw)].
  assert (Htyped : forall w3, sent w3 = sent w2 -> well_served w w3 = true ->
            typed_pair user a = true).
  { intros w3 H3 Hw. rewrite Hs2 in H3. apply typed_pair_object.
    - rewrite <- (declared_me (auth w) (authedClient (auth w1')) (get_options None) w1')
        by reflexivity.
      exact (served_second w w3 req1 req2 [] user H3 Hw Hout2).
    - apply (is_string_accessToken tokenResponse); [|exact Ha].
      rewrite <- (declared_refresh (auth w) (publicClient (auth w))
                    (post_options (JObj [("refreshToken", _refreshToken (auth w))])) w)
        by reflexivity.
      exact (served_head w w3 req1 [req2] tokenResponse H3 Hw Hout1). }
  pose proof (setAuthState_sent user a rt w2) as Hs3.
  destruct (setAuthState user a rt w2) as [[[]|e4] w3] eqn:Eset; cbn [after snd] in Hs3.
  - cbn [after snd]. intros Hw.
    pose proof (proj1 (setAuthState_coherent user a rt w2 Hq Hok (Htyped w3 Hs3 Hw))) as K.
    rewrite Eset in K. exact K.
  - rewrite (setAuthState_rejects _ _ _ _ _ _ Eset).
    intros Hw. exact (Hclear (with_auth (set_session user a rt) w2) Hq Hok _ Hw).
Qed.

Lemma refreshSession_coherent w :
  coherent w -> well_served w (after (refreshSession w)) = true ->
  coherent (after (refreshSession w)).
Proof.
  intros Hc. destruct (truthy (_refreshToken (auth w))) eqn:Htok.
  - rewrite refreshSession_is_doRefresh; [apply doRefresh_coherent, Hc|exact Htok|apply Hc].
  - rewrite (refreshSession_without_token w Htok). intros _. exact Hc.
Qed.

Lemma typed_pair_present u t :
  typed_pair u t = true -> present u = true -> is_object u = true.
Proof. destruct u, t; cbn; congruence. Qed.

(** The token request was answered and the current-user request was
    not. *)
Lemma token_step_alone w w' req1 req2 v e :
  sent w' = sent w ++ [req1; req2] ->
  plain_outcome (head_reply w) = Resolve v ->
  plain_outcome (second_reply w) = Reject e ->
  calls tokens_path (auth w) req1 = true ->
  calls me_path (auth w) req1 = false ->
  existsb (answered_at tokens_path (auth w)) (exchanges w w')
  && negb (existsb (answered_at me_path (auth w)) (exchanges w w')) = true.
Proof.
  intros Hs H1 H2 Ht Hm. unfold exchanges. rewrite Hs, skipn_length_app.
  unfold second_reply, head_reply in H1, H2. cbn [network with_network] in H2.
  unfold answered_at.
  destruct (network w) as [|r1 [|r2 rest]]; [discriminate| |];
    cbn [tl] in H2; cbn [combine existsb fst snd]; rewrite H1, Ht, Hm; [reflexivity|].
  rewrite H2. cbn. rewrite andb_false_r. reflexivity.
Qed.

Lemma signIn_coherent credentials w :
  coherent w ->
  well_served w (after (signIn credentials w)) = true ->
  token_alone (DoSignIn credentials) w = false ->
  coherent (after (signIn credentials w)).
Proof.
  intros (Hq & Hty & Hok). unfold token_alone. cbn [perform].
  unfold signIn, post, get. run_step. plain_request.
  set (req1 := buildRequest (publicClient (auth w)) "/api/v1/auth/tokens" _ w).
  set (w1 := with_network (tl (network w)) (send req1 w)).
  assert (Hkeep : coherent w1) by (split; [exact Hq|]; split; [exact Hty|exact Hok]).
  destruct (plain_outcome (head_reply w)) as [tokenResponse|e] eqn:Hout1;
    [|intros _ _; exact Hkeep].
  destruct (getprop tokenResponse "accessToken") as [a|e1] eqn:Ha;
    [|intros _ _; exact Hkeep].
  destruct (getprop tokenResponse "refreshToken") as [rt|e2] eqn:Hrt;
    [|destruct tokenResponse; discriminate].
  plain_request.
  set (w1' := with_auth (set_refreshToken rt) (with_auth (set_accessToken a) w1)).
  set (req2 := buildRequest (authedClient (auth w1')) "/api/v1/auth/me" _ w1').
  set (w2 := with_network (tl (network w1')) (send req2 w1')).
  change (head_reply w1') with (second_reply w).
  assert (Hs2 : sent w2 = sent w ++ [req1; req2])
    by (cbn; rewrite <- app_assoc; reflexivity).
  assert (Hstr : forall w3, sent w3 = sent w2 -> well_served w w3 = true ->
            is_string a = true).
  { intros w3 H3 Hw. rewrite Hs2 in H3.
    apply (is_string_accessToken tokenResponse); [|exact Ha].
    rewrite <- (declared_tokens (auth w) (publicClient (auth w))
                  (post_options (credentials_json credentials)) w) by reflexivity.
    exact (served_head w w3 req1 [req2] tokenResponse H3 Hw Hout1). }
  destruct (plain_outcome (second_reply w)) as [user|e3] eqn:Hout2.
  - pose proof (setAuthState_sent user a rt w2) as Hs3.
    pose proof (fun H => proj1 (setAuthState_coherent user a rt w2 Hq Hok H)) as K.
    destruct (setAuthState user a rt w2) as [[[]|e4] w3] eqn:Eset;
      cbn [after snd] in Hs3, K |- *; intros Hw _; apply K;
      (apply typed_pair_object; [|exact (Hstr w3 Hs3 Hw)]);
      rewrite Hs2 in Hs3;
      rewrite <- (declared_me (auth w) (authedClient (auth w1')) (get_options None) w1')
        by reflexivity;
      exact (served_second w w3 req1 req2 [] user Hs3 Hw Hout2).
  - cbn [after snd]. intros Hw Halone.
    rewrite (token_step_alone w w2 req1 req2 tokenResponse e3 Hs2 Hout1 Hout2) in Halone.
    + rewrite andb_true_r in Halone. apply negb_false_iff in Halone.
      split; [exact Hq|]. split; [|exact Hok].
      apply typed_pair_object;
        [exact (typed_pair_present _ _ Hty Halone)|exact (Hstr w2 eq_refl Hw)].
    + apply calls_same. reflexivity.
    + apply calls_other; [reflexivity|discriminate].
Qed.

(** The log only grows. *)
Lemma signIn_sent credentials w :
  exists l, sent (after (signIn credentials w)) = sent w ++ l.
Proof.
  unfold signIn, post, get. run_step. plain_request.
  destruct (plain_outcome (head_reply w)) as [tokenResponse|e];
    [|eexists; reflexivity].
  destruct (getprop tokenResponse "accessToken") as [a|e1]; [|eexists; reflexivity].
  destruct (getprop tokenResponse "refreshToken") as [rt|e2]; [|eexists; reflexivity].
  plain_request.
  match goal with |- context [plain_outcome (head_reply ?w1)] =>
    destruct (plain_outcome (head_reply w1)) as [user|e3] end.
  - match goal with |- context [setAuthState ?u ?t ?r ?w2] =>
      pose proof (setAuthState_sent u t r w2) as Hs;
      destruct (setAuthState u t r w2) as [[[]|e4] w3] end;
      cbn [after snd] in Hs |- *; rewrite Hs; cbn; rewrite <- app_assoc;
      eexists; reflexivity.
  - cbn. rewrite <- app_assoc. eexists; reflexivity.
Qed.

(** The calls of an operation that starts with one call that is
    answered. *)
Lemma exchanges_cons w w1 w' req l v :
  sent w1 = sent w ++ [req] ->
  network w1 = tl (network w) ->
  sent w' = sent w1 ++ l ->
  plain_outcome (head_reply w) = Resolve v ->
  exchanges w w' = (req, head_reply w) :: exchanges w1 w'.
Proof.
  intros Hs1 Hn1 Hs' Hv. unfold exchanges.
  rewrite Hs', skipn_length_app, Hs1, <- app_assoc, skipn_length_app, Hn1.
  rewrite (answered_network w v Hv) at 1. reflexivity.
Qed.

Lemma signUp_coherent data w :
  coherent w ->
  well_served w (after (signUp data w)) = true ->
  token_alone (DoSignUp data) w = false ->
  coherent (after (signUp data w)).
Proof.
  intros Hc. unfold token_alone. cbn [perform].
  unfold signUp, post. run_step. plain_request.
  set (req := buildRequest (publicClient (auth w)) "/api/v1/auth/users/register" _ w).
  set (w1 := with_network (tl (network w)) (send req w)).
  assert (Hc1 : coherent w1) by exact Hc.
  destruct (plain_outcome (head_reply w)) as [registered|e] eqn:Hout;
    [|intros _ _; exact Hc1].
  set (credentials := {| email := signup_email data; password := signup_password data |}).
  destruct (signIn_sent credentials w1) as [l Hl].
  rewrite (exchanges_cons w w1 (after (signIn credentials w1)) req l registered
             eq_refl eq_refl Hl Hout).
  unfold well_served.
  rewrite (exchanges_cons w w1 (after (signIn credentials w1)) req l registered
             eq_refl eq_refl Hl Hout).
  cbn [forallb existsb fst snd]. rewrite Hout. unfold answered_at at 1 3.
  cbn [fst snd].
  assert (Ht : calls tokens_path (auth w) req = false)
    by (apply calls_other; [reflexivity|discriminate]).
  assert (Hm : calls me_path (auth w) req = false)
    by (apply calls_other; [reflexivity|discriminate]).
  rewrite Ht, Hm. cbn [andb orb]. intros Hw Halone. apply andb_prop in Hw as [_ Hw].
  apply (signIn_coherent credentials w1 Hc1); [exact Hw|exact Halone].
Qed.

Lemma setToken_coherent token persist w :
  coherent w ->
  token_alone (DoSetToken token persist) w = false ->
  coherent (after (setToken token persist w)).
Proof.
  intros (Hq & Hty & Hok). unfold token_alone. rewrite andb_true_r.
  intros Hu. apply negb_false_iff in Hu.
  assert (Hp : typed_pair (_currentUser (auth w)) (JStr token) = true)
    by (apply typed_pair_object; [exact (typed_pair_present _ _ Hty Hu)|reflexivity]).
  unfold setToken. run_step.
  set (w1 := with_auth (set_accessToken (JStr token)) w).
  assert (Hok1 : stored_ok w1) by exact Hok.
  destruct (default true persist);
    [|split; [exact Hq|]; split; [exact Hp|exact Hok]].
  destruct (saveToStorage_stored w1 Hok1) as (Ha & _ & Hst). specialize (Hst Hp).
  split; [|split].
  - rewrite Ha. exact Hq.
  - rewrite Ha. exact Hp.
  - exact Hst.
Qed.

Lemma removeFromStorage_coherent w :
  coherent w -> coherent (after (removeFromStorage w)).
Proof.
  intros (Hq & Hty & Hok).
  destruct (removeFromStorage_stored w Hok) as (Hs & Ha & _).
  split; [|split]; [rewrite Ha; exact Hq|rewrite Ha; exact Hty|exact Hs].
Qed.

Lemma typed_pair_undefined : typed_pair JUndefined JUndefined = true.
Proof. reflexivity. Qed.

(** What the constructor finds in storage is a typed pair, or nothing. *)
Lemma loadFromStorage_coherent w :
  coherent w -> coherent (after (loadFromStorage w)).
Proof.
  intros Hc. pose proof Hc as (Hq & Hty & Hok).
  pose proof (removeFromStorage_coherent w Hc) as Hrm.
  unfold loadFromStorage, localStorage_is_undefined, localStorage_getItem. run_step.
  destruct (localStorage w) as [st|] eqn:Hls; [|exact Hc].
  destruct (denied st) eqn:Hdn; [exact Hc|]. cbv beta iota.
  rewrite Hls. rewrite Hdn. cbn [orb].
  destruct (disabled st); [exact Hrm|]. cbv beta iota.
  destruct (items st !! storageKey (auth w)) as [text|] eqn:Hitem; [|exact Hc].
  destruct (text_truthy text); [|exact Hc].
  specialize (Hok st text Hls Hitem).
  destruct text as [doc|raw]; [|exact Hrm]. cbn [JSON_parse].
  destruct doc as [| | | | | |props]; try exact Hrm;
    try (split; [exact Hq|]; split; [reflexivity|exact (proj2 (proj2 Hc))]).
  cbn [getprop]. cbv beta iota. cbn [after snd].
  split; [exact Hq|]. split; [exact Hok|exact (proj2 (proj2 Hc))].
Qed.

Lemma new_AuthModule_coherent w :
  stored_ok w ->
  coherent (after (new_AuthModule (appId (auth w)) (iamBaseUrl (auth w)) w)).
Proof.
  intros Hok. unfold new_AuthModule. run_step.
  apply loadFromStorage_coherent.
  split; [reflexivity|]. split; [reflexivity|exact Hok].
Qed.

(** Every operation that is served in the declared shapes and does not
    leave a token alone keeps the state coherent. *)
Lemma perform_coherent op w :
  coherent w ->
  well_served w (after (perform op w)) = true ->
  token_alone op w = false ->
  coherent (after (perform op w)).
Proof.
  intros Hc. destruct op as [credentials|data|redirectUrl| | | |token persist|];
    cbn [perform].
  - apply signIn_coherent, Hc.
  - apply signUp_coherent, Hc.
  - intros _ _. unfold bind, ret.
    pose proof (signOut_coherent redirectUrl w Hc) as K.
    destruct (signOut redirectUrl w) as [[[]|e] w']; exact K.
  - intros Hw _. unfold bind, ret in Hw |- *.
    pose proof (refreshSession_coherent w Hc) as K.
    destruct (refreshSession w) as [[b|e] w']; exact (K Hw).
  - intros Hw _. apply me_coherent; assumption.
  - intros Hw _. unfold bind, ret in Hw |- *.
    pose proof (checkAuth_coherent w Hc) as K.
    destruct (checkAuth w) as [[b|e] w']; exact (K Hw).
  - intros _ Halone. unfold bind, ret.
    pose proof (setToken_coherent token persist w Hc Halone) as K.
    destruct (setToken token persist w) as [[[]|e] w']; exact K.
  - intros _ _. unfold bind, gets, ret.
    pose proof (new_AuthModule_coherent w (proj2 (proj2 Hc))) as K.
    destruct (new_AuthModule _ _ w) as [[[]|e] w']; exact K.
Qed.

Lemma coherent_paired w : coherent w -> both_or_neither w = true.
Proof. intros (_ & Hty & _). apply typed_pair_paired, Hty. Qed.

(** Claim C3, refuted as stated: on a freshly constructed Session Store,
    the completed public operation [setToken] leaves an access token
    with no user record. *)
Lemma setToken_alone_counterexample :
  after (new_AuthModule "app-1" "https://api.mitra.io/iam" (Sample.world0 []))
    = Sample.world0 []
  /\ both_or_neither (Sample.world0 []) = true
  /\ session (perform_all [DoSetToken "sso-token" None] (Sample.world0 []))
     = (JNull, JStr "sso-token", JNull)
  /\ both_or_neither (perform_all [DoSetToken "sso-token" None] (Sample.world0 []))
     = false.
Proof. repeat split; vm_compute; reflexivity. Qed.

(** Claim C3, as the code has it.  Start from a state with no refresh
    pending in which a user record and an access token are both held
    (an object and a string) or both absent, in memory and in the stored
    record.  Run any sequence of completed operations: signIn, signUp,
    signOut, refreshSession, me, checkAuth, setToken and the construction
    of a new Session Store from storage, whether they succeed or fail
    and whatever the storage does, against a server whose answers have
    the declared shapes.  Only two kinds of step are left out, those
    that leave an access token alone: [setToken] while no user is held,
    which does so by design, and a [signIn] or [signUp], while no user
    is held, whose token request is answered and whose current-user
    request then fails.  After every other run the user record and the
    access token are again both present or both absent. *)
Theorem pairing_is_kept (ops : list Operation) :
  forall w,
    coherent w ->
    covered ops w = true ->
    coherent (perform_all ops w) /\ both_or_neither (perform_all ops w) = true.
Proof.
  induction ops as [|op ops IH]; intros w H Hall;
    [split; [exact H|apply coherent_paired, H]|].
  cbn [perform_all covered] in *. apply andb_prop in Hall as [Hop Hrest].
  apply andb_prop in Hop as [Hw Halone]. apply negb_true_iff in Halone.
  apply IH; [apply perform_coherent; assumption|exact Hrest].
Qed.

Lemma pairing_is_kept_witness :
  (coherent (Sample.world0 Sample.day_replies)
   /\ covered Sample.day (Sample.world0 Sample.day_replies) = true)
  /\ both_or_neither (perform_all Sample.day (Sample.world0 Sample.day_replies)) = true.
Proof.
  assert (H : coherent (Sample.world0 Sample.day_replies)).
  { split; [reflexivity|]. split; [reflexivity|].
    intros st text [= <-]. cbn. rewrite lookup_empty. discriminate. }
  assert (K : covered Sample.day (Sample.world0 Sample.day_replies) = true)
    by (vm_compute; reflexivity).
  split; [split; assumption|].
  exact (proj2 (pairing_is_kept Sample.day (Sample.world0 Sample.day_replies) H K)).
Defined.

(** A signIn whose current-user fetch fails, on a signed-out store, also
    leaves a token without a user; it is one of the runs that
    [token_alone] names. *)
Example failed_signIn_unpairs :
  both_or_neither
    (perform_all [DoSignIn Sample.credentials1]
       (Sample.world0 [Sample.reply 200 (Sample.tokens "t1" "r1"); NetworkDown]))
  = false
  /\ token_alone (DoSignIn Sample.credentials1)
       (Sample.world0 [Sample.reply 200 (Sample.tokens "t1" "r1"); NetworkDown])
     = true.
Proof. split; vm_compute; reflexivity. Qed.

(** The same failure while a user is held keeps the pairing, and so does
    a signIn that the token endpoint rejects. *)
Example failed_signIn_when_signed_in :
  covered [DoSignIn Sample.credentials1; DoSignIn Sample.credentials1]
    (Sample.signed_in [Sample.reply 200 (Sample.tokens "t2" "r2"); NetworkDown;
                       Sample.reply 401 (JObj [])])
  = true
  /\ session (perform_all [DoSignIn Sample.credentials1; DoSignIn Sample.credentials1]
                (Sample.signed_in [Sample.reply 200 (Sample.tokens "t2" "r2"); NetworkDown;
                                   Sample.reply 401 (JObj [])]))
     = (Sample.user1, JStr "t2", JStr "r2").
Proof. split; vm_compute; reflexivity. Qed.

(** A stored record written after [setToken] carries the token alone to
    the next Session Store. *)
Example stored_token_without_user :
  session (after (new_AuthModule "app-1" "https://api.mitra.io/iam"
                    (perform_all [DoSetToken "sso-token" None] (Sample.world0 []))))
  = (JNull, JStr "sso-token", JNull).
Proof. vm_compute; reflexivity. Qed.

(** A token response without [accessToken] is not of the declared
    shape: it gives a user without a token. *)
Example untyped_token_response :
  well_served (Sample.world0 [Sample.reply 200 (JObj []); Sample.reply 200 Sample.user1])
    (after (signIn Sample.credentials1
              (Sample.world0 [Sample.reply 200 (JObj []); Sample.reply 200 Sample.user1])))
  = false
  /\ session (after (signIn Sample.credentials1
                       (Sample.world0 [Sample.reply 200 (JObj []);
                                       Sample.reply 200 Sample.user1])))
     = (Sample.user1, JUndefined, JUndefined).
Proof. split; vm_compute; reflexivity. Qed.

(** *** Calls that arrive while a refresh is pending *)

Lemma refreshSession_call_pending w p :
  refreshPromise (auth w) = Some p ->
  refreshSession_call w
  = (if truthy (_refreshToken (auth w)) then Joined p else Returned false, w).
Proof.
  intros H. unfold refreshSession_call. rewrite H.
  destruct (truthy (_refreshToken (auth w))); reflexivity.
Qed.

Lemma me_call_is_not_refresh a a' w :
  iamBaseUrl a' = iamBaseUrl a ->
  is_refresh_call a (buildRequest (authedClient a') me_path (get_options None) w)
  = false.
Proof.
  intros H. unfold is_refresh_call. cbn. rewrite H.
  apply String.eqb_neq. intros E. apply append_inj_l in E. discriminate.
Qed.

(** What the storage is like does not change. *)
Lemma setAuthState_flag user token refreshToken w :
  storage_denied (after (setAuthState user token refreshToken w)) = storage_denied w.
Proof.
  unfold setAuthState. run_step.
  match goal with |- context [saveToStorage ?w1] =>
    rewrite (saveToStorage_run w1); change (localStorage w1) with (localStorage w) end.
  unfold storage_denied.
  destruct (localStorage w) as [st|] eqn:Hls.
  - destruct (denied st) eqn:Hd; [cbn; rewrite Hls; exact Hd|].
    destruct (disabled st || full st); rewrite notifyListeners_spec; cbn;
      rewrite ?Hls; cbn; rewrite ?Hd; reflexivity.
  - rewrite notifyListeners_spec. cbn. rewrite Hls. reflexivity.
Qed.

Lemma clearAuthState_flag w :
  storage_denied (after (clearAuthState w)) = storage_denied w.
Proof.
  unfold clearAuthState. run_step.
  match goal with |- context [removeFromStorage ?w1] =>
    rewrite (removeFromStorage_run w1); change (localStorage w1) with (localStorage w) end.
  unfold storage_denied.
  destruct (localStorage w) as [st|] eqn:Hls.
  - destruct (denied st) eqn:Hd; [cbn; rewrite Hls; exact Hd|].
    destruct (disabled st); rewrite notifyListeners_spec; cbn;
      rewrite ?Hls; cbn; rewrite ?Hd; reflexivity.
  - rewrite notifyListeners_spec. cbn. rewrite Hls. reflexivity.
Qed.

(** [setAuthState] and [clearAuthState], with the storage of either
    kind: the result world is given in full, and the call throws only
    where the storage is denied. *)
Ltac commit_or_clear_any F Hd :=
  match goal with
  | |- context [setAuthState ?u ?t ?r ?w1] =>
      let ls := fresh "ls" in let co := fresh "co" in let n := fresh "n" in
      let E := fresh "E" in
      pose proof (setAuthState_flag u t r w1) as F;
      destruct (storage_denied w1) eqn:Hd;
      [ rewrite (setAuthState_denied u t r w1 Hd) in F |- *
      | destruct (setAuthState_shape u t r w1 Hd) as (ls & co & n & E);
        rewrite E in F |- * ]
  | |- context [clearAuthState ?w1] =>
      let ls := fresh "ls" in let co := fresh "co" in let n := fresh "n" in
      let E := fresh "E" in
      pose proof (clearAuthState_flag w1) as F;
      destruct (storage_denied w1) eqn:Hd;
      [ rewrite (clearAuthState_denied w1 Hd) in F |- *
      | destruct (clearAuthState_shape w1 Hd) as (ls & co & n & E);
        rewrite E in F |- * ]
  end.

Ltac same_calls F Hd :=
  eexists _, _; split; [reflexivity|]; split; [split; reflexivity|];
  split; [first [exact F | etransitivity; [exact F|symmetry; exact Hd]]|];
  first [left; eexists; reflexivity
        | right; split; [first [exact Hd|reflexivity]|reflexivity]].

Lemma doRefresh_tokens_spec options reply w :
  exists r w',
    doRefresh_tokens options reply w = (r, w')
    /\ same_refresh_calls w w'
    /\ storage_denied w' = storage_denied w
    /\ ended w r.
Proof.
  unfold doRefresh_tokens. run_step. plain_resume.
  destruct (plain_outcome reply) as [tokenResponse|e].
  2:{ commit_or_clear_any F Hd; same_calls F Hd. }
  destruct (getprop tokenResponse "accessToken") as [a|e1].
  2:{ commit_or_clear_any F Hd; same_calls F Hd. }
  destruct (getprop tokenResponse "refreshToken") as [rt|e2].
  2:{ commit_or_clear_any F Hd; same_calls F Hd. }
  eexists _, _. split; [reflexivity|]. split; [|split; [reflexivity|left; eexists; reflexivity]].
  split; [reflexivity|].
  unfold refresh_calls. cbn [sent send with_sent with_auth auth].
  rewrite List.filter_app, length_app. cbn [List.filter].
  rewrite me_call_is_not_refresh by reflexivity.
  cbn. unfold is_refresh_call. cbn. lia.
Qed.

Lemma doRefresh_me_spec tokenResponse options reply w :
  exists r w',
    doRefresh_me tokenResponse options reply w = (r, w')
    /\ same_refresh_calls w w'
    /\ storage_denied w' = storage_denied w
    /\ ended w r.
Proof.
  unfold doRefresh_me. run_step. plain_resume.
  destruct (plain_outcome reply) as [user|e].
  2:{ commit_or_clear_any F Hd; same_calls F Hd. }
  destruct (getprop tokenResponse "accessToken") as [a|e1].
  2:{ commit_or_clear_any F Hd; same_calls F Hd. }
  destruct (getprop tokenResponse "refreshToken") as [rt|e2].
  2:{ commit_or_clear_any F Hd; same_calls F Hd. }
  commit_or_clear_any F Hd; [|same_calls F Hd].
  cbv beta iota.
  commit_or_clear_any F2 Hd2.
  - same_calls F2 Hd.
  - exfalso. assert (X : true = false) by (rewrite <- Hd; exact Hd2). discriminate X.
Qed.

(** A reply never adds a refresh call or changes what the storage is
    like; it settles the promise or leaves it pending. *)
Lemma deliver_spec reply w :
  same_refresh_calls w (snd (deliver reply w))
  /\ storage_denied (snd (deliver reply w)) = storage_denied w
  /\ match fst (deliver reply w) with
     | Some r => ended w r
     | None => refreshPromise (auth w) <> None ->
               refreshPromise (auth (snd (deliver reply w))) <> None
     end.
Proof.
  unfold deliver.
  destruct (refreshPromise (auth w)) as [[options|tokenResponse options]|].
  - destruct (doRefresh_tokens_spec options reply w) as (r & w' & E & Hs & Hf & He).
    rewrite E. destruct r as [[tokenResponse|]|e]; cbn.
    + split; [exact Hs|]. split; [exact Hf|]. intros _. discriminate.
    + split; [exact Hs|]. split; [exact Hf|]. left. eexists; reflexivity.
    + split; [exact Hs|]. split; [exact Hf|].
      destruct He as [[a Ha]|[Hd [= ->]]]; [discriminate|right; split; [exact Hd|reflexivity]].
  - destruct (doRefresh_me_spec tokenResponse options reply w)
      as (r & w' & E & Hs & Hf & He).
    rewrite E. cbn. split; [exact Hs|]. split; [exact Hf|]. exact He.
  - cbn. split; [split; reflexivity|]. split; [reflexivity|]. auto.
Qed.

(** [refreshSession] run to completion is the replies of the script
    delivered one by one to the pending operation. *)
Lemma await_me_is_deliver tokenResponse options w :
  refreshPromise (auth w) = Some (AwaitingMe tokenResponse options) ->
  deliver (head_reply w) (with_network (tl (network w)) w)
  = (Some (result (await_me tokenResponse options w)),
     after (await_me tokenResponse options w)).
Proof.
  intros H. unfold deliver.
  change (refreshPromise (auth (with_network (tl (network w)) w)))
    with (refreshPromise (auth w)).
  rewrite H. unfold await_me. run_step. rewrite next_reply_eq.
  destruct (doRefresh_me _ _ _ _) as [r w']. reflexivity.
Qed.

Lemma await_tokens_is_deliver options w :
  refreshPromise (auth w) = Some (AwaitingTokens options) ->
  match deliver (head_reply w) (with_network (tl (network w)) w) with
  | (Some r, w') => await_tokens options w = (r, w')
  | (None, w') =>
      deliver (head_reply w') (with_network (tl (network w')) w')
      = (Some (result (await_tokens options w)), after (await_tokens options w))
  end.
Proof.
  intros H. unfold deliver at 1.
  change (refreshPromise (auth (with_network (tl (network w)) w)))
    with (refreshPromise (auth w)).
  rewrite H. unfold await_tokens. run_step. rewrite next_reply_eq.
  destruct (doRefresh_tokens _ _ _) as [[[tokenResponse|]|e] w']; try reflexivity.
  apply await_me_is_deliver. reflexivity.
Qed.

(** The pending operation settles with the second reply at the latest. *)
Lemma pending_settles_in_two_replies w receipts reply1 reply2 :
  refreshPromise (auth w) <> None ->
  exists w' receipts' r,
    while_pending [Reply reply1; Reply reply2] w receipts = (w', receipts', Some r).
Proof.
  intros Hp. cbn [while_pending]. unfold deliver at 1.
  destruct (refreshPromise (auth w)) as [[options|tokenResponse options]|];
    [| |congruence].
  - destruct (doRefresh_tokens_spec options reply1 w) as (leg & w1 & E & _).
    rewrite E. destruct leg as [[tokenResponse|]|e]; try (eexists _, _, _; reflexivity).
    unfold deliver. cbn [mark with_auth auth refreshPromise set_refreshPromise].
    destruct (doRefresh_me_spec tokenResponse (get_options None) reply2
                (mark (Some (AwaitingMe tokenResponse (get_options None))) w1))
      as (b & w2 & E2 & _).
    rewrite E2. eexists _, _, _; reflexivity.
  - destruct (doRefresh_me_spec tokenResponse options reply1 w) as (b & w1 & E & _).
    rewrite E. eexists _, _, _; reflexivity.
Qed.

(** Claim C5, refuted as stated.  A refresh is pending; the refresh
    endpoint answers with an empty refresh token; a second caller arrives
    before the current-user reply.  One call went to the refresh
    endpoint, the pending operation succeeds and its caller receives
    true, but the second caller has already received false. *)
Lemma concurrent_caller_counterexample :
  refreshPromise (auth Sample.pending) <> None
  /\ snd (fst (while_pending Sample.race Sample.pending [Shared None]))
     = [Shared (Some (Resolve true)); Early false]
  /\ snd (while_pending Sample.race Sample.pending [Shared None])
     = Some (Resolve true)
  /\ refresh_calls (fst (fst (while_pending Sample.race Sample.pending [Shared None])))
     = 1%nat.
Proof. split; [discriminate|]. repeat split; vm_compute; reflexivity. Qed.

(** Claim C5, as the code has it.  From a state with a refresh pending,
    play any calls of [refreshSession()] and network replies up to the
    moment the pending promise settles.  No call went to the refresh
    endpoint meanwhile; the promise settles with a boolean (where the
    page is denied its storage, and only there, it is rejected with the
    error of the storage); every caller that was waiting receives that
    outcome, and every caller that arrived meanwhile either joined the
    promise and receives it too, or was answered false at once.  Which
    of the two is decided by the first test of [refreshSession()]: a
    caller joins exactly when a refresh token is held at the moment of
    its call; in both cases its call leaves the world as it is. *)
Theorem pending_refresh_is_shared (events : list Event) :
  forall (w : World) (receipts : list Receipt) w' receipts' r,
    refreshPromise (auth w) <> None ->
    while_pending events w receipts = (w', receipts', Some r) ->
    refresh_calls w' = refresh_calls w
    /\ ((exists b, r = Resolve b)
        \/ (storage_denied w = true /\ r = Reject StorageError))
    /\ (exists arrivals,
          receipts' = List.map (settle_receipt r) receipts ++ arrivals
          /\ Forall (fun x => x = Early false \/ x = Shared (Some r)) arrivals)
    /\ (forall w0 p, refreshPromise (auth w0) = Some p ->
          refreshSession_call w0
          = (if truthy (_refreshToken (auth w0)) then Joined p else Returned false,
             w0)).
Proof.
  induction events as [|[|reply] events IH]; intros w receipts w' receipts' r Hp Hrun;
    cbn [while_pending] in Hrun.
  - discriminate.
  - destruct (refreshPromise (auth w)) as [p|] eqn:Hmark; [|congruence].
    rewrite (refreshSession_call_pending w p Hmark) in Hrun.
    assert (Hp' : refreshPromise (auth w) <> None) by congruence.
    destruct (IH _ _ _ _ _ Hp' Hrun) as (Hcalls & Hb & (arrivals & Hrec & Hall) & Hcall).
    split; [exact Hcalls|]. split; [exact Hb|]. split; [|exact Hcall].
    rewrite List.map_app, <- app_assoc in Hrec.
    eexists. split; [exact Hrec|].
    apply Forall_app. split; [|exact Hall].
    destruct (truthy (_refreshToken (auth w))); cbn; (constructor; [auto|constructor]).
  - destruct (deliver_spec reply w) as ((Hs & Hc) & Hf & Hd).
    destruct (deliver reply w) as [[r0|] w1]; cbn [fst snd] in *.
    + injection Hrun as <- <- <-. split; [exact Hc|]. split; [exact Hd|].
      split; [|intros w0 p; apply refreshSession_call_pending].
      exists []. rewrite app_nil_r. split; [reflexivity|constructor].
    + destruct (IH _ _ _ _ _ (Hd Hp) Hrun) as (Hcalls & Hb & Harr & Hcall).
      split; [congruence|]. split; [|split; [exact Harr|exact Hcall]].
      rewrite Hf in Hb. exact Hb.
Qed.

Lemma pending_refresh_is_shared_witness :
  (refreshPromise (auth Sample.pending) <> None
   /\ while_pending Sample.shared_run Sample.pending [Shared None]
      = (fst (fst (while_pending Sample.shared_run Sample.pending [Shared None])),
         [Shared (Some (Resolve true)); Shared (Some (Resolve true));
          Shared (Some (Resolve true))],
         Some (Resolve true)))
  /\ refresh_calls (fst (fst (while_pending Sample.shared_run Sample.pending
                                [Shared None])))
     = refresh_calls Sample.pending.
Proof.
  assert (H : refreshPromise (auth Sample.pending) <> None) by discriminate.
  assert (K : while_pending Sample.shared_run Sample.pending [Shared None]
      = (fst (fst (while_pending Sample.shared_run Sample.pending [Shared None])),
         [Shared (Some (Resolve true)); Shared (Some (Resolve true));
          Shared (Some (Resolve true))],
         Some (Resolve true))) by (vm_compute; reflexivity).
  split; [split; assumption|].
  exact (proj1 (pending_refresh_is_shared Sample.shared_run Sample.pending
                  [Shared None] _ _ _ H K)).
Defined.

(** Where the page is denied its storage the pending refresh is
    rejected, and so is every caller that joined it. *)
Example pending_refresh_with_storage_denied :
  let pending :=
    snd (refreshSession_call (Sample.denied_page [])) in
  snd (fst (while_pending [CallRefresh; Reply (Sample.reply 401 (JObj []))] pending
              [Shared None]))
  = [Shared (Some (Reject StorageError)); Shared (Some (Reject StorageError))].
Proof. vm_compute. reflexivity. Qed.

(* ===================================================================== *)
(** ** Further properties of HttpClient *)
(* ===================================================================== *)

Lemma request_unfold c path options w :
  request c path options w =
    (let* req := gets (buildRequest c path options) in
     let* response := fetch req in
     afterFetch (request_fuel 0 c path (retried options)) c options response) w.
Proof. reflexivity. Qed.

(** A call up to the resumption after [fetch]. *)
Lemma request_fetched c path options w :
  request c path options w =
    match head_reply w with
    | Responded r =>
        afterFetch (request_fuel 0 c path (retried options)) c options r
          (fetched c path options w)
    | NetworkDown => (Reject FetchFailed, fetched c path options w)
    end.
Proof.
  rewrite request_unfold. unfold fetch. run_step. rewrite next_reply_eq.
  replace (head_reply (send (buildRequest c path options w) w)) with (head_reply w)
    by reflexivity.
  unfold arrive, fetched. destruct (head_reply w); reflexivity.
Qed.

Lemma append_cons a s t : String a s +:+ t = String a (s +:+ t).
Proof. reflexivity. Qed.

Lemma strip_trailing_slash_spec s :
  strip_trailing_slash s +:+ (if ends_with "/" s then "/" else "") = s.
Proof.
  induction s as [|a s IH]; [reflexivity|].
  destruct s as [|b s].
  - cbn. destruct (Ascii.eqb_spec a "/"%char) as [->|]; reflexivity.
  - change (strip_trailing_slash (String a (String b s)))
      with (String a (strip_trailing_slash (String b s))).
    change (ends_with "/" (String a (String b s))) with (ends_with "/" (String b s)).
    rewrite append_cons. f_equal. exact IH.
Qed.

(** X1.  The constructor removes one trailing slash from the configured
    base URL and nothing else: the base URL of the client, followed by a
    slash when the configured one ended in a slash, is the configured
    one. *)
Theorem new_HttpClient_strips_one_slash (config : HttpClientConfig) :
  baseUrl (new_HttpClient config)
    +:+ (if ends_with "/" (cfg_baseUrl config) then "/" else "")
  = cfg_baseUrl config.
Proof. apply strip_trailing_slash_spec. Qed.

(** The headers of a call, name by name. *)
Lemma buildRequest_header (c : HttpClient) (path : string)
    (options : RequestOptions) (w : World) (name : string) :
  req_headers (buildRequest c path options w) !! name =
    if String.eqb name "Authorization" && truthy (tokenGetter c w)
    then Some (HBearer (tokenGetter c w))
    else
      match default ∅ (headers options) !! name with
      | Some v => Some (HText v)
      | None =>
          match defaultHeaders c !! name with
          | Some v => Some (HText v)
          | None =>
              if String.eqb name "Content-Type" then Some (HText "application/json")
              else None
          end
      end.
Proof.
  unfold buildRequest, requestHeaders. cbn [req_headers].
  assert (Hmerged :
    ((HText <$> default ∅ (headers options)) ∪ (HText <$> defaultHeaders c)
       ∪ {[ "Content-Type" := HText "application/json" ]}) !! name
    = match default ∅ (headers options) !! name with
      | Some v => Some (HText v)
      | None =>
          match defaultHeaders c !! name with
          | Some v => Some (HText v)
          | None =>
              if String.eqb name "Content-Type" then Some (HText "application/json")
              else None
          end
      end).
  { rewrite !lookup_union, !lookup_fmap.
    destruct (default ∅ (headers options) !! name) as [v|]; cbn.
    - destruct (defaultHeaders c !! name); cbn;
        destruct (({[ "Content-Type" := HText "application/json" ]} : gmap string HeaderValue)
                    !! name); reflexivity.
    - destruct (defaultHeaders c !! name) as [v|]; cbn.
      + destruct (({[ "Content-Type" := HText "application/json" ]} : gmap string HeaderValue)
                    !! name); reflexivity.
      + destruct (String.eqb_spec name "Content-Type") as [->|Hne].
        * rewrite lookup_singleton_eq. reflexivity.
        * rewrite lookup_singleton_ne by congruence. reflexivity. }
  destruct (truthy (tokenGetter c w)); rewrite ?andb_true_r, ?andb_false_r.
  - destruct (String.eqb_spec name "Authorization") as [->|Hne].
    + apply lookup_insert_eq.
    + rewrite lookup_insert_ne by congruence. exact Hmerged.
  - exact Hmerged.
Qed.

(** X2.  The headers of a call, name by name: [Authorization] is the
    bearer token whenever the token is truthy, whatever the caller gave;
    any other header is the one given with the call, else the default
    header of the client, else [application/json] for [Content-Type]. *)
Theorem request_headers_precedence (c : HttpClient) (path : string)
    (options : RequestOptions) (w : World) (name : string) :
  req_headers (buildRequest c path options w) !! name =
    if String.eqb name "Authorization" && truthy (tokenGetter c w)
    then Some (HBearer (tokenGetter c w))
    else
      match default ∅ (headers options) !! name with
      | Some v => Some (HText v)
      | None =>
          match defaultHeaders c !! name with
          | Some v => Some (HText v)
          | None =>
              if String.eqb name "Content-Type" then Some (HText "application/json")
              else None
          end
      end.
Proof. apply buildRequest_header. Qed.

(** X3.  When the transport fails there is no response to look at: the
    call rejects with the transport's failure after its one [fetch];
    neither the unauthorized-callback nor the error hook is run. *)
Theorem request_transport_failure (c : HttpClient) (path : string)
    (options : RequestOptions) (w : World) :
  head_reply w = NetworkDown ->
  request c path options w = (Reject FetchFailed, fetched c path options w).
Proof. intros H. rewrite request_fetched, H. reflexivity. Qed.

Lemma request_transport_failure_witness :
  head_reply (Sample.signed_in []) = NetworkDown
  /\ request (Sample.dataClient (Some Sample.quiet_hook)) "/api/v1/records"
       (get_options None) (Sample.signed_in [])
     = (Reject FetchFailed,
        fetched (Sample.dataClient (Some Sample.quiet_hook)) "/api/v1/records"
          (get_options None) (Sample.signed_in [])).
Proof.
  split; [reflexivity|].
  apply (request_transport_failure (Sample.dataClient (Some Sample.quiet_hook))
           "/api/v1/records" (get_options None) (Sample.signed_in [])).
  reflexivity.
Defined.

(** A 2xx response ends the call after its one [fetch]. *)
Lemma request_ok (c : HttpClient) (path : string) (options : RequestOptions)
    (w : World) (r : Response) :
  head_reply w = Responded r ->
  ok r = true ->
  request c path options w =
    (if status r =? 204 then Resolve JUndefined else json r, fetched c path options w).
Proof.
  intros H Hok. rewrite request_fetched, H. unfold afterFetch. rewrite Hok.
  cbn [negb]. destruct (status r =? 204); [reflexivity|].
  unfold lift. reflexivity.
Qed.

(** X4.  A 2xx response ends the call after its one [fetch]: a 204
    gives [undefined] without the body being read, any other gives what
    [response.json()] gives, a SyntaxError included; no callback and no
    hook is run. *)
Theorem request_success (c : HttpClient) (path : string) (options : RequestOptions)
    (w : World) (r : Response) :
  head_reply w = Responded r ->
  ok r = true ->
  request c path options w =
    (if status r =? 204 then Resolve JUndefined else json r, fetched c path options w).
Proof. apply request_ok. Qed.

Lemma request_success_witness :
  (head_reply (Sample.world0 [Responded {| status := 200; payload := RawText "<html>" |}])
   = Responded {| status := 200; payload := RawText "<html>" |}
   /\ ok {| status := 200; payload := RawText "<html>" |} = true)
  /\ request (Sample.dataClient (Some Sample.quiet_hook)) "/api/v1/records"
       (get_options None)
       (Sample.world0 [Responded {| status := 200; payload := RawText "<html>" |}])
     = (Reject SyntaxError,
        fetched (Sample.dataClient (Some Sample.quiet_hook)) "/api/v1/records"
          (get_options None)
          (Sample.world0 [Responded {| status := 200; payload := RawText "<html>" |}])).
Proof.
  split; [split; reflexivity|].
  apply (request_success (Sample.dataClient (Some Sample.quiet_hook))
           "/api/v1/records" (get_options None)
           (Sample.world0 [Responded {| status := 200; payload := RawText "<html>" |}])
           {| status := 200; payload := RawText "<html>" |}); reflexivity.
Defined.



(** A first attempt answered 401 whose callback does not resolve [true]. *)
Lemma request_401_not_refreshed (c : HttpClient) (path : string)
    (options : RequestOptions) (refresh : M bool) (w w2 : World) (r : Response)
    (answer : Outcome bool) :
  onUnauthorized c = Some refresh ->
  is_retry options = false ->
  head_reply w = Responded r ->
  status r = 401 ->
  refresh (fetched c path options w) = (answer, w2) ->
  answer <> Resolve true ->
  request c path options w =
    match answer with
    | Resolve _ => raiseApiError c r w2
    | Reject e => (Reject e, w2)
    end
  /\ sent (after (request c path options w)) = sent w2.
Proof.
  intros Hcb Hretry H Hst Hrefresh Hno.
  assert (E : request c path options w =
              match answer with
              | Resolve _ => raiseApiError c r w2
              | Reject e => (Reject e, w2)
              end).
  { rewrite request_fetched, H. unfold afterFetch. rewrite Hcb, Hretry, Hst.
    replace (negb (ok r)) with true by (unfold ok; rewrite Hst; reflexivity).
    cbn [Z.eqb Pos.eqb negb andb]. unfold bind. rewrite Hrefresh.
    destruct answer as [[]|e]; [congruence|reflexivity|reflexivity]. }
  split; [exact E|]. rewrite E.
  destruct answer as [b|e]; [apply raiseApiError_sent|reflexivity].
Qed.

(** X6.  A first attempt answered 401 whose callback does not resolve
    [true]: there is no second [fetch].  When the callback resolves
    [false] the 401 response is converted into the API error, in the
    world the callback left; when the callback rejects, the call rejects
    with the callback's error, the 401 is not converted and the error
    hook is not run. *)
Theorem request_401_refresh_not_granted (c : HttpClient) (path : string)
    (options : RequestOptions) (refresh : M bool) (w w2 : World) (r : Response)
    (answer : Outcome bool) :
  onUnauthorized c = Some refresh ->
  is_retry options = false ->
  head_reply w = Responded r ->
  status r = 401 ->
  refresh (fetched c path options w) = (answer, w2) ->
  answer <> Resolve true ->
  request c path options w =
    match answer with
    | Resolve _ => raiseApiError c r w2
    | Reject e => (Reject e, w2)
    end
  /\ sent (after (request c path options w)) = sent w2.
Proof. apply request_401_not_refreshed. Qed.

Lemma request_401_refresh_not_granted_witness :
  (onUnauthorized (serviceClient Demo.settings "/data-manager") = Some refreshSession
   /\ is_retry (get_options None) = false
   /\ head_reply (Sample.world0 [Sample.reply 401 (JObj [])])
      = Responded {| status := 401; payload := JsonText (JObj []) |}
   /\ status {| status := 401; payload := JsonText (JObj []) |} = 401
   /\ refreshSession
        (fetched (serviceClient Demo.settings "/data-manager") "/api/v1/records"
           (get_options None) (Sample.world0 [Sample.reply 401 (JObj [])]))
      = (Resolve false,
         fetched (serviceClient Demo.settings "/data-manager") "/api/v1/records"
           (get_options None) (Sample.world0 [Sample.reply 401 (JObj [])]))
   /\ Resolve false <> Resolve true)
  /\ request (serviceClient Demo.settings "/data-manager") "/api/v1/records"
       (get_options None) (Sample.world0 [Sample.reply 401 (JObj [])])
     = raiseApiError (serviceClient Demo.settings "/data-manager")
         {| status := 401; payload := JsonText (JObj []) |}
         (fetched (serviceClient Demo.settings "/data-manager") "/api/v1/records"
            (get_options None) (Sample.world0 [Sample.reply 401 (JObj [])])).
Proof.
  split; [repeat split; (reflexivity || discriminate)|].
  refine (proj1 (request_401_refresh_not_granted
                   (serviceClient Demo.settings "/data-manager") "/api/v1/records"
                   (get_options None) refreshSession
                   (Sample.world0 [Sample.reply 401 (JObj [])])
                   (fetched (serviceClient Demo.settings "/data-manager")
                      "/api/v1/records" (get_options None)
                      (Sample.world0 [Sample.reply 401 (JObj [])]))
                   {| status := 401; payload := JsonText (JObj []) |}
                   (Resolve false) _ _ _ _ _ _));
    (reflexivity || discriminate).
Defined.

(** X7.  A call that carries the retry flag never runs the
    unauthorized-callback: it behaves as on a client that has none. *)
Theorem request_retry_never_refreshes (c : HttpClient) (path : string)
    (options : RequestOptions) (w : World) :
  request c path (retried options) w
  = request (without_onUnauthorized c) path (retried options) w.
Proof.
  rewrite !request_retried_once. reflexivity.
Qed.

(* ===================================================================== *)
(** ** Further properties of AuthModule *)
(* ===================================================================== *)

(** *** signOut *)

Lemma cleared_with_window h w : cleared w -> cleared (with_window h w).
Proof. intros H. exact H. Qed.


(** *** signUp *)

(** X9.  [signUp] is one registration call on the public client, with
    the application identifier added to the data, followed by [signIn]
    with the same email and password.  What the registration returns is
    not looked at; when it fails, [signUp] fails with the same error and
    nothing but the network log has changed: no sign-in is attempted. *)
Theorem signUp_is_register_then_signIn (data : SignUpData) (w : World) :
  signUp data w =
    match plain_outcome (head_reply w) with
    | Resolve _ =>
        signIn {| email := signup_email data; password := signup_password data |}
          (fetched (publicClient (auth w)) "/api/v1/auth/users/register"
             (register_options data w) w)
    | Reject e =>
        (Reject e,
         fetched (publicClient (auth w)) "/api/v1/auth/users/register"
           (register_options data w) w)
    end.
Proof.
  unfold signUp, post. run_step. plain_request.
  destruct (plain_outcome (head_reply w)); reflexivity.
Qed.

(** *** signIn *)

Lemma authedClient_headers a options w :
  req_headers (buildRequest (authedClient a) me_path options w) !! "Authorization"
  = match default ∅ (headers options) !! "Authorization" with
    | Some v => if truthy (_accessToken (auth w)) then Some (HBearer (_accessToken (auth w)))
                else Some (HText v)
    | None => bearer (_accessToken (auth w))
    end.
Proof.
  rewrite buildRequest_header. cbn. unfold bearer.
  destruct (truthy (_accessToken (auth w)));
    destruct (default ∅ (headers options) !! "Authorization"); reflexivity.
Qed.

Lemma authedClient_get_headers a w :
  req_headers (buildRequest (authedClient a) me_path (get_options None) w)
    !! "Authorization"
  = bearer (_accessToken (auth w)).
Proof.
  rewrite authedClient_headers. cbn [get_options headers default].
  rewrite lookup_empty. reflexivity.
Qed.

Lemma publicClient_headers a path options w :
  headers options = None ->
  req_headers (buildRequest (publicClient a) path options w) !! "Authorization" = None.
Proof. intros H. rewrite buildRequest_header, H. reflexivity. Qed.

(** X10.  A [signIn] whose two requests succeed.  Two calls were made:
    the token request, on the public client and so without
    [Authorization]; then the current-user request, which already
    carries the new access token.  Where the storage can be read,
    [signIn] resolves with the user the server described, and the
    Session is committed with that user and the tokens of the token
    response (three fields, stored record, listeners).  Where the page
    is denied its storage, the three fields are set all the same, but
    [signIn] then throws the error of the storage and no listener is
    called. *)
Theorem signIn_success (credentials : SignInCredentials) (w : World)
    (reply1 reply2 : FetchOutcome) (rest : list FetchOutcome)
    (tokenResponse accessToken refreshToken user : JSValue) :
  network w = reply1 :: reply2 :: rest ->
  plain_outcome reply1 = Resolve tokenResponse ->
  getprop tokenResponse "accessToken" = Resolve accessToken ->
  getprop tokenResponse "refreshToken" = Resolve refreshToken ->
  plain_outcome reply2 = Resolve user ->
  (if storage_denied w then
     result (signIn credentials w) = Reject StorageError
     /\ session (after (signIn credentials w)) = (user, accessToken, refreshToken)
     /\ notified (after (signIn credentials w)) = notified w
   else
     result (signIn credentials w) = Resolve user
     /\ committed user accessToken refreshToken (after (signIn credentials w)))
  /\ network (after (signIn credentials w)) = rest
  /\ exists token_request me_request,
       sent (after (signIn credentials w)) = sent w ++ [token_request; me_request]
       /\ token_request
          = buildRequest (publicClient (auth w)) "/api/v1/auth/tokens"
              (post_options (credentials_json credentials)) w
       /\ req_headers token_request !! "Authorization" = None
       /\ address (req_url me_request) = baseUrl (authedClient (auth w)) +:+ me_path
       /\ req_headers me_request !! "Authorization" = bearer accessToken.
Proof.
  intros Hnet H1 Ha Hr H2.
  unfold signIn, post, get. run_step. plain_request.
  replace (head_reply w) with reply1 by (unfold head_reply; rewrite Hnet; reflexivity).
  rewrite H1, Ha, Hr. cbv beta iota. plain_request.
  match goal with |- context [head_reply ?w1] =>
    replace (head_reply w1) with reply2
      by (unfold head_reply; cbn; rewrite Hnet; reflexivity) end.
  rewrite H2. cbv beta iota.
  assert (Hcalls : forall w3 : World,
            sent w3
            = (sent w
                 ++ [buildRequest (publicClient (auth w)) "/api/v1/auth/tokens"
                       (post_options (credentials_json credentials)) w])
                ++ [buildRequest
                      (authedClient
                         (set_refreshToken refreshToken
                            (set_accessToken accessToken (auth w))))
                      "/api/v1/auth/me" (get_options None)
                      (with_auth (set_refreshToken refreshToken)
                         (with_auth (set_accessToken accessToken)
                            (with_network (tl (network w))
                               (send (buildRequest (publicClient (auth w))
                                        "/api/v1/auth/tokens"
                                        (post_options (credentials_json credentials)) w)
                                  w))))] ->
            exists token_request me_request,
              sent w3 = sent w ++ [token_request; me_request]
              /\ token_request
                 = buildRequest (publicClient (auth w)) "/api/v1/auth/tokens"
                     (post_options (credentials_json credentials)) w
              /\ req_headers token_request !! "Authorization" = None
              /\ address (req_url me_request)
                 = baseUrl (authedClient (auth w)) +:+ me_path
              /\ req_headers me_request !! "Authorization" = bearer accessToken).
  { intros w3 ->. eexists _, _. split; [rewrite <- app_assoc; reflexivity|].
    split; [reflexivity|]. split; [apply publicClient_headers; reflexivity|].
    split; [reflexivity|]. apply authedClient_get_headers. }
  destruct (storage_denied w) eqn:Hrd.
  - match goal with |- context [setAuthState ?u ?t ?r ?w1] =>
      rewrite (setAuthState_denied u t r w1 Hrd) end.
    cbn [result after fst snd].
    split; [repeat split; reflexivity|].
    split; [cbn; rewrite Hnet; reflexivity|]. apply Hcalls. reflexivity.
  - match goal with |- context [setAuthState ?u ?t ?r ?w1] =>
      pose proof (setAuthState_commits u t r w1 Hrd) as Hcommit end.
    commit_or_clear. rewrite E in Hcommit. cbn [after snd] in Hcommit.
    cbn [result after fst snd].
    split; [split; [reflexivity|exact Hcommit]|].
    split; [cbn; rewrite Hnet; reflexivity|]. apply Hcalls. reflexivity.
Qed.

Lemma signIn_success_witness :
  (network (Sample.world0 [Sample.reply 200 (Sample.tokens "t1" "r1");
                           Sample.reply 200 Sample.user1])
   = [Sample.reply 200 (Sample.tokens "t1" "r1"); Sample.reply 200 Sample.user1]
   /\ plain_outcome (Sample.reply 200 (Sample.tokens "t1" "r1"))
      = Resolve (Sample.tokens "t1" "r1")
   /\ getprop (Sample.tokens "t1" "r1") "accessToken" = Resolve (JStr "t1")
   /\ getprop (Sample.tokens "t1" "r1") "refreshToken" = Resolve (JStr "r1")
   /\ plain_outcome (Sample.reply 200 Sample.user1) = Resolve Sample.user1)
  /\ result (signIn Sample.credentials1
               (Sample.world0 [Sample.reply 200 (Sample.tokens "t1" "r1");
                               Sample.reply 200 Sample.user1]))
     = Resolve Sample.user1.
Proof.
  split; [repeat split; reflexivity|].
  refine (proj1 (proj1 (signIn_success Sample.credentials1
                   (Sample.world0 [Sample.reply 200 (Sample.tokens "t1" "r1");
                                   Sample.reply 200 Sample.user1])
                   (Sample.reply 200 (Sample.tokens "t1" "r1"))
                   (Sample.reply 200 Sample.user1) []
                   (Sample.tokens "t1" "r1") (JStr "t1") (JStr "r1") Sample.user1
                   _ _ _ _ _))); reflexivity.
Defined.

(** *** me and checkAuth *)

(** [me()] with a token held, up to the reply. *)
Lemma me_run w :
  truthy (_accessToken (auth w)) = true ->
  me w =
    match plain_outcome (head_reply w) with
    | Resolve user =>
        if storage_denied w
        then (Resolve JNull,
              with_auth (set_currentUser user)
                (fetched (authedClient (auth w)) me_path (get_options None) w))
        else (Resolve user,
              after (notifyListeners
                       (after (saveToStorage
                                 (with_auth (set_currentUser user)
                                    (fetched (authedClient (auth w)) me_path
                                       (get_options None) w))))))
    | Reject error =>
        match error with
        | ApiError e =>
            if MitraApiError.status e =? 401
            then if storage_denied w
                 then (Reject StorageError,
                       with_auth (set_session JNull JNull JNull)
                         (fetched (authedClient (auth w)) me_path
                            (get_options None) w))
                 else (Resolve JNull,
                       after (clearAuthState
                                (fetched (authedClient (auth w)) me_path
                                   (get_options None) w)))
            else (Resolve JNull,
                  fetched (authedClient (auth w)) me_path (get_options None) w)
        | _ => (Resolve JNull,
                fetched (authedClient (auth w)) me_path (get_options None) w)
        end
    end.
Proof.
  intros Htok. unfold me, get. run_step. rewrite Htok. cbn [negb].
  plain_request. fold me_path.
  change (with_network (tl (network w))
            (send (buildRequest (authedClient (auth w)) me_path (get_options None) w) w))
    with (fetched (authedClient (auth w)) me_path (get_options None) w).
  set (w1 := fetched (authedClient (auth w)) me_path (get_options None) w).
  assert (Hflag : forall b, storage_denied w = b -> storage_denied w1 = b)
    by (intros b <-; reflexivity).
  destruct (plain_outcome (head_reply w)) as [user|error].
  - destruct (storage_denied w) eqn:Hrd.
    + rewrite (saveToStorage_denied (with_auth (set_currentUser user) w1) (Hflag _ eq_refl)).
      reflexivity.
    + destruct (saveToStorage_shape (with_auth (set_currentUser user) w1)
                  (Hflag _ eq_refl)) as [ls E].
      rewrite E. cbn [after snd]. rewrite notifyListeners_spec. reflexivity.
  - destruct error as [e| | | | | | |]; try reflexivity.
    destruct (MitraApiError.status e =? 401); [|reflexivity].
    destruct (storage_denied w) eqn:Hrd.
    + rewrite (clearAuthState_denied w1 (Hflag _ eq_refl)). reflexivity.
    + rewrite (clearAuthState_resolves w1 (Hflag _ eq_refl)). reflexivity.
Qed.

(** X11.  [me()] with a token held and a request that succeeds: the
    user record is replaced by the one the server described; the tokens
    are untouched.  The one request carries the access token held.
    Where the storage can be read, the record is stored, the listeners
    are told and that user is returned.  Where the page is denied its
    storage, the write throws inside the [try]: [me()] returns [null]
    although the user is set, and no listener is called. *)
Theorem me_success (w : World) (user : JSValue) :
  truthy (_accessToken (auth w)) = true ->
  plain_outcome (head_reply w) = Resolve user ->
  (if storage_denied w then
     result (me w) = Resolve JNull
     /\ notified (after (me w)) = notified w
   else
     result (me w) = Resolve user
     /\ persisted (after (me w))
     /\ listeners_notified (after (me w)))
  /\ session (after (me w)) = (user, _accessToken (auth w), _refreshToken (auth w))
  /\ sent (after (me w))
     = sent w ++ [buildRequest (authedClient (auth w)) me_path (get_options None) w]
  /\ req_headers (buildRequest (authedClient (auth w)) me_path (get_options None) w)
       !! "Authorization"
     = Some (HBearer (_accessToken (auth w))).
Proof.
  intros Htok Hout. rewrite (me_run w Htok), Hout.
  assert (Hhead : req_headers (buildRequest (authedClient (auth w)) me_path
                                 (get_options None) w) !! "Authorization"
                  = Some (HBearer (_accessToken (auth w)))).
  { rewrite authedClient_get_headers. unfold bearer. rewrite Htok. reflexivity. }
  destruct (storage_denied w) eqn:Hrd; cbn [result after fst snd].
  { split; [split; reflexivity|]. split; [reflexivity|].
    split; [reflexivity|exact Hhead]. }
  set (w1 := with_auth (set_currentUser user)
               (fetched (authedClient (auth w)) me_path (get_options None) w)).
  assert (Hrd1 : storage_denied w1 = false) by exact Hrd.
  pose proof (saveToStorage_persists w1) as Hp.
  destruct (saveToStorage_shape w1 Hrd1) as [ls E]. rewrite E in Hp |- *.
  cbn [after snd] in Hp |- *. rewrite notifyListeners_spec. cbn [snd].
  split; [split; [reflexivity|split; [exact Hp|eexists; reflexivity]]|].
  split; [reflexivity|]. split; [reflexivity|exact Hhead].
Qed.

Lemma me_success_witness :
  (truthy (_accessToken (auth (Sample.signed_in [Sample.reply 200 Sample.user1]))) = true
   /\ plain_outcome (head_reply (Sample.signed_in [Sample.reply 200 Sample.user1]))
      = Resolve Sample.user1)
  /\ result (me (Sample.signed_in [Sample.reply 200 Sample.user1]))
     = Resolve Sample.user1.
Proof.
  split; [split; reflexivity|].
  refine (proj1 (proj1 (me_success (Sample.signed_in [Sample.reply 200 Sample.user1])
                          Sample.user1 _ _))); reflexivity.
Defined.

(** X12.  [me()] and [checkAuth()] reject in one case only: the page is
    denied its storage, a token is held and the server answers 401.
    The Session is then cleared inside the [catch], where the error of
    the storage is not caught: both reject with it, the three fields
    being null.  In every other case, whatever the storage, the
    listeners and the network do, [me()] resolves with a user or with
    [null], and [checkAuth()] with whether that was not [null]. *)
Theorem me_and_checkAuth_reject_only_unauthorized_without_storage (w : World) :
  if storage_denied w && unauthorized w then
    result (me w) = Reject StorageError
    /\ result (checkAuth w) = Reject StorageError
    /\ session (after (me w)) = (JNull, JNull, JNull)
  else
    exists user,
      result (me w) = Resolve user
      /\ result (checkAuth w) = Resolve (not_null user).
Proof.
  unfold checkAuth, unauthorized. run_step.
  destruct (truthy (_accessToken (auth w))) eqn:Htok.
  - rewrite (me_run w Htok).
    destruct (plain_outcome (head_reply w)) as [user|error].
    + rewrite andb_false_r.
      destruct (storage_denied w); eexists; split; reflexivity.
    + destruct error as [e| | | | | | |];
        try (rewrite andb_false_r; exists JNull; split; reflexivity).
      destruct (MitraApiError.status e =? 401);
        [|rewrite andb_false_r; exists JNull; split; reflexivity].
      destruct (storage_denied w); cbn [andb].
      * repeat split; reflexivity.
      * exists JNull. split; reflexivity.
  - rewrite andb_false_r, (me_without_token w Htok). exists JNull. split; reflexivity.
Qed.

(** *** setToken *)

(** X13.  The documented use of [setToken]: a non-empty token is set,
    then [me()] is called and answered.  The request carries that token;
    the Session then holds the fetched user with that token, and
    [isAuthenticated] is true when the user is not [null].  Where the
    storage can be read, [setToken] returns and [me()] resolves with
    that user.  Where the page is denied its storage, [setToken] throws
    the error of the storage unless it was told not to save, and
    [me()] resolves with [null]. *)
Theorem setToken_then_me (token : string) (persist : option bool) (w : World)
    (user : JSValue) :
  token <> "" ->
  plain_outcome (head_reply w) = Resolve user ->
  result (setToken token persist w)
  = (if storage_denied w && default true persist then Reject StorageError
     else Resolve tt)
  /\ result (me (after (setToken token persist w)))
     = (if storage_denied w then Resolve JNull else Resolve user)
  /\ session (after (me (after (setToken token persist w))))
     = (user, JStr token, _refreshToken (auth w))
  /\ isAuthenticated (after (me (after (setToken token persist w)))) = not_null user
  /\ exists request,
       sent (after (me (after (setToken token persist w)))) = sent w ++ [request]
       /\ req_headers request !! "Authorization" = Some (HBearer (JStr token)).
Proof.
  intros Hne Hout.
  assert (Hshape : exists ls,
            after (setToken token persist w)
            = with_localStorage ls (with_auth (set_accessToken (JStr token)) w)
            /\ storage_denied
                 (with_localStorage ls (with_auth (set_accessToken (JStr token)) w))
               = storage_denied w
            /\ result (setToken token persist w)
               = (if storage_denied w && default true persist then Reject StorageError
                  else Resolve tt)).
  { unfold setToken. run_step.
    set (w1 := with_auth (set_accessToken (JStr token)) w).
    assert (Hsame : with_localStorage (localStorage w) w1 = w1)
      by (destruct w; reflexivity).
    destruct (default true persist).
    - rewrite andb_true_r. destruct (storage_denied w) eqn:Hrd.
      + rewrite (saveToStorage_denied w1 Hrd). exists (localStorage w).
        rewrite Hsame. repeat split. exact Hrd.
      + pose proof (saveToStorage_flag w1) as Hflag.
        destruct (saveToStorage_shape w1 Hrd) as [ls E]. rewrite E in Hflag |- *.
        exists ls. split; [reflexivity|]. split; [|reflexivity].
        cbn [after snd] in Hflag. rewrite Hflag. exact Hrd.
    - rewrite andb_false_r. exists (localStorage w). rewrite Hsame.
      repeat split. }
  destruct Hshape as (ls & -> & Hflag & Hset).
  set (w1 := with_localStorage ls (with_auth (set_accessToken (JStr token)) w)) in *.
  assert (Htok : truthy (_accessToken (auth w1)) = true).
  { cbn. apply negb_true_iff, String.eqb_neq. exact Hne. }
  assert (Hhead : req_headers (buildRequest (authedClient (auth w1)) me_path
                                 (get_options None) w1) !! "Authorization"
                  = Some (HBearer (JStr token))).
  { rewrite authedClient_get_headers. unfold bearer.
    change (_accessToken (auth w1)) with (JStr token) in Htok |- *.
    rewrite Htok. reflexivity. }
  split; [exact Hset|].
  rewrite (me_run w1 Htok).
  replace (plain_outcome (head_reply w1)) with (Resolve (A:=JSValue) user)
    by (symmetry; exact Hout).
  rewrite Hflag. destruct (storage_denied w) eqn:Hrd; cbn [result after fst snd].
  { split; [reflexivity|]. split; [reflexivity|].
    split; [unfold isAuthenticated; cbn; apply andb_true_r|].
    eexists. split; [reflexivity|exact Hhead]. }
  set (w2 := with_auth (set_currentUser user)
               (fetched (authedClient (auth w1)) me_path (get_options None) w1)).
  assert (Hrd2 : storage_denied w2 = false) by exact Hflag.
  destruct (saveToStorage_shape w2 Hrd2) as [ls2 E]. rewrite E.
  cbn [after snd]. rewrite notifyListeners_spec. cbn [snd].
  split; [reflexivity|]. split; [reflexivity|].
  split; [unfold isAuthenticated; cbn; apply andb_true_r|].
  eexists. split; [reflexivity|exact Hhead].
Qed.

Lemma setToken_then_me_witness :
  ("sso-token" <> ""
   /\ plain_outcome (head_reply (Sample.world0 [Sample.reply 200 Sample.user1]))
      = Resolve Sample.user1)
  /\ isAuthenticated
       (after (me (after (setToken "sso-token" None
                            (Sample.world0 [Sample.reply 200 Sample.user1])))))
     = true.
Proof.
  split; [split; [discriminate|reflexivity]|].
  refine (proj1 (proj2 (proj2 (proj2 (setToken_then_me "sso-token" None
                   (Sample.world0 [Sample.reply 200 Sample.user1]) Sample.user1 _ _)))));
    [discriminate|reflexivity].
Defined.

(** *** Listeners *)

Lemma listeners_delete_fresh handle ls :
  existsb (fun l => Nat.eqb (lid l) handle) ls = false ->
  listeners_delete handle ls = ls.
Proof.
  unfold listeners_delete. induction ls as [|l ls IH]; [reflexivity|].
  cbn. intros H. apply orb_false_elim in H as [Hl Hls].
  rewrite Hl. cbn. f_equal. apply IH, Hls.
Qed.

Lemma listeners_delete_app handle ls ls' :
  listeners_delete handle (ls ++ ls')
  = listeners_delete handle ls ++ listeners_delete handle ls'.
Proof. apply List.filter_app. Qed.

(** After the unsubscribe function has run, a [signOut] calls the
    remaining listeners, each once, in their order, with [null]; where
    the page is denied its storage it calls none. *)
Lemma signOut_after_unsubscribe handle redirectUrl w :
  notified (after (signOut redirectUrl (after (unsubscribe handle w))))
  = notified w
      ++ (if storage_denied w then []
          else List.map (fun l => (lid l, JNull))
                 (listeners_delete handle (listeners (auth w)))).
Proof.
  unfold unsubscribe, modify. cbn [after snd].
  set (w1 := with_auth _ w).
  assert (Hflag : storage_denied w1 = storage_denied w) by reflexivity.
  unfold signOut. run_step.
  destruct (storage_denied w) eqn:Hrd.
  { rewrite (clearAuthState_denied w1 Hflag). cbn. symmetry. apply app_nil_r. }
  rewrite (clearAuthState_after w1 Hflag). cbn [after snd].
  match goal with |- context [removeFromStorage ?w2] =>
    destruct (removeFromStorage_shape w2 Hflag) as [ls E]; rewrite E end.
  cbn [snd]. rewrite notifyListeners_spec. cbn [snd].
  destruct (window _) as [href|], redirectUrl as [target|]; try reflexivity.
  destruct (negb (String.eqb target "")); reflexivity.
Qed.

(** X14.  Subscription and its undoing.  A callback that is not yet
    registered and returns normally is called at once, once, with the
    current user, and is added after the listeners already there.  The
    function returned by [onAuthStateChange] restores the listeners
    exactly as they were: at a later [signOut] the listeners that were
    there before are called, each once, in their order, with [null], and
    the unsubscribed callback is not.  (Where the page is denied its
    storage, that [signOut] throws before it calls any listener.) *)
Theorem unsubscribe_undoes_onAuthStateChange (callback : Listener)
    (redirectUrl : option string) (w : World) :
  existsb (fun l => Nat.eqb (lid l) (lid callback)) (listeners (auth w)) = false ->
  reaction callback (_currentUser (auth w)) = None ->
  exists handle w1,
    onAuthStateChange callback w = (Resolve handle, w1)
    /\ notified w1 = notified w ++ [(lid callback, _currentUser (auth w))]
    /\ listeners (auth w1) = listeners (auth w) ++ [callback]
    /\ listeners (auth (after (unsubscribe handle w1))) = listeners (auth w)
    /\ notified (after (signOut redirectUrl (after (unsubscribe handle w1))))
       = notified w1
           ++ (if storage_denied w then []
               else List.map (fun l => (lid l, JNull)) (listeners (auth w))).
Proof.
  intros Hfresh Hquiet.
  assert (Hdel : listeners_delete (lid callback) (listeners (auth w) ++ [callback])
                 = listeners (auth w)).
  { rewrite listeners_delete_app, (listeners_delete_fresh _ _ Hfresh).
    unfold listeners_delete. cbn. rewrite Nat.eqb_refl. cbn. apply app_nil_r. }
  assert (Hrun : exists w1,
            onAuthStateChange callback w = (Resolve (lid callback), w1)
            /\ notified w1 = notified w ++ [(lid callback, _currentUser (auth w))]
            /\ listeners (auth w1) = listeners (auth w) ++ [callback]
            /\ storage_denied w1 = storage_denied w).
  { unfold onAuthStateChange, call_listener, listeners_add. run_step.
    cbn [auth with_auth with_notified notified _currentUser set_listeners listeners].
    rewrite Hquiet. eexists. split; [reflexivity|]. split; [reflexivity|].
    cbn [auth with_auth with_notified set_listeners listeners]. rewrite Hfresh.
    split; reflexivity. }
  destruct Hrun as (w1 & Hrun & Hnotified & Hlisteners & Hflag).
  exists (lid callback), w1. split; [exact Hrun|]. split; [exact Hnotified|].
  split; [exact Hlisteners|]. split.
  - unfold unsubscribe, modify. cbn [after snd auth with_auth set_listeners listeners].
    rewrite Hlisteners. exact Hdel.
  - rewrite signOut_after_unsubscribe, Hlisteners, Hdel, Hflag. reflexivity.
Qed.

Lemma unsubscribe_undoes_onAuthStateChange_witness :
  (existsb (fun l => Nat.eqb (lid l) (lid Sample.quiet_listener))
     (listeners (auth (with_auth (set_listeners [Sample.faulty_listener])
                         (Sample.signed_in [])))) = false
   /\ reaction Sample.quiet_listener
        (_currentUser (auth (with_auth (set_listeners [Sample.faulty_listener])
                               (Sample.signed_in [])))) = None)
  /\ exists handle w1,
       onAuthStateChange Sample.quiet_listener
         (with_auth (set_listeners [Sample.faulty_listener]) (Sample.signed_in []))
       = (Resolve handle, w1)
       /\ notified w1 = [(8%nat, Sample.user1)]
       /\ listeners (auth w1) = [Sample.faulty_listener; Sample.quiet_listener]
       /\ listeners (auth (after (unsubscribe handle w1))) = [Sample.faulty_listener]
       /\ notified (after (signOut None (after (unsubscribe handle w1))))
          = notified w1 ++ [(7%nat, JNull)].
Proof.
  split; [split; reflexivity|].
  apply (unsubscribe_undoes_onAuthStateChange Sample.quiet_listener None
           (with_auth (set_listeners [Sample.faulty_listener]) (Sample.signed_in [])));
    reflexivity.
Defined.

(** *** redirectToLogin *)

Lemma list_ascii_of_string_app a b :
  list_ascii_of_string (a +:+ b) = list_ascii_of_string a ++ list_ascii_of_string b.
Proof.
  induction a as [|c a IH]; [reflexivity|].
  rewrite append_cons. cbn. f_equal. exact IH.
Qed.

Lemma encoded_unit_escaped c :
  forallb escaped
    (list_ascii_of_string (if unreserved c then String c EmptyString else percent_encode c))
  = true.
Proof. destruct c as [[] [] [] [] [] [] [] []]; vm_compute; reflexivity. Qed.

Lemma encodeURIComponent_escaped s :
  forallb escaped (list_ascii_of_string (encodeURIComponent s)) = true.
Proof.
  induction s as [|c s IH]; [reflexivity|].
  cbn [encodeURIComponent]. rewrite list_ascii_of_string_app, forallb_app.
  rewrite encoded_unit_escaped, IH. reflexivity.
Qed.

Lemma unescape_unit c rest :
  unescape ((if unreserved c then String c EmptyString else percent_encode c) +:+ rest)
  = String c (unescape rest).
Proof. destruct c as [[] [] [] [] [] [] [] []]; reflexivity. Qed.

Lemma unescape_encodeURIComponent s : unescape (encodeURIComponent s) = s.
Proof.
  induction s as [|c s IH]; [reflexivity|].
  cbn [encodeURIComponent]. rewrite unescape_unit, IH. reflexivity.
Qed.

(** X15.  [redirectToLogin] does nothing outside a browser.  In a
    browser it sends the page to [/login?returnUrl=] followed by the
    encoded return URL ([/] when none is given).  The encoded text is
    made of unreserved characters and [%XX] escapes only: whatever the
    return URL holds, it adds no [&], [=], [#], [?] or [/] to the
    address.  Reading the escapes back gives the return URL again, so
    different return URLs lead to different addresses. *)
Theorem redirectToLogin_address (returnUrl : option string) (w : World) :
  exists encoded,
    redirectToLogin returnUrl w
    = (Resolve tt,
       match window w with
       | Some _ => with_window (Some ("/login?returnUrl=" +:+ encoded)) w
       | None => w
       end)
    /\ forallb escaped (list_ascii_of_string encoded) = true
    /\ forallb (fun c => negb (escaped c)) (list_ascii_of_string "&=#?/ +") = true
    /\ unescape encoded = default "/" returnUrl.
Proof.
  exists (encodeURIComponent (default "/" returnUrl)).
  split; [|split; [apply encodeURIComponent_escaped|split;
                     [reflexivity|apply unescape_encodeURIComponent]]].
  unfold redirectToLogin. run_step. destruct (window w); reflexivity.
Qed.

(** *** The constructor *)

(** The constructor builds a fresh module; it fails only where reading the
    global [localStorage] throws. *)
Lemma new_AuthModule_shape (app iam : string) (w : World) :
  result (new_AuthModule app iam w)
  = (if storage_denied w then Reject StorageError else Resolve tt)
  /\ appId (auth (after (new_AuthModule app iam w))) = app
  /\ iamBaseUrl (auth (after (new_AuthModule app iam w))) = iam
  /\ refreshPromise (auth (after (new_AuthModule app iam w))) = None
  /\ listeners (auth (after (new_AuthModule app iam w))) = []
  /\ sent (after (new_AuthModule app iam w)) = sent w.
Proof.
  unfold new_AuthModule. run_step.
  set (w0 := with_auth _ w).
  assert (Hflag : storage_denied w0 = storage_denied w) by reflexivity.
  destruct (storage_denied w) eqn:Hrd.
  { rewrite (loadFromStorage_denied w0 Hflag). repeat split; reflexivity. }
  unfold loadFromStorage, localStorage_is_undefined, localStorage_getItem. run_step.
  unfold storage_denied in Hrd.
  assert (Hls0 : localStorage w0 = localStorage w) by reflexivity.
  rewrite Hls0.
  destruct (localStorage w) as [st|] eqn:Hls; [|repeat split; reflexivity].
  rewrite Hrd. cbv beta iota. rewrite Hls0, Hrd. cbn [orb].
  destruct (disabled st) eqn:Hd.
  { match goal with |- context [removeFromStorage ?x] =>
      destruct (removeFromStorage_shape x Hflag) as [ls E]; rewrite E end.
    repeat split; reflexivity. }
  destruct (items st !! storageKey (auth w0)) as [text|]; [|repeat split; reflexivity].
  destruct (text_truthy text); [|repeat split; reflexivity].
  destruct (JSON_parse text) as [parsed|e].
  2:{ match goal with |- context [removeFromStorage ?x] =>
        destruct (removeFromStorage_shape x Hflag) as [ls E]; rewrite E end.
      repeat split; reflexivity. }
  cbv beta iota.
  destruct (getprop parsed "user") as [user|e] eqn:Hu.
  2:{ match goal with |- context [removeFromStorage ?x] =>
        destruct (removeFromStorage_shape x Hflag) as [ls E]; rewrite E end.
      repeat split; reflexivity. }
  destruct (getprop parsed "token") as [token|e] eqn:Ht;
    [|destruct parsed; discriminate].
  destruct (getprop parsed "refreshToken") as [refreshToken|e] eqn:Hr;
    [|destruct parsed; discriminate].
  repeat split; reflexivity.
Qed.

(** X16.  The constructor fails in one case only: the page is denied its
    storage, so that reading the global [localStorage] throws, which the
    constructor does outside its [try].  In every other case it returns,
    whatever it finds: no [localStorage], a storage whose methods throw,
    no record, a record that cannot be read.  It makes no network call;
    the module it sets up has no listener and no refresh pending. *)
Theorem new_AuthModule_fails_only_without_storage (app iam : string) (w : World) :
  result (new_AuthModule app iam w)
  = (if storage_denied w then Reject StorageError else Resolve tt)
  /\ appId (auth (after (new_AuthModule app iam w))) = app
  /\ iamBaseUrl (auth (after (new_AuthModule app iam w))) = iam
  /\ refreshPromise (auth (after (new_AuthModule app iam w))) = None
  /\ listeners (auth (after (new_AuthModule app iam w))) = []
  /\ sent (after (new_AuthModule app iam w)) = sent w.
Proof. apply new_AuthModule_shape. Qed.

(** X17.  A stored record that cannot be read (a text that is no JSON,
    or the JSON text [null]) is removed from the storage by the
    constructor, and the Session starts empty. *)
Theorem new_AuthModule_drops_unreadable_record (app iam : string) (w : World)
    (st : Storage) (text : Text) :
  localStorage w = Some st ->
  denied st = false ->
  disabled st = false ->
  items st !! ("mitra_auth_" +:+ app) = Some text ->
  unreadable text = true ->
  session (after (new_AuthModule app iam w)) = (JNull, JNull, JNull)
  /\ localStorage (after (new_AuthModule app iam w))
     = Some {| items := delete ("mitra_auth_" +:+ app) (items st);
               full := full st; disabled := false; denied := false |}.
Proof.
  intros Hls Hdn Hd Hitem Hbad.
  unfold new_AuthModule, loadFromStorage, localStorage_is_undefined,
    localStorage_getItem. run_step.
  set (w0 := with_auth _ w).
  assert (Hls0 : localStorage w0 = Some st) by exact Hls.
  assert (Hkey : storageKey (auth w0) = "mitra_auth_" +:+ app) by reflexivity.
  assert (Hrm : removeFromStorage w0
                = (Resolve tt,
                   with_localStorage
                     (Some {| items := delete ("mitra_auth_" +:+ app) (items st);
                              full := full st; disabled := false;
                              denied := false |}) w0)).
  { rewrite removeFromStorage_run, Hls0, Hdn, Hd. unfold removed.
    rewrite Hkey, Hdn, Hd. reflexivity. }
  rewrite Hls0, Hdn. cbv beta iota. rewrite Hls0, Hdn, Hd, Hkey, Hitem.
  cbn [orb]. cbv beta iota.
  destruct text as [doc|raw]; cbn in Hbad.
  - destruct doc; try discriminate; cbn [text_truthy JSON_parse getprop];
      cbv beta iota; rewrite Hrm; split; reflexivity.
  - cbn [text_truthy]. rewrite Hbad. cbn [JSON_parse]. cbv beta iota.
    rewrite Hrm. split; reflexivity.
Qed.

Lemma new_AuthModule_drops_unreadable_record_witness :
  (localStorage
     (with_localStorage
        (Some {| items := {[ "mitra_auth_app-1" := JsonText JNull ]};
                 full := false; disabled := false; denied := false |})
        (Sample.signed_in []))
   = Some {| items := {[ "mitra_auth_app-1" := JsonText JNull ]};
             full := false; disabled := false; denied := false |}
   /\ denied {| items := {[ "mitra_auth_app-1" := JsonText JNull ]};
                full := false; disabled := false; denied := false |} = false
   /\ disabled {| items := {[ "mitra_auth_app-1" := JsonText JNull ]};
                  full := false; disabled := false; denied := false |} = false
   /\ ({[ "mitra_auth_app-1" := JsonText JNull ]} : gmap string Text)
        !! ("mitra_auth_" +:+ "app-1") = Some (JsonText JNull)
   /\ unreadable (JsonText JNull) = true)
  /\ session
       (after (new_AuthModule "app-1" "https://api.mitra.io/iam"
                 (with_localStorage
                    (Some {| items := {[ "mitra_auth_app-1" := JsonText JNull ]};
                             full := false; disabled := false; denied := false |})
                    (Sample.signed_in []))))
     = (JNull, JNull, JNull).
Proof.
  split; [repeat split; reflexivity|].
  refine (proj1 (new_AuthModule_drops_unreadable_record "app-1"
                   "https://api.mitra.io/iam"
                   (with_localStorage
                      (Some {| items := {[ "mitra_auth_app-1" := JsonText JNull ]};
                               full := false; disabled := false; denied := false |})
                      (Sample.signed_in []))
                   {| items := {[ "mitra_auth_app-1" := JsonText JNull ]};
                      full := false; disabled := false; denied := false |}
                   (JsonText JNull) _ _ _ _ _)); reflexivity.
Defined.

(** X18.  Stored sessions are kept per application.  After one module
    has stored its Session, a module constructed for another application
    identifier over the same storage starts empty, and the record of the
    first is still there, as it was written. *)
Theorem stored_sessions_are_per_application (w : World) (st : Storage)
    (app iam : string) :
  localStorage w = Some st ->
  usable st = true ->
  app <> appId (auth w) ->
  items st !! ("mitra_auth_" +:+ app) = None ->
  session (after (new_AuthModule app iam (after (saveToStorage w))))
  = (JNull, JNull, JNull)
  /\ exists st',
       localStorage (after (new_AuthModule app iam (after (saveToStorage w)))) = Some st'
       /\ items st' !! storageKey (auth w) = JSON_stringify (stored_record (auth w)).
Proof.
  intros Hls Hus Hne Hnone.
  unfold usable in Hus. apply andb_prop in Hus as [Hus Hf].
  apply andb_prop in Hus as [Hdn Hd].
  apply negb_true_iff in Hdn, Hd, Hf.
  assert (Hsave : saveToStorage w
                  = (Resolve tt, with_localStorage (Some (written (auth w) st)) w)).
  { rewrite saveToStorage_run, Hls, Hdn, Hd, Hf. reflexivity. }
  rewrite Hsave. cbn [after snd].
  set (st1 := written (auth w) st).
  set (ws := with_localStorage (Some st1) w).
  unfold new_AuthModule, loadFromStorage, localStorage_is_undefined,
    localStorage_getItem. run_step.
  set (w0 := with_auth _ ws).
  assert (Hls0 : localStorage w0 = Some st1) by reflexivity.
  assert (Hkey : storageKey (auth w0) = "mitra_auth_" +:+ app) by reflexivity.
  assert (Hitem : items st1 !! ("mitra_auth_" +:+ app) = None).
  { unfold st1, written. cbn [items]. rewrite lookup_insert_ne; [exact Hnone|].
    unfold storageKey. intros E. apply append_inj_l in E. congruence. }
  assert (Hdn1 : denied st1 = false) by exact Hdn.
  assert (Hd1 : disabled st1 = false) by exact Hd.
  rewrite Hls0, Hdn1. cbv beta iota. rewrite Hls0, Hdn1, Hd1, Hkey, Hitem.
  cbn [orb]. cbv beta iota.
  split; [reflexivity|].
  exists st1. split; [reflexivity|]. unfold st1, written. cbn [items].
  apply lookup_insert_eq.
Qed.

Lemma stored_sessions_are_per_application_witness :
  (localStorage (Sample.signed_in []) = Some Sample.storage0
   /\ usable Sample.storage0 = true
   /\ "app-2" <> appId (auth (Sample.signed_in []))
   /\ items Sample.storage0 !! ("mitra_auth_" +:+ "app-2") = None)
  /\ session (after (new_AuthModule "app-2" "https://api.mitra.io/iam"
                       (after (saveToStorage (Sample.signed_in [])))))
     = (JNull, JNull, JNull).
Proof.
  split; [repeat split; (reflexivity || discriminate)|].
  refine (proj1 (stored_sessions_are_per_application (Sample.signed_in [])
                   Sample.storage0 "app-2" "https://api.mitra.io/iam" _ _ _ _));
    (reflexivity || discriminate).
Defined.

(** *** The refresh request *)

Lemma clearAuthState_sent w : sent (after (clearAuthState w)) = sent w.
Proof.
  destruct (storage_denied w) eqn:Hd.
  - rewrite (clearAuthState_denied w Hd). reflexivity.
  - destruct (clearAuthState_shape w Hd) as (ls & co & n & E). rewrite E. reflexivity.
Qed.

Ltac cleared_calls :=
  match goal with
  | |- context [clearAuthState ?w1] =>
      let Hs := fresh "Hs" in let r := fresh "r" in let w' := fresh "w'" in
      pose proof (clearAuthState_sent w1) as Hs;
      destruct (clearAuthState w1) as [[[]|r] w']; cbn [after snd] in Hs |- *;
      rewrite Hs
  end.

Lemma doRefresh_sent w :
  exists later,
    sent (after (doRefresh w))
    = sent w
        ++ buildRequest (publicClient (auth w)) refresh_path
             (post_options (JObj [("refreshToken", _refreshToken (auth w))])) w
        :: later
    /\ (length later <= 1)%nat.
Proof.
  unfold doRefresh, post, get. run_step. plain_request.
  destruct (plain_outcome (head_reply w)) as [tokenResponse|e].
  2:{ cleared_calls; exists []; (split; [reflexivity|cbn; lia]). }
  destruct (getprop tokenResponse "accessToken") as [a|e1].
  2:{ cleared_calls; exists []; (split; [reflexivity|cbn; lia]). }
  destruct (getprop tokenResponse "refreshToken") as [rt|e2].
  2:{ cleared_calls; exists []; (split; [reflexivity|cbn; lia]). }
  plain_request.
  match goal with |- context [plain_outcome (head_reply ?w1)] =>
    destruct (plain_outcome (head_reply w1)) as [user|e3] end.
  2:{ cleared_calls; eexists [_];
        (split; [cbn; rewrite <- app_assoc; reflexivity|cbn; lia]). }
  match goal with |- context [setAuthState ?u ?t ?r ?w1] =>
    pose proof (setAuthState_sent u t r w1) as Hset;
    pose proof (setAuthState_rejects u t r w1) as Hrej;
    destruct (setAuthState u t r w1) as [[[]|err] w2] end;
    cbn [after snd] in Hset |- *.
  - rewrite Hset. eexists [_].
    split; [cbn; rewrite <- app_assoc; reflexivity|cbn; lia].
  - rewrite (Hrej _ _ eq_refl). cleared_calls; eexists [_];
      (split; [cbn; rewrite <- app_assoc; reflexivity|cbn; lia]).
Qed.

(** X19.  A refresh started from a quiet state first posts the refresh
    token held to the refresh endpoint, on the public client: that call
    carries no [Authorization] header, so the expired access token is
    not sent with it.  At most one more call follows (the current-user
    request). *)
Theorem refreshSession_request (w : World) :
  truthy (_refreshToken (auth w)) = true ->
  refreshPromise (auth w) = None ->
  exists refresh_request later,
    sent (after (refreshSession w)) = sent w ++ refresh_request :: later
    /\ refresh_request
       = buildRequest (publicClient (auth w)) refresh_path
           (post_options (JObj [("refreshToken", _refreshToken (auth w))])) w
    /\ req_method refresh_request = POST
    /\ req_body refresh_request
       = JSON_stringify (JObj [("refreshToken", _refreshToken (auth w))])
    /\ req_headers refresh_request !! "Authorization" = None
    /\ (length later <= 1)%nat.
Proof.
  intros Htok Hmark. rewrite (refreshSession_is_doRefresh w Htok Hmark).
  destruct (doRefresh_sent w) as (later & Hsent & Hlen).
  eexists _, later. split; [exact Hsent|]. split; [reflexivity|].
  split; [reflexivity|]. split; [reflexivity|].
  split; [apply publicClient_headers; reflexivity|exact Hlen].
Qed.

Lemma refreshSession_request_witness :
  (truthy (_refreshToken (auth (Sample.signed_in [Sample.reply 401 (JObj [])]))) = true
   /\ refreshPromise (auth (Sample.signed_in [Sample.reply 401 (JObj [])])) = None)
  /\ exists refresh_request later,
       sent (after (refreshSession (Sample.signed_in [Sample.reply 401 (JObj [])])))
       = sent (Sample.signed_in [Sample.reply 401 (JObj [])]) ++ refresh_request :: later
       /\ refresh_request
          = buildRequest (publicClient (auth (Sample.signed_in [Sample.reply 401 (JObj [])])))
              refresh_path (post_options (JObj [("refreshToken", JStr "r1")]))
              (Sample.signed_in [Sample.reply 401 (JObj [])])
       /\ req_method refresh_request = POST
       /\ req_body refresh_request
          = JSON_stringify (JObj [("refreshToken", JStr "r1")])
       /\ req_headers refresh_request !! "Authorization" = None
       /\ (length later <= 1)%nat.
Proof.
  split; [split; reflexivity|].
  apply (refreshSession_request (Sample.signed_in [Sample.reply 401 (JObj [])]));
    reflexivity.
Defined.

(* ===================================================================== *)
(** ** Properties of the resource modules and of createClient *)
(* ===================================================================== *)

(** *** The table cache of EntitiesModule *)

Section Tables.

Variable Number_toString : spec_float -> string.

Lemma table_step_keeps m op :
  cache_is_current Number_toString m ->
  cache_is_current Number_toString (table_step Number_toString m op).
Proof.
  intros H. destruct op as [tableName|dataSourceId]; cbn.
  - unfold EntitiesModule.getTable.
    destruct (EntitiesModule.tableProxies m !! tableName) as [table|] eqn:Hc;
      [exact H|].
    cbn. intros name table. cbn. destruct (decide (name = tableName)) as [->|Hne].
    + rewrite lookup_insert_eq. intros [= <-]. reflexivity.
    + rewrite lookup_insert_ne by congruence. apply H.
  - intros name table. cbn. rewrite lookup_empty. discriminate.
Qed.

Lemma table_run_keeps ops m :
  cache_is_current Number_toString m ->
  cache_is_current Number_toString (fold_left (table_step Number_toString) ops m).
Proof.
  revert m. induction ops as [|op ops IH]; intros m H; [exact H|].
  cbn. apply IH, table_step_keeps, H.
Qed.

(** X20.  Whatever tables were asked for and whatever data sources
    were set since the module was built, [getTable] hands out an
    accessor for the data source that is current: a change of data
    source leaves no accessor of the former one in the cache. *)
Theorem getTable_is_for_the_current_data_source (c : HttpClient)
    (dataSourceId : JSValue) (ops : list TableOp) (tableName : string) :
  EntitiesModule.basePath
    (fst (EntitiesModule.getTable Number_toString tableName
            (fold_left (table_step Number_toString) ops
               (EntitiesModule.new c dataSourceId))))
  = "/api/v1/data-sources/"
      +:+ ToString Number_toString
            (EntitiesModule.dataSourceId
               (fold_left (table_step Number_toString) ops
               (EntitiesModule.new c dataSourceId)))
      +:+ "/tables/" +:+ tableName +:+ "/records".
Proof.
  set (m := fold_left (table_step Number_toString) ops (EntitiesModule.new c dataSourceId)).
  assert (H : cache_is_current Number_toString m).
  { apply table_run_keeps. intros name table. cbn. rewrite lookup_empty. discriminate. }
  unfold EntitiesModule.getTable.
  destruct (EntitiesModule.tableProxies m !! tableName) as [table|] eqn:Hc.
  - cbn [fst]. rewrite (H _ _ Hc). reflexivity.
  - reflexivity.
Qed.

(** *** EntityTable.list *)

(** X21.  The two forms of [list] agree.  Given an options object whose
    [sort] is a string or is missing, [list] behaves as the positional
    call with the [sort], [limit], [skip] and [fields] of that object;
    the positional arguments that follow an options object are ignored. *)
Theorem list_options_are_the_positional_arguments (m : EntitiesModule.t)
    (table : EntitiesModule.EntityTable) (options : list (string * JSValue))
    (first : SortOrOptions) (limit skip fields : JSValue) (w : World) :
  sort_of (own "sort" options) = Some first ->
  EntitiesModule.list_ Number_toString m table (Options options) limit skip fields w
  = EntitiesModule.list_ Number_toString m table first
      (own "limit" options) (own "skip" options) (own "fields" options) w.
Proof.
  intros H. unfold EntitiesModule.list_, EntitiesModule.list_params.
  destruct (own "sort" options); try discriminate; injection H as <-; reflexivity.
Qed.

End Tables.

Lemma list_options_are_the_positional_arguments_witness :
  sort_of (own "sort" [("limit", num 10); ("sort", JStr "-created_at")])
  = Some (Sort "-created_at")
  /\ EntitiesModule.list_ Demo.Number_toString (entities Demo.client)
       {| EntitiesModule.basePath := "/api/v1/data-sources/ds-1/tables/Task/records" |}
       (Options [("limit", num 10); ("sort", JStr "-created_at")])
       (num 99) (num 5) (JArr [JStr "id"])
       (Sample.signed_in [Sample.reply 200 (JObj [("data", JArr [])])])
     = EntitiesModule.list_ Demo.Number_toString (entities Demo.client)
         {| EntitiesModule.basePath := "/api/v1/data-sources/ds-1/tables/Task/records" |}
         (Sort "-created_at")
         (own "limit" [("limit", num 10); ("sort", JStr "-created_at")])
         (own "skip" [("limit", num 10); ("sort", JStr "-created_at")])
         (own "fields" [("limit", num 10); ("sort", JStr "-created_at")])
         (Sample.signed_in [Sample.reply 200 (JObj [("data", JArr [])])]).
Proof.
  split; [reflexivity|].
  apply (list_options_are_the_positional_arguments Demo.Number_toString
           (entities Demo.client)
           {| EntitiesModule.basePath := "/api/v1/data-sources/ds-1/tables/Task/records" |}
           [("limit", num 10); ("sort", JStr "-created_at")]
           (Sort "-created_at") (num 99) (num 5) (JArr [JStr "id"])
           (Sample.signed_in [Sample.reply 200 (JObj [("data", JArr [])])])).
  reflexivity.
Defined.

(** *** FunctionsModule and IntegrationModule *)

Lemma fetched_answered c path options w :
  fetched c path options w = answered (buildRequest c path options w) w.
Proof. reflexivity. Qed.

(** X22.  [functions.execute] answered 2xx: one POST to the function's
    execute path.  The body is the JSON text of [{ input }] when an
    input is given, an empty object included; without input, or with a
    falsy one, the call has no body at all. *)
Theorem functions_execute_request (m : FunctionsModule.t) (functionId : string)
    (input : JSValue) (w : World) (r : Response) :
  head_reply w = Responded r ->
  ok r = true ->
  exists req,
    FunctionsModule.execute m functionId input w
    = (if status r =? 204 then Resolve JUndefined else json r, answered req w)
    /\ address (req_url req)
       = baseUrl (FunctionsModule.httpClient m)
           +:+ ("/api/v1/functions/" +:+ functionId +:+ "/execute")
    /\ req_method req = POST
    /\ req_body req
       = if truthy input then Some (JsonText (JObj [("input", jsonify input)]))
         else None.
Proof.
  intros H Hok. unfold FunctionsModule.execute, post.
  rewrite (request_ok _ _ _ _ _ H Hok), fetched_answered.
  eexists. split; [reflexivity|]. split; [reflexivity|]. split; [reflexivity|].
  cbn [buildRequest req_body post_options body].
  destruct (truthy input) eqn:Hin; [|reflexivity].
  destruct input; try discriminate; reflexivity.
Qed.

Lemma functions_execute_request_witness :
  (head_reply (Sample.signed_in [Sample.reply 200 (JObj [("status", JStr "COMPLETED")])])
   = Sample.reply 200 (JObj [("status", JStr "COMPLETED")])
   /\ ok {| status := 200; payload := JsonText (JObj [("status", JStr "COMPLETED")]) |}
      = true)
  /\ exists req,
       FunctionsModule.execute (functions Demo.client) "fn-1" (JObj [])
         (Sample.signed_in [Sample.reply 200 (JObj [("status", JStr "COMPLETED")])])
       = (Resolve (JObj [("status", JStr "COMPLETED")]),
          answered req
            (Sample.signed_in [Sample.reply 200 (JObj [("status", JStr "COMPLETED")])]))
       /\ address (req_url req)
          = "https://api.mitra.io/functions" +:+ "/api/v1/functions/fn-1/execute"
       /\ req_method req = POST
       /\ req_body req = Some (JsonText (JObj [("input", JObj [])])).
Proof.
  split; [split; reflexivity|].
  apply (functions_execute_request (functions Demo.client) "fn-1" (JObj [])
           (Sample.signed_in [Sample.reply 200 (JObj [("status", JStr "COMPLETED")])])
           {| status := 200; payload := JsonText (JObj [("status", JStr "COMPLETED")]) |});
    reflexivity.
Defined.

(** X23.  [queries.execute] answered 2xx: one POST to the execute
    path of the query.  The body always goes with the call; it is the
    JSON text of an object that holds the data source of the module as
    [datasourceId] and the parameters as [parameters], each left out
    when it is [undefined]. *)
Theorem queries_execute_request (m : QueriesModule.t) (id : string)
    (parameters : JSValue) (w : World) (r : Response) :
  head_reply w = Responded r ->
  ok r = true ->
  exists req,
    QueriesModule.execute m id parameters w
    = (if status r =? 204 then Resolve JUndefined else json r, answered req w)
    /\ address (req_url req)
       = baseUrl (QueriesModule.httpClient m)
           +:+ ("/api/v1/custom-queries/" +:+ id +:+ "/execute")
    /\ req_method req = POST
    /\ req_body req
       = Some (JsonText (JObj
           ((if is_undefined (QueriesModule.dataSourceId m) then []
             else [("datasourceId", jsonify (QueriesModule.dataSourceId m))])
            ++ (if is_undefined parameters then []
                else [("parameters", jsonify parameters)])))).
Proof.
  intros H Hok. unfold QueriesModule.execute, post.
  rewrite (request_ok _ _ _ _ _ H Hok), fetched_answered.
  eexists. split; [reflexivity|]. split; [reflexivity|]. split; [reflexivity|].
  cbn [buildRequest req_body post_options body truthy].
  destruct (QueriesModule.dataSourceId m), parameters; reflexivity.
Qed.

Lemma queries_execute_request_witness :
  (head_reply (Sample.signed_in [Sample.reply 200 (JObj [("rows", JArr [])])])
   = Sample.reply 200 (JObj [("rows", JArr [])])
   /\ ok {| status := 200; payload := JsonText (JObj [("rows", JArr [])]) |} = true)
  /\ exists req,
       QueriesModule.execute (queries Demo.client) "q-1" JUndefined
         (Sample.signed_in [Sample.reply 200 (JObj [("rows", JArr [])])])
       = (Resolve (JObj [("rows", JArr [])]),
          answered req (Sample.signed_in [Sample.reply 200 (JObj [("rows", JArr [])])]))
       /\ address (req_url req)
          = "https://api.mitra.io/data-manager" +:+ "/api/v1/custom-queries/q-1/execute"
       /\ req_method req = POST
       /\ req_body req = Some (JsonText (JObj [("datasourceId", JStr "")])).
Proof.
  split; [split; reflexivity|].
  apply (queries_execute_request (queries Demo.client) "q-1" JUndefined
           (Sample.signed_in [Sample.reply 200 (JObj [("rows", JArr [])])])
           {| status := 200; payload := JsonText (JObj [("rows", JArr [])]) |});
    reflexivity.
Defined.

Lemma own_source_set request :
  own "source" (json_fields (set_own "source" (JStr "SDK") request)) = JStr "SDK".
Proof.
  induction request as [|[k x] rest IH]; [reflexivity|].
  cbn [set_own]. destruct (String.eqb "source" k) eqn:Hk.
  - rewrite json_fields_cons. cbn [is_undefined own]. rewrite Hk. reflexivity.
  - rewrite json_fields_cons. destruct x; cbn [is_undefined own]; rewrite ?Hk; exact IH.
Qed.

Lemma own_other_set key request :
  key <> "source" ->
  own key (json_fields (set_own "source" (JStr "SDK") request))
  = own key (json_fields request).
Proof.
  intros Hne. induction request as [|[k x] rest IH].
  - cbn. apply String.eqb_neq in Hne. rewrite Hne. reflexivity.
  - cbn [set_own]. destruct (String.eqb "source" k) eqn:Hk.
    + apply String.eqb_eq in Hk. subst k.
      rewrite !json_fields_cons. apply String.eqb_neq in Hne.
      destruct x; cbn [is_undefined own]; rewrite ?Hne; reflexivity.
    + rewrite !json_fields_cons.
      destruct x; cbn [is_undefined own]; try exact IH; rewrite IH; reflexivity.
Qed.

(** X24.  [integration.execute] answered 2xx: one POST to the proxy
    path of the configuration, whose body is the JSON text of the request
    object with [source] set to [SDK]: a [source] given by the caller is
    overwritten, every other property is passed on as
    [JSON.stringify] writes it. *)
Theorem integration_execute_request (m : IntegrationModule.t) (configId : string)
    (request : list (string * JSValue)) (w : World) (r : Response) :
  head_reply w = Responded r ->
  ok r = true ->
  exists req fields,
    IntegrationModule.execute m configId request w
    = (if status r =? 204 then Resolve JUndefined else json r, answered req w)
    /\ address (req_url req)
       = baseUrl (IntegrationModule.httpClient m)
           +:+ ("/api/v1/proxy/" +:+ configId +:+ "/execute")
    /\ req_method req = POST
    /\ req_body req = Some (JsonText (JObj fields))
    /\ own "source" fields = JStr "SDK"
    /\ forall key, key <> "source" -> own key fields = own key (json_fields request).
Proof.
  intros H Hok. unfold IntegrationModule.execute, post.
  rewrite (request_ok _ _ _ _ _ H Hok), fetched_answered.
  exists (buildRequest (IntegrationModule.httpClient m)
            ("/api/v1/proxy/" +:+ configId +:+ "/execute")
            (post_options (JObj (set_own "source" (JStr "SDK") request))) w),
         (json_fields (set_own "source" (JStr "SDK") request)).
  split; [reflexivity|]. split; [reflexivity|]. split; [reflexivity|].
  split; [reflexivity|]. split; [apply own_source_set|].
  intros key Hne. apply own_other_set, Hne.
Qed.

Lemma integration_execute_request_witness :
  (head_reply (Sample.signed_in [Sample.reply 200 (JObj [("status", num 200)])])
   = Sample.reply 200 (JObj [("status", num 200)])
   /\ ok {| status := 200; payload := JsonText (JObj [("status", num 200)]) |} = true)
  /\ exists req fields,
       IntegrationModule.execute (integration Demo.client) "cfg-1"
         [("method", JStr "GET"); ("source", JStr "app"); ("endpoint", JStr "/users")]
         (Sample.signed_in [Sample.reply 200 (JObj [("status", num 200)])])
       = (Resolve (JObj [("status", num 200)]),
          answered req (Sample.signed_in [Sample.reply 200 (JObj [("status", num 200)])]))
       /\ address (req_url req)
          = "https://api.mitra.io/integration" +:+ "/api/v1/proxy/cfg-1/execute"
       /\ req_method req = POST
       /\ req_body req = Some (JsonText (JObj fields))
       /\ own "source" fields = JStr "SDK"
       /\ forall key, key <> "source" ->
            own key fields
            = own key (json_fields [("method", JStr "GET"); ("source", JStr "app");
                                    ("endpoint", JStr "/users")]).
Proof.
  split; [split; reflexivity|].
  apply (integration_execute_request (integration Demo.client) "cfg-1"
           [("method", JStr "GET"); ("source", JStr "app"); ("endpoint", JStr "/users")]
           (Sample.signed_in [Sample.reply 200 (JObj [("status", num 200)])])
           {| status := 200; payload := JsonText (JObj [("status", num 200)]) |});
    reflexivity.
Defined.

(** *** init *)

Lemma append_nil_r s : s +:+ "" = s.
Proof. induction s as [|c s IH]; [reflexivity|]. rewrite append_cons, IH. reflexivity. Qed.

Lemma ends_with_append c a b :
  b <> "" -> ends_with c (a +:+ b) = ends_with c b.
Proof.
  intros Hb. induction a as [|x a IH]; [reflexivity|].
  rewrite append_cons. destruct (a +:+ b) as [|y t] eqn:E.
  - destruct a as [|z a']; [change (b = "") in E; congruence|].
    rewrite append_cons in E. discriminate.
  - cbn [ends_with]. exact IH.
Qed.

Lemma strip_trailing_slash_service base service :
  service <> "" -> ends_with "/" service = false ->
  strip_trailing_slash (base +:+ service) = base +:+ service.
Proof.
  intros Hne Hend.
  pose proof (strip_trailing_slash_spec (base +:+ service)) as H.
  rewrite (ends_with_append _ _ _ Hne), Hend, append_nil_r in H. exact H.
Qed.

Lemma infoClient_baseUrl config :
  baseUrl (infoClient config) = apiUrl config +:+ "/code-studio".
Proof. apply strip_trailing_slash_service; [discriminate|reflexivity]. Qed.

(** [init] on a client that is not initialized, up to the reply. *)
Lemma init_run client w :
  initialized client = false ->
  init client w =
    match plain_outcome (head_reply w) with
    | Resolve appInfo =>
        match getprop appInfo "dataSourceId", getprop appInfo "allowSignup" with
        | Resolve dataSourceId, Resolve allowed =>
            (Resolve tt,
             (initialized_with dataSourceId allowed client,
              fetched (infoClient (config client)) (info_path (config client))
                (get_options None) w))
        | _, _ =>
            (Reject (TypeError "dataSourceId"),
             (client,
              fetched (infoClient (config client)) (info_path (config client))
                (get_options None) w))
        end
    | Reject e =>
        (Reject e,
         (client,
          fetched (infoClient (config client)) (info_path (config client))
            (get_options None) w))
    end.
Proof.
  intros Hinit. unfold init, get. rewrite Hinit.
  rewrite request_plain by reflexivity.
  destruct (plain_outcome (head_reply w)) as [appInfo|e]; [|reflexivity].
  destruct appInfo; reflexivity.
Qed.

(** X25.  [init] on a client that is not initialized makes one call, a
    GET without query or body for the information of the application on
    the code-studio service.  The call is anonymous: its only header is
    the content type, so neither the access token of a signed-in user nor
    the application header goes with it. *)
Theorem init_request_is_anonymous (client : MitraClient) (w : World) :
  initialized client = false ->
  exists req,
    snd (snd (init client w)) = answered req w
    /\ address (req_url req)
       = (apiUrl (config client) +:+ "/code-studio")
           +:+ ("/api/v1/apps/" +:+ client_appId (config client) +:+ "/info")
    /\ query (req_url req) = []
    /\ req_method req = GET
    /\ req_body req = None
    /\ req_headers req = {[ "Content-Type" := HText "application/json" ]}.
Proof.
  intros Hinit. rewrite (init_run client w Hinit).
  exists (buildRequest (infoClient (config client)) (info_path (config client))
            (get_options None) w).
  split.
  { destruct (plain_outcome (head_reply w)) as [appInfo|e]; [|reflexivity].
    destruct (getprop appInfo "dataSourceId"), (getprop appInfo "allowSignup");
      reflexivity. }
  split; [cbn [buildRequest req_url address]; rewrite infoClient_baseUrl; reflexivity|].
  split; [reflexivity|]. split; [reflexivity|]. split; [reflexivity|].
  cbn. rewrite !fmap_empty, !(left_id_L ∅ (∪)). reflexivity.
Qed.

Lemma init_request_is_anonymous_witness :
  initialized Demo.client = false
  /\ exists req,
       snd (snd (init Demo.client (Sample.signed_in [Sample.reply 200 Demo.appInfo])))
       = answered req (Sample.signed_in [Sample.reply 200 Demo.appInfo])
       /\ address (req_url req)
          = ("https://api.mitra.io" +:+ "/code-studio")
              +:+ ("/api/v1/apps/" +:+ "app-1" +:+ "/info")
       /\ query (req_url req) = []
       /\ req_method req = GET
       /\ req_body req = None
       /\ req_headers req = {[ "Content-Type" := HText "application/json" ]}.
Proof.
  split; [reflexivity|].
  apply (init_request_is_anonymous Demo.client
           (Sample.signed_in [Sample.reply 200 Demo.appInfo])).
  reflexivity.
Defined.

(** X26.  [init] answered with an application info that is not
    [null]: the call resolves, the client is initialized, [allowSignup]
    is the one of the reply, and the data source of the reply is the one
    of the queries module and of every table accessor handed out from
    then on, whatever tables were accessed before. *)
Theorem init_sets_the_data_source (client : MitraClient) (w : World)
    (appInfo dataSourceId allowed : JSValue) :
  initialized client = false ->
  plain_outcome (head_reply w) = Resolve appInfo ->
  getprop appInfo "dataSourceId" = Resolve dataSourceId ->
  getprop appInfo "allowSignup" = Resolve allowed ->
  fst (init client w) = Resolve tt
  /\ initialized (fst (snd (init client w))) = true
  /\ allowSignup (fst (snd (init client w))) = allowed
  /\ QueriesModule.dataSourceId (queries (fst (snd (init client w)))) = dataSourceId
  /\ forall Number_toString tableName,
       EntitiesModule.basePath
         (fst (EntitiesModule.getTable Number_toString tableName
                 (entities (fst (snd (init client w))))))
       = "/api/v1/data-sources/" +:+ ToString Number_toString dataSourceId
           +:+ "/tables/" +:+ tableName +:+ "/records".
Proof.
  intros Hinit Hout Hd Ha. rewrite (init_run client w Hinit), Hout, Hd, Ha.
  repeat split; reflexivity.
Qed.

Lemma init_sets_the_data_source_witness :
  (initialized Demo.client = false
   /\ plain_outcome (head_reply (Sample.world0 [Sample.reply 200 Demo.appInfo]))
      = Resolve Demo.appInfo
   /\ getprop Demo.appInfo "dataSourceId" = Resolve (JStr "ds-1")
   /\ getprop Demo.appInfo "allowSignup" = Resolve (JBool false))
  /\ EntitiesModule.basePath
       (fst (EntitiesModule.getTable Demo.Number_toString "Task"
               (entities (fst (snd (init Demo.client
                                      (Sample.world0 [Sample.reply 200 Demo.appInfo])))))))
     = "/api/v1/data-sources/" +:+ "ds-1" +:+ "/tables/" +:+ "Task" +:+ "/records".
Proof.
  split; [repeat split; reflexivity|].
  refine (proj2 (proj2 (proj2 (proj2
            (init_sets_the_data_source Demo.client
               (Sample.world0 [Sample.reply 200 Demo.appInfo])
               Demo.appInfo (JStr "ds-1") (JBool false) _ _ _ _))))
            Demo.Number_toString "Task"); reflexivity.
Defined.

(** X27.  How [init] settles.  Once a call has resolved the client is
    initialized, and every later call resolves at once, without a
    request, leaving the client as it is: [init] is safe to call again.
    A call that rejects has changed nothing of the client: it is still
    not initialized, and the next call will ask again. *)
Theorem init_settles (client : MitraClient) (w w' : World) :
  match fst (init client w) with
  | Resolve _ =>
      initialized (fst (snd (init client w))) = true
      /\ init (fst (snd (init client w))) w'
         = (Resolve tt, (fst (snd (init client w)), w'))
  | Reject _ =>
      fst (snd (init client w)) = client /\ initialized client = false
  end.
Proof.
  destruct (initialized client) eqn:Hinit.
  - unfold init at 1 2 3 4. rewrite Hinit. cbn [fst snd].
    split; [exact Hinit|]. unfold init. rewrite Hinit. reflexivity.
  - rewrite (init_run client w Hinit).
    destruct (plain_outcome (head_reply w)) as [appInfo|e1]; [|split; reflexivity].
    destruct (getprop appInfo "dataSourceId"), (getprop appInfo "allowSignup");
      split; reflexivity.
Qed.

Example init_twice :
  let first := init Demo.client (Sample.world0 [Sample.reply 200 Demo.appInfo]) in
  let again := init (fst (snd first)) (snd (snd first)) in
  fst first = Resolve tt
  /\ again = (Resolve tt, snd first)
  /\ length (sent (snd (snd again))) = 1%nat.
Proof. repeat split; vm_compute; reflexivity. Qed.

Example init_retried_after_a_failure :
  let first := init Demo.client (Sample.world0 [NetworkDown; Sample.reply 200 Demo.appInfo]) in
  let again := init (fst (snd first)) (snd (snd first)) in
  fst first = Reject FetchFailed
  /\ fst (snd first) = Demo.client
  /\ fst again = Resolve tt
  /\ length (sent (snd (snd again))) = 2%nat.
Proof. repeat split; vm_compute; reflexivity. Qed.

(** *** createClient *)

Lemma serviceClient_header_app config service path options w :
  headers options = None ->
  req_headers (buildRequest (serviceClient config service) path options w) !! "X-App-Id"
  = Some (HText (client_appId config)).
Proof.
  intros H. rewrite buildRequest_header, H. cbn. rewrite lookup_singleton_eq. reflexivity.
Qed.

Lemma serviceClient_header_token config service path options w :
  headers options = None ->
  req_headers (buildRequest (serviceClient config service) path options w)
    !! "Authorization"
  = bearer (_accessToken (auth w)).
Proof.
  intros H. rewrite buildRequest_header, H. cbn. unfold bearer, accessToken.
  destruct (truthy (_accessToken (auth w))); [reflexivity|].
  rewrite lookup_singleton_ne by discriminate. reflexivity.
Qed.

(** X28.  [createClient] fails in one case only: the page is denied its
    storage, and the constructor of the auth module throws the error of
    the storage.  In every other case it returns a client that is not
    initialized, allows sign-up, and has an empty data source in the
    entities and queries modules.  Each of its module clients refreshes
    the session on a 401, reports to the hook of the configuration, and
    sends with a call that gives no headers of its own the application
    identifier and, when a token is held at that time, the access token
    of the auth module. *)
Theorem createClient_module_clients (config : MitraClientConfig) (w : World) :
  if storage_denied w then
    result (createClient config w) = Reject StorageError
  else
    exists client,
      createClient config w
      = (Resolve client,
         after (new_AuthModule (client_appId config) (apiUrl config +:+ "/iam") w))
      /\ initialized client = false
      /\ allowSignup client = JBool true
      /\ EntitiesModule.dataSourceId (entities client) = JStr ""
      /\ QueriesModule.dataSourceId (queries client) = JStr ""
      /\ forall c, In c (module_clients client) ->
           onUnauthorized c = Some refreshSession
           /\ onError c = client_onError config
           /\ forall path options w',
                headers options = None ->
                req_headers (buildRequest c path options w') !! "X-App-Id"
                = Some (HText (client_appId config))
                /\ req_headers (buildRequest c path options w') !! "Authorization"
                   = bearer (_accessToken (auth w')).
Proof.
  unfold createClient. run_step.
  destruct (new_AuthModule_shape (client_appId config) (apiUrl config +:+ "/iam") w)
    as (Hres & _).
  destruct (new_AuthModule _ _ w) as [r w1]. cbn [result fst] in Hres. subst r.
  destruct (storage_denied w); [reflexivity|].
  eexists. split; [reflexivity|]. repeat (split; [reflexivity|]).
  intros c Hc. cbn in Hc.
  assert (Hservice : exists service, c = serviceClient config service).
  { destruct Hc as [<-|[<-|[<-|[<-|[]]]]]; eexists; reflexivity. }
  destruct Hservice as [service ->].
  split; [reflexivity|]. split; [reflexivity|].
  intros path options w' Hh.
  split; [apply serviceClient_header_app, Hh|apply serviceClient_header_token, Hh].
Qed.

(** *** An expired access token *)

Ltac storage_throws Hd :=
  match goal with
  | |- context [setAuthState ?u ?t ?r ?w1] => rewrite (setAuthState_denied u t r w1 Hd)
  | |- context [clearAuthState ?w1] => rewrite (clearAuthState_denied w1 Hd)
  end.

(** Where the page is denied its storage, every run of [doRefresh] ends
    in [clearAuthState], which throws once the fields are null. *)
Lemma doRefresh_denied w :
  storage_denied w = true ->
  result (doRefresh w) = Reject StorageError
  /\ session (after (doRefresh w)) = (JNull, JNull, JNull).
Proof.
  intros Hd. unfold doRefresh, post, get. run_step. plain_request.
  destruct (plain_outcome (head_reply w)) as [tokenResponse|e].
  2:{ storage_throws Hd. split; reflexivity. }
  destruct (getprop tokenResponse "accessToken") as [a|e1].
  2:{ storage_throws Hd. split; reflexivity. }
  destruct (getprop tokenResponse "refreshToken") as [rt|e2].
  2:{ storage_throws Hd. split; reflexivity. }
  plain_request.
  match goal with |- context [plain_outcome (head_reply ?w1)] =>
    destruct (plain_outcome (head_reply w1)) as [user|e3] end.
  2:{ storage_throws Hd. split; reflexivity. }
  storage_throws Hd. cbv beta iota. storage_throws Hd. split; reflexivity.
Qed.

(** A call of a module client answered 401, where the page is denied its
    storage: the refresh throws, and so does the call. *)
Lemma request_401_denied (config : MitraClientConfig) (service path : string)
    (options : RequestOptions) (w : World) (r1 : Response) :
  storage_denied w = true ->
  is_retry options = false ->
  truthy (_refreshToken (auth w)) = true ->
  refreshPromise (auth w) = None ->
  head_reply w = Responded r1 ->
  status r1 = 401 ->
  result (request (serviceClient config service) path options w) = Reject StorageError
  /\ session (after (request (serviceClient config service) path options w))
     = (JNull, JNull, JNull)
  /\ isAuthenticated (after (request (serviceClient config service) path options w))
     = false.
Proof.
  intros Hd Hretry Htok Hmark Hhead Hst.
  set (c := serviceClient config service).
  set (w1 := fetched c path options w).
  assert (Hd1 : storage_denied w1 = true) by exact Hd.
  destruct (doRefresh_denied w1 Hd1) as (Hres & Hsession).
  rewrite <- (refreshSession_is_doRefresh w1 Htok Hmark) in Hres, Hsession.
  destruct (refreshSession w1) as [answer w2] eqn:Hrun.
  cbn [result after fst snd] in Hres, Hsession. subst answer.
  destruct (request_401_not_refreshed c path options refreshSession w w2 r1
              (Reject StorageError) eq_refl Hretry Hhead Hst Hrun) as [E _];
    [discriminate|].
  rewrite E. cbn [result after fst snd].
  split; [reflexivity|]. split; [exact Hsession|].
  unfold isAuthenticated. unfold session in Hsession.
  injection Hsession as -> -> _. reflexivity.
Qed.

(** X29.  A call of a module client made with an expired access
    token: the first attempt is answered 401, the refresh token is
    traded for new tokens, the user is fetched, and the call is made a
    second time, now with the new access token.  Four calls in all; the
    caller gets what the second attempt gives, and the Session holds the
    new tokens.  Where the page is denied its storage, the refresh
    throws the error of the storage when it commits the Session: the
    call rejects with that error, is not made again, and the three
    fields are null. *)
Theorem expired_token_is_refreshed_and_retried (config : MitraClientConfig)
    (service path : string) (options : RequestOptions) (w : World) (r1 : Response)
    (reply2 reply3 : FetchOutcome) (rest : list FetchOutcome)
    (tokenResponse accessToken refreshToken user : JSValue) :
  is_retry options = false ->
  truthy (_refreshToken (auth w)) = true ->
  refreshPromise (auth w) = None ->
  network w = Responded r1 :: reply2 :: reply3 :: rest ->
  status r1 = 401 ->
  plain_outcome reply2 = Resolve tokenResponse ->
  getprop tokenResponse "accessToken" = Resolve accessToken ->
  getprop tokenResponse "refreshToken" = Resolve refreshToken ->
  plain_outcome reply3 = Resolve user ->
  truthy accessToken = true ->
  if storage_denied w then
    result (request (serviceClient config service) path options w)
    = Reject StorageError
    /\ session (after (request (serviceClient config service) path options w))
       = (JNull, JNull, JNull)
  else
    exists w2,
      request (serviceClient config service) path options w
      = request (serviceClient config service) path (retried options) w2
      /\ session w2 = (user, accessToken, refreshToken)
      /\ network w2 = rest
      /\ req_headers (buildRequest (serviceClient config service) path
                        (retried options) w2)
           !! "Authorization"
         = Some (HBearer accessToken)
      /\ length (sent (after (request (serviceClient config service) path options w)))
         = (length (sent w) + 4)%nat.
Proof.
  intros Hretry Htok Hmark Hnet Hst H2 Ha Hr H3 Htruthy.
  destruct (storage_denied w) eqn:Hrd.
  { assert (Hhead : head_reply w = Responded r1)
      by (unfold head_reply; rewrite Hnet; reflexivity).
    destruct (request_401_denied config service path options w r1
                Hrd Hretry Htok Hmark Hhead Hst) as (Hres & Hsession & _).
    split; [exact Hres|exact Hsession]. }
  set (c := serviceClient config service).
  set (w1 := with_network (reply2 :: reply3 :: rest)
               (send (buildRequest c path options w) w)).
  assert (Hrd1 : storage_denied w1 = false) by exact Hrd.
  destruct (refreshSession_success w1 reply2 reply3 rest tokenResponse accessToken
              refreshToken user Hrd1 Htok Hmark eq_refl H2 Ha Hr H3)
    as (Hres & Hsession & Hrest & Hlen).
  destruct (refreshSession w1) as [b w2] eqn:Hrun.
  cbn [result after fst snd] in Hres, Hsession, Hrest, Hlen. subst b.
  destruct (request_401_refreshed c path options refreshSession w r1
              (reply2 :: reply3 :: rest) w2 eq_refl Hretry Hnet Hst Hrun)
    as (Hsame & Hsent & _).
  exists w2. split; [exact Hsame|]. split; [exact Hsession|]. split; [exact Hrest|].
  split.
  - rewrite buildRequest_header.
    change (tokenGetter c w2) with (_accessToken (auth w2)).
    injection Hsession as _ Hacc _. rewrite Hacc, Htruthy. reflexivity.
  - rewrite Hsent, length_app, Hlen. unfold w1. cbn. rewrite length_app. cbn. lia.
Qed.

Lemma expired_token_is_refreshed_and_retried_witness :
  (is_retry (get_options None) = false
   /\ truthy (_refreshToken (auth (Sample.signed_in
         [Sample.reply 401 (JObj []); Sample.reply 200 (Sample.tokens "t2" "r2");
          Sample.reply 200 Sample.user1; Sample.reply 200 (JArr [])]))) = true
   /\ refreshPromise (auth (Sample.signed_in
         [Sample.reply 401 (JObj []); Sample.reply 200 (Sample.tokens "t2" "r2");
          Sample.reply 200 Sample.user1; Sample.reply 200 (JArr [])])) = None
   /\ network (Sample.signed_in
         [Sample.reply 401 (JObj []); Sample.reply 200 (Sample.tokens "t2" "r2");
          Sample.reply 200 Sample.user1; Sample.reply 200 (JArr [])])
      = Responded {| status := 401; payload := JsonText (JObj []) |}
          :: Sample.reply 200 (Sample.tokens "t2" "r2")
          :: Sample.reply 200 Sample.user1 :: [Sample.reply 200 (JArr [])]
   /\ status {| status := 401; payload := JsonText (JObj []) |} = 401
   /\ plain_outcome (Sample.reply 200 (Sample.tokens "t2" "r2"))
      = Resolve (Sample.tokens "t2" "r2")
   /\ getprop (Sample.tokens "t2" "r2") "accessToken" = Resolve (JStr "t2")
   /\ getprop (Sample.tokens "t2" "r2") "refreshToken" = Resolve (JStr "r2")
   /\ plain_outcome (Sample.reply 200 Sample.user1) = Resolve Sample.user1
   /\ truthy (JStr "t2") = true)
  /\ exists w2,
       request (serviceClient Demo.settings "/data-manager") "/api/v1/records"
         (get_options None)
         (Sample.signed_in
            [Sample.reply 401 (JObj []); Sample.reply 200 (Sample.tokens "t2" "r2");
             Sample.reply 200 Sample.user1; Sample.reply 200 (JArr [])])
       = request (serviceClient Demo.settings "/data-manager") "/api/v1/records"
           (retried (get_options None)) w2
       /\ session w2 = (Sample.user1, JStr "t2", JStr "r2")
       /\ network w2 = [Sample.reply 200 (JArr [])]
       /\ req_headers (buildRequest (serviceClient Demo.settings "/data-manager")
                         "/api/v1/records" (retried (get_options None)) w2)
            !! "Authorization"
          = Some (HBearer (JStr "t2"))
       /\ length (sent (after (request (serviceClient Demo.settings "/data-manager")
                                 "/api/v1/records" (get_options None)
                                 (Sample.signed_in
                                    [Sample.reply 401 (JObj []);
                                     Sample.reply 200 (Sample.tokens "t2" "r2");
                                     Sample.reply 200 Sample.user1;
                                     Sample.reply 200 (JArr [])]))))
          = (length (sent (Sample.signed_in
                             [Sample.reply 401 (JObj []);
                              Sample.reply 200 (Sample.tokens "t2" "r2");
                              Sample.reply 200 Sample.user1;
                              Sample.reply 200 (JArr [])])) + 4)%nat.
Proof.
  split; [repeat split; reflexivity|].
  refine (expired_token_is_refreshed_and_retried Demo.settings "/data-manager"
            "/api/v1/records" (get_options None)
            (Sample.signed_in
               [Sample.reply 401 (JObj []); Sample.reply 200 (Sample.tokens "t2" "r2");
                Sample.reply 200 Sample.user1; Sample.reply 200 (JArr [])])
            {| status := 401; payload := JsonText (JObj []) |}
            (Sample.reply 200 (Sample.tokens "t2" "r2")) (Sample.reply 200 Sample.user1)
            [Sample.reply 200 (JArr [])]
            (Sample.tokens "t2" "r2") (JStr "t2") (JStr "r2") Sample.user1
            _ _ _ _ _ _ _ _ _ _);
    reflexivity.
Defined.

Lemma raiseApiError_auth c response w :
  auth (after (raiseApiError c response w)) = auth w.
Proof.
  unfold raiseApiError, newMitraApiError, callOnError. run_step.
  destruct (getprop (errorBody_of response) "message"); [|reflexivity].
  destruct (getprop (errorBody_of response) "error_code"); [|reflexivity].
  cbv beta iota. destruct (onError c) as [hook|]; [|reflexivity].
  run_step.
  match goal with |- context [hook ?e] => destruct (hook e) end; reflexivity.
Qed.

(** X30.  A call of a module client made with an expired access token
    when the refresh fails as well (the refresh endpoint rejects the
    refresh token, or cannot be reached): the Session is cleared (three
    nulls, stored record removed, listeners told) and the first 401 is
    raised as the API error.  Two calls were made; the call is not
    repeated.  Where the page is denied its storage, the three fields
    are null as well, but the call rejects with the error of the
    storage, thrown while the Session was cleared, instead of the API
    error. *)
Theorem failed_refresh_signs_the_user_out (config : MitraClientConfig)
    (service path : string) (options : RequestOptions) (w : World) (r1 : Response)
    (reply2 : FetchOutcome) (rest : list FetchOutcome) (e : Exn) :
  is_retry options = false ->
  truthy (_refreshToken (auth w)) = true ->
  refreshPromise (auth w) = None ->
  network w = Responded r1 :: reply2 :: rest ->
  status r1 = 401 ->
  plain_outcome reply2 = Reject e ->
  (if storage_denied w then
     result (request (serviceClient config service) path options w)
     = Reject StorageError
   else
     exists w2,
       request (serviceClient config service) path options w
       = raiseApiError (serviceClient config service) r1 w2
       /\ cleared w2)
  /\ session (after (request (serviceClient config service) path options w))
     = (JNull, JNull, JNull)
  /\ isAuthenticated (after (request (serviceClient config service) path options w))
     = false
  /\ length (sent (after (request (serviceClient config service) path options w)))
     = (length (sent w) + 2)%nat.
Proof.
  intros Hretry Htok Hmark Hnet Hst H2.
  set (c := serviceClient config service).
  set (w1 := fetched c path options w).
  assert (Hhead : head_reply w = Responded r1)
    by (unfold head_reply; rewrite Hnet; reflexivity).
  assert (Hflag : storage_denied w1 = storage_denied w) by reflexivity.
  assert (Hrun : exists answer w2,
            refreshSession w1 = (answer, w2)
            /\ answer = (if storage_denied w then Reject StorageError else Resolve false)
            /\ (storage_denied w = false -> cleared w2)
            /\ session w2 = (JNull, JNull, JNull)
            /\ length (sent w2) = (length (sent w) + 2)%nat).
  { rewrite (refreshSession_is_doRefresh w1 Htok Hmark).
    unfold doRefresh, post. run_step. plain_request.
    replace (head_reply w1) with reply2
      by (unfold head_reply, w1, fetched; cbn; rewrite Hnet; reflexivity).
    rewrite H2.
    destruct (storage_denied w) eqn:Hrd.
    - storage_throws Hflag. eexists _, _. split; [reflexivity|].
      split; [reflexivity|]. split; [discriminate|]. split; [reflexivity|].
      cbn. rewrite !length_app. cbn. lia.
    - match goal with |- context [clearAuthState ?x] =>
        pose proof (clearAuthState_clears x Hflag) as Hc;
        destruct (clearAuthState_shape x Hflag) as (ls & co & n & E);
        rewrite E in Hc |- * end.
      cbn [after snd] in Hc. eexists _, _. split; [reflexivity|].
      split; [reflexivity|]. split; [intros _; exact Hc|].
      split; [exact (proj1 Hc)|].
      cbn. rewrite !length_app. cbn. lia. }
  destruct Hrun as (answer & w2 & Hrun & Hanswer & Hcleared & Hsession & Hlen).
  destruct (request_401_not_refreshed c path options refreshSession w w2 r1
              answer eq_refl Hretry Hhead Hst Hrun) as [E Hsent].
  { rewrite Hanswer. destruct (storage_denied w); discriminate. }
  assert (Hauth : auth (after (request c path options w)) = auth w2).
  { rewrite E. destruct answer; [apply raiseApiError_auth|reflexivity]. }
  split.
  { rewrite E, Hanswer. destruct (storage_denied w); [reflexivity|].
    exists w2. split; [reflexivity|]. apply Hcleared. reflexivity. }
  split; [unfold session in *; rewrite Hauth; exact Hsession|].
  split.
  - unfold isAuthenticated. rewrite Hauth. unfold session in Hsession.
    injection Hsession as -> -> _. reflexivity.
  - rewrite Hsent. exact Hlen.
Qed.

Lemma failed_refresh_signs_the_user_out_witness :
  (is_retry (get_options None) = false
   /\ truthy (_refreshToken (auth (Sample.signed_in
         [Sample.reply 401 (JObj []); Sample.reply 401 (JObj [])]))) = true
   /\ refreshPromise (auth (Sample.signed_in
         [Sample.reply 401 (JObj []); Sample.reply 401 (JObj [])])) = None
   /\ network (Sample.signed_in [Sample.reply 401 (JObj []); Sample.reply 401 (JObj [])])
      = Responded {| status := 401; payload := JsonText (JObj []) |}
          :: Sample.reply 401 (JObj []) :: []
   /\ status {| status := 401; payload := JsonText (JObj []) |} = 401
   /\ plain_outcome (Sample.reply 401 (JObj []))
      = Reject (ApiError (MitraApiError.new (JStr "Request failed with status 401") 401
                            JUndefined (JObj []))))
  /\ (exists w2,
        request (serviceClient Demo.settings "/data-manager") "/api/v1/records"
          (get_options None)
          (Sample.signed_in [Sample.reply 401 (JObj []); Sample.reply 401 (JObj [])])
        = raiseApiError (serviceClient Demo.settings "/data-manager")
            {| status := 401; payload := JsonText (JObj []) |} w2
        /\ cleared w2)
       /\ session (after (request (serviceClient Demo.settings "/data-manager")
                            "/api/v1/records" (get_options None)
                            (Sample.signed_in [Sample.reply 401 (JObj []);
                                               Sample.reply 401 (JObj [])])))
          = (JNull, JNull, JNull)
       /\ isAuthenticated
            (after (request (serviceClient Demo.settings "/data-manager")
                      "/api/v1/records" (get_options None)
                      (Sample.signed_in [Sample.reply 401 (JObj []);
                                         Sample.reply 401 (JObj [])])))
          = false
       /\ length (sent (after (request (serviceClient Demo.settings "/data-manager")
                                 "/api/v1/records" (get_options None)
                                 (Sample.signed_in [Sample.reply 401 (JObj []);
                                                    Sample.reply 401 (JObj [])]))))
          = (length (sent (Sample.signed_in [Sample.reply 401 (JObj []);
                                             Sample.reply 401 (JObj [])])) + 2)%nat.
Proof.
  split; [repeat split; reflexivity|].
  refine (failed_refresh_signs_the_user_out Demo.settings "/data-manager"
            "/api/v1/records" (get_options None)
            (Sample.signed_in [Sample.reply 401 (JObj []); Sample.reply 401 (JObj [])])
            {| status := 401; payload := JsonText (JObj []) |}
            (Sample.reply 401 (JObj [])) []
            (ApiError (MitraApiError.new (JStr "Request failed with status 401") 401
                         JUndefined (JObj [])))
            _ _ _ _ _ _);
    reflexivity.
Defined.

(** *** The calls of a session, one by one *)

(** A dashboard after [init]: what the modules send. *)
Example calls_after_init :
  let ready := fst (snd (init Demo.client (Sample.signed_in [Sample.reply 200 Demo.appInfo]))) in
  let Task := fst (EntitiesModule.getTable Demo.Number_toString "Task" (entities ready)) in
  let ok doc := Sample.reply 200 doc in
  let run :=
    (EntitiesModule.list_ Demo.Number_toString (entities ready) Task
       (Sort "-created_at") (num 10) JUndefined (JArr [JStr "id"; JStr "title"]);;;
     EntitiesModule.get_ Demo.Number_toString (entities ready) Task (JStr "7");;;
     EntitiesModule.create (entities ready) Task (JObj [("title", JStr "x")]);;;
     EntitiesModule.update Demo.Number_toString (entities ready) Task (JStr "7")
       (JObj [("done", JBool true)]);;;
     EntitiesModule.delete_ Demo.Number_toString (entities ready) Task (JStr "7");;;
     EntitiesModule.bulkCreate (entities ready) Task (JArr []);;;
     QueriesModule.execute (queries ready) "q-1" JUndefined)
      (Sample.signed_in
         [ok (JObj [("data", JArr [])]); ok (JObj []); ok (JObj []); ok (JObj []);
          Responded {| status := 204; payload := RawText "" |}; ok (JArr []);
          ok (JObj [("rows", JArr [])])]) in
  result run = Resolve (JObj [("rows", JArr [])])
  /\ List.map (fun r => (req_method r, address (req_url r), query (req_url r), req_body r))
       (sent (after run))
     = [(GET, "https://api.mitra.io/data-manager/api/v1/data-sources/ds-1/tables/Task/records",
         [("sort", JStr "-created_at"); ("limit", num 10); ("fields", JStr "id,title")],
         None);
        (GET, "https://api.mitra.io/data-manager/api/v1/data-sources/ds-1/tables/Task/records/7",
         [], None);
        (POST, "https://api.mitra.io/data-manager/api/v1/data-sources/ds-1/tables/Task/records",
         [], Some (JsonText (JObj [("title", JStr "x")])));
        (PUT, "https://api.mitra.io/data-manager/api/v1/data-sources/ds-1/tables/Task/records/7",
         [], Some (JsonText (JObj [("done", JBool true)])));
        (DELETE, "https://api.mitra.io/data-manager/api/v1/data-sources/ds-1/tables/Task/records/7",
         [], None);
        (POST, "https://api.mitra.io/data-manager/api/v1/data-sources/ds-1/tables/Task/records/bulk",
         [], Some (JsonText (JArr [])));
        (POST, "https://api.mitra.io/data-manager/api/v1/custom-queries/q-1/execute",
         [], Some (JsonText (JObj [("datasourceId", JStr "ds-1")])))].
Proof. split; vm_compute; reflexivity. Qed.

(** Without [init] the data source is the empty text. *)
Example calls_before_init :
  let Task := fst (EntitiesModule.getTable Demo.Number_toString "Task"
                     (entities Demo.client)) in
  EntitiesModule.basePath Task = "/api/v1/data-sources//tables/Task/records"
  /\ List.map req_body
       (sent (after (QueriesModule.execute (queries Demo.client) "q-1"
                       (JObj [("status", JStr "active")])
                       (Sample.signed_in [Sample.reply 200 (JObj [])]))))
     = [Some (JsonText (JObj [("datasourceId", JStr "");
                              ("parameters", JObj [("status", JStr "active")])]))].
Proof. split; vm_compute; reflexivity. Qed.

(** [list] answered 204 has no [data] to return; a [fields] argument
    that is no array fails before any call is made. *)
Example list_edge_cases :
  let Task := {| EntitiesModule.basePath := "/api/v1/data-sources/ds-1/tables/Task/records" |} in
  result (EntitiesModule.list_ Demo.Number_toString (entities Demo.client) Task NoSort
            JUndefined JUndefined JUndefined
            (Sample.signed_in [Responded {| status := 204; payload := RawText "" |}]))
  = Reject (TypeError "data")
  /\ List.map (fun r => query (req_url r))
       (sent (after (EntitiesModule.list_ Demo.Number_toString (entities Demo.client)
                       Task NoSort JUndefined JUndefined JUndefined
                       (Sample.signed_in
                          [Responded {| status := 204; payload := RawText "" |}]))))
     = [[]]
  /\ EntitiesModule.list_ Demo.Number_toString (entities Demo.client) Task NoSort
       JUndefined JUndefined (JStr "id,title") (Sample.signed_in [])
     = (Reject (TypeError "join"), Sample.signed_in []).
Proof. repeat split; vm_compute; reflexivity. Qed.

(** [filter] and [deleteMany] send the query as JSON text; the other
    parameters of [filter] are those of [list]. *)
Example filter_and_deleteMany :
  let Task := {| EntitiesModule.basePath := "/api/v1/data-sources/ds-1/tables/Task/records" |} in
  let text := fun _ : JSValue => "{...}" in
  let run :=
    (EntitiesModule.filter_ Demo.Number_toString text (entities Demo.client) Task
       (JObj [("status", JStr "pending")]) (JStr "-created_at") JUndefined JUndefined
       JUndefined;;;
     EntitiesModule.deleteMany text (entities Demo.client) Task
       (JObj [("status", JStr "done")]))
      (Sample.signed_in [Sample.reply 200 (JObj [("data", JArr [])]);
                         Sample.reply 200 (JObj [("deleted", num 3)])]) in
  result run = Resolve (JObj [("deleted", num 3)])
  /\ List.map (fun r => (req_method r, query (req_url r))) (sent (after run))
     = [(GET, [("q", JStr "{...}"); ("sort", JStr "-created_at")]);
        (DELETE, [("q", JStr "{...}")])].
Proof. split; vm_compute; reflexivity. Qed.

(** Conversions to text. *)
Example conversions :
  ToString Demo.Number_toString (JArr [JStr "a"; JNull; JArr [JBool true; JUndefined]; JObj []])
  = "a,,true,,[object Object]"
  /\ encodeURIComponent "/orders?id=7&tab=a b" = "%2Forders%3Fid%3D7%26tab%3Da%20b"
  /\ unescape (encodeURIComponent "/orders?id=7&tab=a b") = "/orders?id=7&tab=a b".
Proof. repeat split; vm_compute; reflexivity. Qed.
